(** * openai-assistants-go: the run lifecycle engine

    A shallow embedding of the parts of the Go client that decode a
    Server-Sent-Events stream (package [runs], [createRunStream] and
    [SubmitToolOutputsStream]), send requests through the transport
    (package [client], [SendRequest]), expose the run gateway
    ([Create], [Get], [Modify], [SubmitToolOutputs], [Cancel] and the
    streaming entry points; [List] is left out) and poll a run until it
    settles ([waitForRun], [waitForRunCompletion] of the example
    programs).

    Go strings are byte sequences: they are [string]s here, one [ascii]
    per byte.  A Go [(T, error)] result is a [result T].  What the Go
    standard library and the remote service do is not code of the
    repository; it enters as parameters ([strings.TrimSpace], the JSON
    codec, [http.NewRequest], the HTTP round trip). *)

From Stdlib Require Import String Ascii ZArith Lia List Bool.
From stdpp Require Import base strings list gmap pretty.
From Equations Require Import Equations.
Import ListNotations.

Local Open Scope Z_scope.

(** ** Byte strings *)

Definition newline : ascii := "010"%char.
Definition quote : string := String "034"%char EmptyString.

(** [strings.HasPrefix(s, prefix)]. *)
Definition HasPrefix (s prefix : string) : bool := String.prefix prefix s.

(** [strings.TrimPrefix(s, prefix)]: [s] without the leading [prefix],
    or [s] itself when it does not start with it. *)
Definition TrimPrefix (s prefix : string) : string :=
  if HasPrefix s prefix
  then String.substring (String.length prefix)
         (String.length s - String.length prefix) s
  else s.

(** The fast path of [strings.TrimSpace]: the six ASCII white-space
    bytes of its [asciiSpace] table are cut from both ends.  On a string
    of ASCII bytes this is all that [strings.TrimSpace] does. *)
Definition asciiSpace (c : ascii) : bool :=
  match nat_of_ascii c with
  | 9%nat | 10%nat | 11%nat | 12%nat | 13%nat | 32%nat => true
  | _ => false
  end.

Fixpoint trimLeft (s : string) : string :=
  match s with
  | String c s' => if asciiSpace c then trimLeft s' else s
  | EmptyString => EmptyString
  end.

Fixpoint trimRight (s : string) : string :=
  match s with
  | String c s' =>
      match trimRight s' with
      | EmptyString => if asciiSpace c then EmptyString else String c EmptyString
      | t => String c t
      end
  | EmptyString => EmptyString
  end.

Definition TrimSpace_ascii (s : string) : string := trimRight (trimLeft s).

(** Concatenation of a list of byte strings. *)
Definition bytesOf (ls : list string) : string :=
  fold_right String.append EmptyString ls.

(** ** Errors *)

(** [client.APIError]: the error body of the remote service. *)
Module APIError.
Record t : Type := mk {
  Message : string;
  Type_ : string;
  Param : string;
  Code : string
}.
End APIError.

(** Go [error] values.  [Foreign] is an error made by the runtime or the
    standard library (network, read, JSON codec, URL parsing), known by
    its message; [errorString] and [wrapError] are what [fmt.Errorf]
    builds without and with the [%w] verb. *)
Inductive error : Type :=
| io_EOF
| Foreign (msg : string)
| errorString (msg : string)
| wrapError (msg : string) (err : error)
| apiError (e : APIError.t).

(** The [Error()] method. *)
Definition Error (e : error) : string :=
  match e with
  | io_EOF => "EOF"
  | Foreign msg => msg
  | errorString msg => msg
  | wrapError msg _ => msg
  | apiError e =>
      "OpenAI API error: " +:+ APIError.Message e +:+ " (type: " +:+
      APIError.Type_ e +:+ ", code: " +:+ APIError.Code e +:+ ")"
  end.

(** [fmt.Errorf(prefix + "%w", err)]. *)
Definition Errorf_w (prefix : string) (err : error) : error :=
  wrapError (prefix +:+ Error err) err.

Inductive result (A : Type) : Type :=
| Ok (a : A)
| Err (e : error).
Arguments Ok {A} a.
Arguments Err {A} e.

(** ** Readers *)

(** The body of an HTTP response as the client reads it: the bytes still
    to come, and the condition that ends the stream once they are
    consumed ([io_EOF] for a clean close, any other error for a failed
    read). *)
Record Reader : Type := mkReader {
  unread : string;
  failure : error
}.

(** The first line of [s] with its terminating newline, and what
    follows it; [None] when [s] holds no newline. *)
Fixpoint cutLine (s : string) : option (string * string) :=
  match s with
  | EmptyString => None
  | String c s' =>
      if Ascii.eqb c newline then Some (String c EmptyString, s')
      else match cutLine s' with
           | Some (l, rest) => Some (String c l, rest)
           | None => None
           end
  end.

(** [bufio.Reader.ReadString('\n')]: the bytes up to and including the
    first newline and no error; when the stream ends before a newline,
    the bytes read so far together with the error. *)
Definition ReadString (r : Reader) : string * option error * Reader :=
  match cutLine (unread r) with
  | Some (line, rest) => (line, None, mkReader rest (failure r))
  | None => (unread r, Some (failure r), mkReader EmptyString (failure r))
  end.

(** [io.ReadAll]. *)
Definition ReadAll (r : Reader) : string * option error :=
  match failure r with
  | io_EOF => (unread r, None)
  | e => (unread r, Some e)
  end.

(** ** The SSE decoder *)

(** [runs.RunEvent].  [Data] is a [json.RawMessage], a byte slice:
    [None] is the nil slice of an event built without data. *)
Module RunEvent.
Record t : Type := mk {
  Event : string;
  Data : option string
}.
End RunEvent.

Definition doneEvent : RunEvent.t := RunEvent.mk "done" None.

(** [RunEvent{Event: "error", Data: fmt.Sprintf(`{"error":"%s"}`, err.Error())}]. *)
Definition errorEvent (err : error) : RunEvent.t :=
  RunEvent.mk "error"
    (Some ("{" +:+ quote +:+ "error" +:+ quote +:+ ":" +:+ quote +:+
           Error err +:+ quote +:+ "}")).

Definition inspect {A : Type} (x : A) : {y : A | x = y} := exist _ x eq_refl.

Lemma cutLine_shorter (s l rest : string) :
  cutLine s = Some (l, rest) -> (String.length rest < String.length s)%nat.
Proof.
  revert l rest.
  induction s as [|c s IH]; intros l rest; simpl; [discriminate|].
  destruct (Ascii.eqb c newline).
  - intros [= <- <-]. lia.
  - destruct (cutLine s) as [[l' r']|]; [|discriminate].
    intros [= <- <-]. specialize (IH _ _ eq_refl). lia.
Qed.

Lemma ReadString_shorter (r r' : Reader) (line : string) :
  ReadString r = (line, None, r') ->
  (String.length (unread r') < String.length (unread r))%nat.
Proof.
  unfold ReadString.
  destruct (cutLine (unread r)) as [[l rest]|] eqn:E; [|discriminate].
  intros [= <- <-]. simpl. eapply cutLine_shorter; eauto.
Qed.

Section Decoder.

(** [strings.TrimSpace] of the Go standard library. *)
Variable TrimSpace : string -> string.

(** The loop of the goroutine that [createRunStream] (lines 284-320)
    and [SubmitToolOutputsStream] (lines 461-497) start, statement for
    statement the same in both.  The result is the sequence of events
    sent on the channel [events] before it is closed, for a consumer
    that receives every event (the channel is unbuffered: each send
    waits for its receive). *)
Equations? sseLoop (reader : Reader) (currentEvent : string) : list RunEvent.t
  by wf (String.length (unread reader)) lt :=
sseLoop reader currentEvent with inspect (ReadString reader) := {
  | @exist _ _ (pair (pair _ (Some err)) _) _ =>
      match err with
      | io_EOF => []
      | _ => [errorEvent err]
      end ;
  | @exist _ _ (pair (pair line None) reader') _ =>
      let trimmed := TrimSpace line in
      if String.eqb trimmed "" then sseLoop reader' currentEvent
      else if HasPrefix trimmed "event: "
      then sseLoop reader' (TrimPrefix trimmed "event: ")
      else if HasPrefix trimmed "data: "
      then
        let data := TrimPrefix trimmed "data: " in
        if String.eqb data "[DONE]" then [doneEvent]
        else RunEvent.mk currentEvent (Some data) :: sseLoop reader' currentEvent
      else sseLoop reader' currentEvent }.
Proof.
  all: eapply ReadString_shorter; eauto.
Qed.

(** The goroutine of [createRunStream]: [currentEvent] starts empty. *)
Definition createRunStream_goroutine (body : Reader) : list RunEvent.t :=
  sseLoop body "".

(** The goroutine of [SubmitToolOutputsStream]. *)
Definition SubmitToolOutputsStream_goroutine (body : Reader) : list RunEvent.t :=
  sseLoop body "".

(** *** The stream seen as lines

    The notions the decoder's contract speaks of, read off the tests of
    the loop: what makes a line an event-name line or a data line, and
    the sentinel. *)

(** A complete line: bytes that [ReadString] hands over whole, that is
    a newline-free text followed by one newline. *)
Definition isLine (l : string) : Prop := cutLine l = Some (l, EmptyString).

(** The name an event-name line sets. *)
Definition nameOf (line : string) : option string :=
  let trimmed := TrimSpace line in
  if String.eqb trimmed "" then None
  else if HasPrefix trimmed "event: " then Some (TrimPrefix trimmed "event: ")
  else None.

(** The payload of a data line. *)
Definition payloadOf (line : string) : option string :=
  let trimmed := TrimSpace line in
  if String.eqb trimmed "" then None
  else if HasPrefix trimmed "event: " then None
  else if HasPrefix trimmed "data: " then Some (TrimPrefix trimmed "data: ")
  else None.

(** A data line whose payload is the literal [[DONE]]. *)
Definition isDoneLine (line : string) : bool :=
  match payloadOf line with
  | Some data => String.eqb data "[DONE]"
  | None => false
  end.

(** The nearest preceding explicit event name, as the contract words
    it: the lines before the point of interest are given nearest first,
    and the first event-name line met decides; with none, the name is
    empty as at the start.  The loop itself keeps a current name
    ([nameAfter]); the two are proved equal. *)
Fixpoint nearestEventName (preceding : list string) : string :=
  match preceding with
  | [] => ""
  | l :: older =>
      match nameOf l with
      | Some name => name
      | None => nearestEventName older
      end
  end.

(** The current event name after the lines [ls], starting from [cur]. *)
Definition nameAfter (cur : string) (ls : list string) : string :=
  fold_left (fun cur l => match nameOf l with Some n => n | None => cur end) ls cur.

(** The events of the data lines among [ls], none of them a sentinel. *)
Fixpoint dataEvents (cur : string) (ls : list string) : list RunEvent.t :=
  match ls with
  | [] => []
  | l :: ls' =>
      match nameOf l, payloadOf l with
      | Some name, _ => dataEvents name ls'
      | None, Some data => RunEvent.mk cur (Some data) :: dataEvents cur ls'
      | None, None => dataEvents cur ls'
      end
  end.

End Decoder.

(** ** The data model of package [runs] *)

(** A Go [interface{}] field: a dynamic value that the client only
    passes through to and from the JSON codec. *)
#[warnings="-register-all"]
Inductive any : Type :=
| Nil
| Bool (b : bool)
| Number (bits : Z)
| Str (s : string)
| Slice (items : list any)
| Map (entries : list (string * any)).

(** A [float64], as its 64 bits; the client does no arithmetic on it. *)
Definition float64 : Type := Z.

(** [types.Metadata], a [map[string]interface{}]. *)
Module types.
Definition Metadata : Type := gmap string any.
End types.

Module FunctionCall.
Record t : Type := mk {
  Name : string;
  Arguments : string;
  Output : string
}.
End FunctionCall.

Module ToolCall.
Record t : Type := mk {
  ID : string;
  Type_ : string;
  Function : option FunctionCall.t
}.
End ToolCall.

Module SubmitToolOutputs.
Record t : Type := mk {
  ToolCalls : list ToolCall.t
}.
End SubmitToolOutputs.

Module RequiredAction.
Record t : Type := mk {
  Type_ : string;
  SubmitToolOutputs : option SubmitToolOutputs.t
}.
End RequiredAction.

Module ErrorObject.
Record t : Type := mk {
  Code : string;
  Message : string
}.
End ErrorObject.

Module Usage.
Record t : Type := mk {
  PromptTokens : Z;
  CompletionTokens : Z;
  TotalTokens : Z
}.
End Usage.

Module FunctionTool.
Record t : Type := mk {
  Name : string;
  Description : string;
  Parameters : any
}.
End FunctionTool.

Module Tool.
Record t : Type := mk {
  Type_ : string;
  Function : option FunctionTool.t
}.
End Tool.

Module CodeInterpreterResources.
Record t : Type := mk {
  FileIDs : list string
}.
End CodeInterpreterResources.

Module FileSearchResources.
Record t : Type := mk {
  VectorStoreIDs : list string
}.
End FileSearchResources.

Module ToolResources.
Record t : Type := mk {
  CodeInterpreter : option CodeInterpreterResources.t;
  FileSearch : option FileSearchResources.t
}.
End ToolResources.

Module TruncationStrategy.
Record t : Type := mk {
  Type_ : string;
  LastMessages : option Z
}.
End TruncationStrategy.

(** [runs.Run]: a pointer field is an [option], [None] for nil. *)
Module Run.
Record t : Type := mk {
  ID : string;
  Object : string;
  CreatedAt : Z;
  ThreadID : string;
  AssistantID : string;
  Status : string;
  RequiredAction : option RequiredAction.t;
  LastError : option ErrorObject.t;
  ExpiresAt : option Z;
  StartedAt : option Z;
  CancelledAt : option Z;
  FailedAt : option Z;
  CompletedAt : option Z;
  Model : string;
  Instructions : option string;
  Tools : list Tool.t;
  ToolResources : option ToolResources.t;
  Metadata : types.Metadata;
  Usage : option Usage.t;
  Temperature : option float64;
  TopP : option float64;
  MaxPromptTokens : option Z;
  MaxCompletionTokens : option Z;
  TruncationStrategy : option TruncationStrategy.t;
  ResponseFormat : any;
  ToolChoice : any;
  ParallelToolCalls : bool
}.
End Run.

Module CreateRunRequest.
Record t : Type := mk {
  AssistantID : string;
  Model : option string;
  Instructions : option string;
  AdditionalInstructions : option string;
  Tools : list Tool.t;
  ToolResources : option ToolResources.t;
  Metadata : types.Metadata;
  Temperature : option float64;
  TopP : option float64;
  Stream : bool;
  MaxPromptTokens : option Z;
  MaxCompletionTokens : option Z;
  TruncationStrategy : option TruncationStrategy.t;
  ResponseFormat : any;
  ToolChoice : any;
  ParallelToolCalls : option bool
}.

(** The assignment [req.Stream = v]. *)
Definition setStream (v : bool) (req : t) : t :=
  mk (AssistantID req) (Model req) (Instructions req)
     (AdditionalInstructions req) (Tools req) (ToolResources req)
     (Metadata req) (Temperature req) (TopP req) v
     (MaxPromptTokens req) (MaxCompletionTokens req)
     (TruncationStrategy req) (ResponseFormat req) (ToolChoice req)
     (ParallelToolCalls req).
End CreateRunRequest.

Module Message.
Record t : Type := mk {
  Role : string;
  Content : string;
  Metadata : types.Metadata
}.
End Message.

Module ThreadRequest.
Record t : Type := mk {
  Messages : list Message.t;
  Metadata : types.Metadata
}.
End ThreadRequest.

(** [CreateThreadAndRunRequest] embeds a [CreateRunRequest]: the
    selector [req.Stream] is the [Stream] of the embedded struct. *)
Module CreateThreadAndRunRequest.
Record t : Type := mk {
  AssistantID : string;
  Thread : option ThreadRequest.t;
  CreateRunRequest : CreateRunRequest.t
}.

Definition Stream (req : t) : bool :=
  CreateRunRequest.Stream (CreateRunRequest req).

Definition setStream (v : bool) (req : t) : t :=
  mk (AssistantID req) (Thread req)
     (CreateRunRequest.setStream v (CreateRunRequest req)).
End CreateThreadAndRunRequest.

Module ToolOutput.
Record t : Type := mk {
  ToolCallID : string;
  Output : string
}.
End ToolOutput.

Module SubmitToolOutputsRequest.
Record t : Type := mk {
  ToolOutputs : list ToolOutput.t;
  Stream : bool
}.

Definition setStream (v : bool) (req : t) : t := mk (ToolOutputs req) v.
End SubmitToolOutputsRequest.

(** ** The transport: package [client] *)

(** An [http.Request] as the client fills it.  [Header.Set] replaces
    the value of a key, which [<[k:=v]>] does on a map. *)
Module Request.
Record t : Type := mk {
  Method : string;
  URL : string;
  Header : gmap string string;
  Body : option string
}.

Definition HeaderSet (k v : string) (req : t) : t :=
  mk (Method req) (URL req) (<[k:=v]> (Header req)) (Body req).
End Request.

Module Response.
Record t : Type := mk {
  StatusCode : Z;
  Body : Reader
}.
End Response.

Definition StatusOK : Z := 200.

(** [client.Client].  [HTTPClient] stands for [HTTPClient.Do]: the
    network and the remote service, whose answer to a request may depend
    on the requests made before it. *)
Module Client.
Record t : Type := mk {
  BaseURL : string;
  APIKey : string;
  HTTPClient : list Request.t -> Request.t -> result Response.t
}.
End Client.

(** The values the gateway hands to [json.Marshal]: what a request
    pointer points to at that moment ([None] for a nil pointer), or the
    map that [Modify] builds around the metadata. *)
Inductive marshalled : Type :=
| ofCreateRunRequest (v : option CreateRunRequest.t)
| ofCreateThreadAndRunRequest (v : option CreateThreadAndRunRequest.t)
| ofSubmitToolOutputsRequest (v : option SubmitToolOutputsRequest.t)
| ofMetadata (m : types.Metadata).

(** What the client uses of the Go standard library. *)
Record Library : Type := mkLibrary {
  (** [strings.TrimSpace] *)
  strings_TrimSpace : string -> string;
  (** [json.Marshal] *)
  json_Marshal : marshalled -> result string;
  (** [json.Unmarshal] into a [*Run] *)
  json_Unmarshal_Run : string -> result Run.t;
  (** [json.Unmarshal] into a [*APIError] *)
  json_Unmarshal_APIError : string -> result APIError.t;
  (** the error of [http.NewRequest(method, url, body)], if any *)
  http_NewRequest : string -> string -> option error
}.

(** Heap addresses of the request structs that callers pass by pointer. *)
Definition loc : Type := positive.

(** The state the gateway works on: the caller's request structs, by
    type, and the requests handed to the transport so far, oldest
    first.  An address absent from its heap is the nil pointer. *)
Record World : Type := mkWorld {
  createRunRequests : gmap loc CreateRunRequest.t;
  createThreadAndRunRequests : gmap loc CreateThreadAndRunRequest.t;
  submitToolOutputsRequests : gmap loc SubmitToolOutputsRequest.t;
  sent : list Request.t
}.

(** [HTTPClient.Do(req)]. *)
Definition Do (c : Client.t) (req : Request.t) (w : World)
  : result Response.t * World :=
  (Client.HTTPClient c (sent w) req,
   mkWorld (createRunRequests w) (createThreadAndRunRequests w)
     (submitToolOutputsRequests w) (sent w ++ [req])).

(** [http.NewRequest(method, url, body)]. *)
Definition NewRequest (lib : Library) (method url : string) (body : option string)
  : result Request.t :=
  match http_NewRequest lib method url with
  | Some err => Err err
  | None => Ok (Request.mk method url ∅ body)
  end.

Section Transport.

Variable lib : Library.

(** [Client.SendRequest(req, v)]; [unmarshal] is [json.Unmarshal]
    at the type of [v], and the value decoded into [v] is returned with
    the nil error. *)
Definition SendRequest {V : Type} (c : Client.t) (req : Request.t)
    (unmarshal : string -> result V) (w : World) : result V * World :=
  let req := Request.HeaderSet "Authorization" ("Bearer " +:+ Client.APIKey c) req in
  let req := Request.HeaderSet "Content-Type" "application/json" req in
  let '(r, w) := Do c req w in
  match r with
  | Err err => (Err (Errorf_w "failed to send request: " err), w)
  | Ok resp =>
      match ReadAll (Response.Body resp) with
      | (_, Some err) => (Err (Errorf_w "failed to read response body: " err), w)
      | (body, None) =>
          if negb (Response.StatusCode resp =? StatusOK)
          then
            match json_Unmarshal_APIError lib body with
            | Err _ =>
                (Err (errorString
                        ("API request failed with status " +:+
                         pretty (Response.StatusCode resp) +:+ ": " +:+ body)), w)
            | Ok apiErr => (Err (apiError apiErr), w)
            end
          else
            match unmarshal body with
            | Err err => (Err (Errorf_w "failed to decode response: " err), w)
            | Ok v => (Ok v, w)
            end
      end
  end.

End Transport.

(** ** The run gateway: package [runs] *)

(** The [interface{}] argument of [createRun] and [createRunStream]: a
    pointer to one of the two request structs. *)
Inductive requestRef : Type :=
| refCreateRunRequest (p : loc)
| refCreateThreadAndRunRequest (p : loc).

(** What [json.Marshal] finds behind such a pointer. *)
Definition load (w : World) (req : requestRef) : marshalled :=
  match req with
  | refCreateRunRequest p => ofCreateRunRequest (createRunRequests w !! p)
  | refCreateThreadAndRunRequest p =>
      ofCreateThreadAndRunRequest (createThreadAndRunRequests w !! p)
  end.

(** A call either returns its [(T, error)] pair or panics (a nil
    pointer is dereferenced). *)
Inductive outcome (A : Type) : Type :=
| Returns (r : result A)
| Panics.
Arguments Returns {A} r.
Arguments Panics {A}.

Module Service.
Section Methods.

Variable lib : Library.

(** The [client] field of the [Service]. *)
Variable c : Client.t.

(** [prepareRequest]. *)
Definition prepareRequest (req : Request.t) : Request.t :=
  let req := Request.HeaderSet "Authorization" ("Bearer " +:+ Client.APIKey c) req in
  let req := Request.HeaderSet "OpenAI-Beta" "assistants=v2" req in
  Request.HeaderSet "Content-Type" "application/json" req.

(** [createRun]. *)
Definition createRun (url : string) (req : requestRef) (w : World)
  : result Run.t * World :=
  match json_Marshal lib (load w req) with
  | Err err => (Err err, w)
  | Ok body =>
      match NewRequest lib "POST" url (Some body) with
      | Err err => (Err err, w)
      | Ok httpReq =>
          let httpReq := Request.HeaderSet "OpenAI-Beta" "assistants=v2" httpReq in
          SendRequest lib c httpReq (json_Unmarshal_Run lib) w
      end
  end.

(** [createRunStream].  The channel it returns is given by the events
    that its goroutine delivers before closing it. *)
Definition createRunStream (url : string) (req : requestRef) (w : World)
  : result (list RunEvent.t) * World :=
  match json_Marshal lib (load w req) with
  | Err err => (Err err, w)
  | Ok body =>
      match NewRequest lib "POST" url (Some body) with
      | Err err => (Err err, w)
      | Ok httpReq =>
          let httpReq := prepareRequest httpReq in
          let '(r, w) := Do c httpReq w in
          match r with
          | Err err => (Err err, w)
          | Ok resp =>
              if negb (Response.StatusCode resp =? StatusOK)
              then (Err (errorString ("unexpected status code: " +:+
                                      pretty (Response.StatusCode resp))), w)
              else (Ok (createRunStream_goroutine (strings_TrimSpace lib)
                          (Response.Body resp)), w)
          end
      end
  end.

(** [Create]. *)
Definition Create (threadID : string) (req : loc) (w : World)
  : result Run.t * World :=
  createRun (Client.BaseURL c +:+ "/threads/" +:+ threadID +:+ "/runs")
    (refCreateRunRequest req) w.

(** [CreateAndStream]: [req.Stream = true], then [createRunStream]. *)
Definition CreateAndStream (threadID : string) (req : loc) (w : World)
  : outcome (list RunEvent.t) * World :=
  match createRunRequests w !! req with
  | None => (Panics, w)
  | Some v =>
      let w := mkWorld (<[req := CreateRunRequest.setStream true v]> (createRunRequests w))
                 (createThreadAndRunRequests w) (submitToolOutputsRequests w) (sent w) in
      let '(r, w) :=
        createRunStream (Client.BaseURL c +:+ "/threads/" +:+ threadID +:+ "/runs")
          (refCreateRunRequest req) w in
      (Returns r, w)
  end.

(** [CreateThreadAndRun]. *)
Definition CreateThreadAndRun (req : loc) (w : World) : result Run.t * World :=
  createRun (Client.BaseURL c +:+ "/threads/runs")
    (refCreateThreadAndRunRequest req) w.

(** [CreateThreadAndRunStream]. *)
Definition CreateThreadAndRunStream (req : loc) (w : World)
  : outcome (list RunEvent.t) * World :=
  match createThreadAndRunRequests w !! req with
  | None => (Panics, w)
  | Some v =>
      let w := mkWorld (createRunRequests w)
                 (<[req := CreateThreadAndRunRequest.setStream true v]>
                    (createThreadAndRunRequests w))
                 (submitToolOutputsRequests w) (sent w) in
      let '(r, w) :=
        createRunStream (Client.BaseURL c +:+ "/threads/runs")
          (refCreateThreadAndRunRequest req) w in
      (Returns r, w)
  end.

(** [Get]. *)
Definition Get (threadID runID : string) (w : World) : result Run.t * World :=
  match NewRequest lib "GET"
          (Client.BaseURL c +:+ "/threads/" +:+ threadID +:+ "/runs/" +:+ runID)
          None with
  | Err err => (Err err, w)
  | Ok req =>
      let req := Request.HeaderSet "OpenAI-Beta" "assistants=v2" req in
      SendRequest lib c req (json_Unmarshal_Run lib) w
  end.

(** [Modify]. *)
Definition Modify (threadID runID : string) (metadata : types.Metadata) (w : World)
  : result Run.t * World :=
  match json_Marshal lib (ofMetadata metadata) with
  | Err err => (Err err, w)
  | Ok body =>
      match NewRequest lib "POST"
              (Client.BaseURL c +:+ "/threads/" +:+ threadID +:+ "/runs/" +:+ runID)
              (Some body) with
      | Err err => (Err err, w)
      | Ok req =>
          let req := Request.HeaderSet "OpenAI-Beta" "assistants=v2" req in
          SendRequest lib c req (json_Unmarshal_Run lib) w
      end
  end.

(** [SubmitToolOutputs]. *)
Definition SubmitToolOutputs (threadID runID : string) (req : loc) (w : World)
  : result Run.t * World :=
  match json_Marshal lib
          (ofSubmitToolOutputsRequest (submitToolOutputsRequests w !! req)) with
  | Err err => (Err err, w)
  | Ok body =>
      match NewRequest lib "POST"
              (Client.BaseURL c +:+ "/threads/" +:+ threadID +:+ "/runs/" +:+
               runID +:+ "/submit_tool_outputs")
              (Some body) with
      | Err err => (Err err, w)
      | Ok httpReq =>
          let httpReq := Request.HeaderSet "OpenAI-Beta" "assistants=v2" httpReq in
          SendRequest lib c httpReq (json_Unmarshal_Run lib) w
      end
  end.

(** [SubmitToolOutputsStream]. *)
Definition SubmitToolOutputsStream (threadID runID : string) (req : loc) (w : World)
  : outcome (list RunEvent.t) * World :=
  match submitToolOutputsRequests w !! req with
  | None => (Panics, w)
  | Some v =>
      let w := mkWorld (createRunRequests w) (createThreadAndRunRequests w)
                 (<[req := SubmitToolOutputsRequest.setStream true v]>
                    (submitToolOutputsRequests w))
                 (sent w) in
      match json_Marshal lib
              (ofSubmitToolOutputsRequest (submitToolOutputsRequests w !! req)) with
      | Err err => (Returns (Err err), w)
      | Ok body =>
          match NewRequest lib "POST"
                  (Client.BaseURL c +:+ "/threads/" +:+ threadID +:+ "/runs/" +:+
                   runID +:+ "/submit_tool_outputs")
                  (Some body) with
          | Err err => (Returns (Err err), w)
          | Ok httpReq =>
              let httpReq := prepareRequest httpReq in
              let '(r, w) := Do c httpReq w in
              match r with
              | Err err => (Returns (Err err), w)
              | Ok resp =>
                  if negb (Response.StatusCode resp =? StatusOK)
                  then (Returns (Err (errorString
                                        ("unexpected status code: " +:+
                                         pretty (Response.StatusCode resp)))), w)
                  else (Returns (Ok (SubmitToolOutputsStream_goroutine
                                       (strings_TrimSpace lib)
                                       (Response.Body resp))), w)
              end
          end
      end
  end.

(** [Cancel]; what it prints on the console is left out. *)
Definition Cancel (threadID runID : string) (w : World) : result Run.t * World :=
  match NewRequest lib "POST"
          (Client.BaseURL c +:+ "/threads/" +:+ threadID +:+ "/runs/" +:+
           runID +:+ "/cancel")
          None with
  | Err err => (Err (Errorf_w "failed to create request: " err), w)
  | Ok req =>
      let req := Request.HeaderSet "OpenAI-Beta" "assistants=v2" req in
      let '(r, w) := SendRequest lib c req (json_Unmarshal_Run lib) w in
      match r with
      | Err err => (Err (Errorf_w "SendRequest failed: " err), w)
      | Ok run => (Ok run, w)
      end
  end.

End Methods.
End Service.

(** ** Settle-wait: the polling loops of the example programs *)

Definition statusIn (status : string) (cases : list string) : bool :=
  existsb (String.eqb status) cases.

Definition errTimeout : error :=
  errorString "timeout waiting for run to complete".

(** [fmt.Errorf("unexpected run status: %s", run.Status)]. *)
Definition errUnexpectedStatus (status : string) : error :=
  errorString ("unexpected run status: " +:+ status).

Section SettleWait.

(** The answers of the successive calls [service.Get(threadID, runID)]
    of one wait, numbered from 0. *)
Variable Get : nat -> result Run.t.

(** The loop of [waitForRun] with [remaining] attempts left out of
    [maxAttempts], about to make call number [i]. *)
Fixpoint waitForRun_loop (remaining i : nat) : result Run.t :=
  match remaining with
  | O => Err errTimeout
  | S remaining' =>
      match Get i with
      | Err err => Err err
      | Ok run =>
          if statusIn (Run.Status run) ["completed"; "failed"; "cancelled"]
          then Ok run
          else if statusIn (Run.Status run) ["requires_action"]
          then Ok run
          else if statusIn (Run.Status run) ["queued"; "in_progress"]
          then waitForRun_loop remaining' (S i)
          else Err (errUnexpectedStatus (Run.Status run))
      end
  end.

Definition maxAttempts : nat := 60.

(** [waitForRun] (the sleeps between the attempts pass no data). *)
Definition waitForRun : result Run.t := waitForRun_loop maxAttempts 0.

(** The loop of [waitForRunCompletion].  Each turn its [select] takes
    either the ticker or the timeout channel; [ticks] is the number of
    turns that take the ticker before one takes the timeout. *)
Fixpoint waitForRunCompletion_loop (ticks i : nat) : result Run.t :=
  match ticks with
  | O => Err errTimeout
  | S ticks' =>
      match Get i with
      | Err err => Err err
      | Ok run =>
          if String.eqb (Run.Status run) "completed"
             || String.eqb (Run.Status run) "failed"
             || String.eqb (Run.Status run) "cancelled"
             || String.eqb (Run.Status run) "requires_action"
          then Ok run
          else waitForRunCompletion_loop ticks' (S i)
      end
  end.

Definition waitForRunCompletion (ticks : nat) : result Run.t :=
  waitForRunCompletion_loop ticks 0.

End SettleWait.

(** ** Notions used in the statements *)

(** The statuses at which both loops stop and return the snapshot. *)
Definition stopStatus (status : string) : bool :=
  statusIn status ["completed"; "failed"; "cancelled"; "requires_action"].

(** The statuses at which [waitForRun] sleeps and polls again. *)
Definition pendingStatus (status : string) : bool :=
  statusIn status ["queued"; "in_progress"].

(** The run-status enumeration of the service. *)
Definition knownStatus (status : string) : bool :=
  statusIn status
    ["queued"; "in_progress"; "requires_action"; "cancelling"; "cancelled";
     "failed"; "completed"; "expired"].

(** Call number [j] answered with a run that is queued or in progress. *)
Definition pendingAt (Get : nat -> result Run.t) (j : nat) : Prop :=
  exists r, Get j = Ok r /\ pendingStatus (Run.Status r) = true.

(** Call number [j] answered with a run that is at no stopping point. *)
Definition unsettledAt (Get : nat -> result Run.t) (j : nat) : Prop :=
  exists r, Get j = Ok r /\ stopStatus (Run.Status r) = false.

(** The request as [SendRequest] sends it: [Authorization] and
    [Content-Type] are set on it. *)
Definition authorized (c : Client.t) (req : Request.t) : Request.t :=
  Request.HeaderSet "Content-Type" "application/json"
    (Request.HeaderSet "Authorization" ("Bearer " +:+ Client.APIKey c) req).

(** The world once [req] has been handed to the transport. *)
Definition afterSending (req : Request.t) (w : World) : World :=
  mkWorld (createRunRequests w) (createThreadAndRunRequests w)
    (submitToolOutputsRequests w) (sent w ++ [req]).

(** Whether a status code is one of the success codes 200 to 299. *)
Definition is2xx (code : Z) : bool := (200 <=? code) && (code <? 300).

(** The world with another [CreateRunRequest], [CreateThreadAndRunRequest]
    or [SubmitToolOutputsRequest] heap. *)
Definition withCreateRunRequests (h : gmap loc CreateRunRequest.t) (w : World) : World :=
  mkWorld h (createThreadAndRunRequests w) (submitToolOutputsRequests w) (sent w).

Definition withCreateThreadAndRunRequests
    (h : gmap loc CreateThreadAndRunRequest.t) (w : World) : World :=
  mkWorld (createRunRequests w) h (submitToolOutputsRequests w) (sent w).

Definition withSubmitToolOutputsRequests
    (h : gmap loc SubmitToolOutputsRequest.t) (w : World) : World :=
  mkWorld (createRunRequests w) (createThreadAndRunRequests w) h (sent w).

(** A call sent at most one request, a POST whose body is the
    marshalling of [v], and changed nothing else in the world. *)
Definition sentOnlyBodyOf (lib : Library) (v : marshalled) (w w' : World) : Prop :=
  w' = w \/
  exists httpReq body,
    json_Marshal lib v = Ok body /\
    Request.Method httpReq = "POST" /\
    Request.Body httpReq = Some body /\
    w' = afterSending httpReq w.

(** [run] was decoded from the body of a 200 answer to a request made
    in the world [w]. *)
Definition decodedFromAnswer (lib : Library) (c : Client.t) (w : World) (run : Run.t)
  : Prop :=
  exists httpReq resp body,
    Client.HTTPClient c (sent w) httpReq = Ok resp /\
    Response.StatusCode resp = StatusOK /\
    ReadAll (Response.Body resp) = (body, None) /\
    json_Unmarshal_Run lib body = Ok run.

(** The request that [SubmitToolOutputs] sends for a marshalled body,
    and the one that [SubmitToolOutputsStream] sends. *)
Definition submitURL (c : Client.t) (threadID runID : string) : string :=
  Client.BaseURL c +:+ "/threads/" +:+ threadID +:+ "/runs/" +:+ runID +:+
  "/submit_tool_outputs".

Definition submitRequest (c : Client.t) (threadID runID body : string) : Request.t :=
  authorized c
    (Request.HeaderSet "OpenAI-Beta" "assistants=v2"
       (Request.mk "POST" (submitURL c threadID runID) ∅ (Some body))).

Definition submitStreamRequest (c : Client.t) (threadID runID body : string)
  : Request.t :=
  Service.prepareRequest c (Request.mk "POST" (submitURL c threadID runID) ∅ (Some body)).

(** The ids of the tool calls a run waits for, and the ids a request
    supplies outputs for. *)
Definition outstandingIDs (run : Run.t) : list string :=
  match Run.RequiredAction run with
  | Some action =>
      match RequiredAction.SubmitToolOutputs action with
      | Some s => map ToolCall.ID (SubmitToolOutputs.ToolCalls s)
      | None => []
      end
  | None => []
  end.

Definition suppliedIDs (req : SubmitToolOutputsRequest.t) : list string :=
  map ToolOutput.ToolCallID (SubmitToolOutputsRequest.ToolOutputs req).

(** ** Example data *)

(** A line of text with its newline. *)
Definition line (text : string) : string := text +:+ String newline EmptyString.

(** A JSON string literal and a member with a string value, for texts
    that need no escaping. *)
Definition jsonString (s : string) : string := quote +:+ s +:+ quote.
Definition jsonMember (k v : string) : string := jsonString k +:+ ":" +:+ v.

(** [{"id":"run_1","status":"completed"}] *)
Definition completedPayload : string :=
  "{" +:+ jsonMember "id" (jsonString "run_1") +:+ "," +:+
  jsonMember "status" (jsonString "completed") +:+ "}".

(** The frames before the sentinel in the scenario of the decoder's
    contract: [event: thread.run.completed], its data line and the blank
    line that closes the frame. *)
Definition completedFrame : list string :=
  [line "event: thread.run.completed"; line ("data: " +:+ completedPayload); line ""].

(** The [Run] that [json.Unmarshal] fills from a document with the
    members [id], [status] and, when [action] is given,
    [required_action]: the other fields keep their zero values. *)
Definition snapshot (id status : string) (action : option RequiredAction.t) : Run.t :=
  Run.mk id "" 0 "" "" status action
    None None None None None None "" None [] None ∅ None None None None None
    None Nil Nil false.

(** [{"id":<id>,"status":<status><more>}] *)
Definition runJSON (id status more : string) : string :=
  "{" +:+ jsonMember "id" (jsonString id) +:+ "," +:+
  jsonMember "status" (jsonString status) +:+ more +:+ "}".

(** [{"id":<id>,"type":"function"}] *)
Definition toolCallJSON (id : string) : string :=
  "{" +:+ jsonMember "id" (jsonString id) +:+ "," +:+
  jsonMember "type" (jsonString "function") +:+ "}".

(** The member [required_action] of a run that waits for the outputs of
    the tool calls [A] and [B], and the value it decodes to. *)
Definition actionABJSON : string :=
  "," +:+ jsonMember "required_action"
    ("{" +:+ jsonMember "type" (jsonString "submit_tool_outputs") +:+ "," +:+
     jsonMember "submit_tool_outputs"
       ("{" +:+ jsonMember "tool_calls"
          ("[" +:+ toolCallJSON "A" +:+ "," +:+ toolCallJSON "B" +:+ "]") +:+ "}")
     +:+ "}").

Definition actionAB : RequiredAction.t :=
  RequiredAction.mk "submit_tool_outputs"
    (Some (SubmitToolOutputs.mk
             [ToolCall.mk "A" "function" None; ToolCall.mk "B" "function" None])).

(** A [required_action] member without tool calls. *)
Definition actionBareJSON : string :=
  "," +:+ jsonMember "required_action"
    ("{" +:+ jsonMember "type" (jsonString "submit_tool_outputs") +:+ "}").

Definition actionBare : RequiredAction.t :=
  RequiredAction.mk "submit_tool_outputs" None.

(** [{"error":{"message":"error message","type":"invalid_request_error","code":"invalid_api_key"}}],
    the error body of the transport's test. *)
Definition apiErrorJSON : string :=
  "{" +:+ jsonMember "error"
    ("{" +:+ jsonMember "message" (jsonString "error message") +:+ "," +:+
     jsonMember "type" (jsonString "invalid_request_error") +:+ "," +:+
     jsonMember "code" (jsonString "invalid_api_key") +:+ "}") +:+ "}".

(** The run documents of the examples, each with the [Run] that
    [json.Unmarshal] decodes it to. *)
Definition exampleRuns : list (string * Run.t) :=
  [ (runJSON "run_123" "completed" "", snapshot "run_123" "completed" None);
    (runJSON "run_123" "queued" "", snapshot "run_123" "queued" None);
    (runJSON "run_123" "requires_action" actionABJSON,
     snapshot "run_123" "requires_action" (Some actionAB));
    (runJSON "run_123" "completed" actionBareJSON,
     snapshot "run_123" "completed" (Some actionBare));
    (runJSON "run_123" "requires_action" "",
     snapshot "run_123" "requires_action" None) ].

Fixpoint assoc {A : Type} (k : string) (table : list (string * A)) : option A :=
  match table with
  | [] => None
  | (k', v) :: table' => if String.eqb k k' then Some v else assoc k table'
  end.

Definition syntaxError : error := Foreign "invalid character looking for beginning of value".

(** [json.Marshal] of a [SubmitToolOutputsRequest] whose strings need
    no escaping. *)
Definition toolOutputJSON (o : ToolOutput.t) : string :=
  "{" +:+ jsonMember "tool_call_id" (jsonString (ToolOutput.ToolCallID o)) +:+ "," +:+
  jsonMember "output" (jsonString (ToolOutput.Output o)) +:+ "}".

Fixpoint joinComma (items : list string) : string :=
  match items with
  | [] => ""
  | [x] => x
  | x :: rest => x +:+ "," +:+ joinComma rest
  end.

Definition submitJSON (r : SubmitToolOutputsRequest.t) : string :=
  "{" +:+ jsonMember "tool_outputs"
    ("[" +:+ joinComma (map toolOutputJSON (SubmitToolOutputsRequest.ToolOutputs r)) +:+ "]")
  +:+ (if SubmitToolOutputsRequest.Stream r then "," +:+ jsonMember "stream" "true" else "")
  +:+ "}".

(** [json.Marshal] of a [CreateRunRequest] that sets nothing but
    [AssistantID] and [Stream]. *)
Definition createRunJSON (r : CreateRunRequest.t) : string :=
  "{" +:+ jsonMember "assistant_id" (jsonString (CreateRunRequest.AssistantID r))
  +:+ (if CreateRunRequest.Stream r then "," +:+ jsonMember "stream" "true" else "")
  +:+ "}".

(** The standard library on the values of the examples: ASCII text to
    trim, the requests and the documents above (any other document is
    taken as malformed, and an object without an [error] member decodes
    to the zero [APIError]), URLs that parse. *)
Definition exampleLibrary : Library :=
  mkLibrary TrimSpace_ascii
    (fun v =>
       match v with
       | ofSubmitToolOutputsRequest (Some r) => Ok (submitJSON r)
       | ofCreateRunRequest (Some r) => Ok (createRunJSON r)
       | ofCreateThreadAndRunRequest (Some r) =>
           Ok (createRunJSON (CreateThreadAndRunRequest.CreateRunRequest r))
       | ofMetadata _ => Ok ("{" +:+ jsonMember "metadata" "{}" +:+ "}")
       | _ => Ok "null"
       end)
    (fun body =>
       match assoc body exampleRuns with
       | Some run => Ok run
       | None => Err syntaxError
       end)
    (fun body =>
       if String.eqb body apiErrorJSON
       then Ok (APIError.mk "error message" "invalid_request_error" "" "invalid_api_key")
       else match assoc body exampleRuns with
            | Some _ => Ok (APIError.mk "" "" "" "")
            | None => Err syntaxError
            end)
    (fun _ _ => None).

(** A client whose transport answers every request with [resp]. *)
Definition clientAnswering (resp : result Response.t) : Client.t :=
  Client.mk "https://api.openai.com/v1" "test-key" (fun _ _ => resp).

(** A world that holds one [SubmitToolOutputsRequest] at address 1,
    with an output for the tool call [A] alone, one [CreateRunRequest]
    at address 2 and one [CreateThreadAndRunRequest] at address 3, none
    of them asking for a stream. *)
Definition outputsForA : SubmitToolOutputsRequest.t :=
  SubmitToolOutputsRequest.mk [ToolOutput.mk "A" "sunny"] false.

Definition createRunPlain : CreateRunRequest.t :=
  CreateRunRequest.mk "asst_123" None None None [] None ∅ None None false
    None None None Nil Nil None.

Definition createThreadAndRunPlain : CreateThreadAndRunRequest.t :=
  CreateThreadAndRunRequest.mk "asst_123" None createRunPlain.

Definition exampleWorld : World :=
  mkWorld {[ 2%positive := createRunPlain ]} {[ 3%positive := createThreadAndRunPlain ]}
    {[ 1%positive := outputsForA ]} [].

(** The poll sequence queued, in_progress, in_progress, completed. *)
Definition settlingPolls (i : nat) : result Run.t :=
  match i with
  | 0%nat => Ok (snapshot "run_123" "queued" None)
  | 1%nat | 2%nat => Ok (snapshot "run_123" "in_progress" None)
  | _ => Ok (snapshot "run_123" "completed" None)
  end.

(** A run that is being cancelled, polled after one queued snapshot. *)
Definition cancellingPolls (i : nat) : result Run.t :=
  match i with
  | O => Ok (snapshot "run_123" "queued" None)
  | _ => Ok (snapshot "run_123" "cancelling" None)
  end.

(** An SSE body with one frame and the sentinel. *)
Definition completedStream : Reader :=
  mkReader (bytesOf completedFrame +:+ line "data: [DONE]" +:+ line "") io_EOF.

(** A transport that answers every request with a completed run. *)
Definition completedAnswer : Response.t :=
  Response.mk 200 (mkReader (runJSON "run_123" "completed" "") io_EOF).

(** A completed run whose document still carries a [required_action]
    member. *)
Definition staleActionAnswer : Response.t :=
  Response.mk 200 (mkReader (runJSON "run_123" "completed" actionBareJSON) io_EOF).

(** ** Listing runs *)

Module ListRunsParams.
Record t : Type := mk {
  Limit : option Z;
  Order : option string;
  After : option string;
  Before : option string
}.
End ListRunsParams.

Module ListRunsResponse.
Record t : Type := mk {
  Object : string;
  Data : list Run.t;
  FirstID : string;
  LastID : string;
  HasMore : bool
}.
End ListRunsResponse.

(** [strings.Join(elems, sep)]. *)
Fixpoint Join (elems : list string) (sep : string) : string :=
  match elems with
  | [] => ""
  | [x] => x
  | x :: rest => x +:+ sep +:+ Join rest sep
  end.

Module runs.

(** The map [query] that [List] fills: one entry per parameter set. *)
Definition List_query (params : ListRunsParams.t) : gmap string string :=
  let query : gmap string string := ∅ in
  let query :=
    match ListRunsParams.Limit params with
    | Some limit => <["limit" := pretty limit]> query
    | None => query
    end in
  let query :=
    match ListRunsParams.Order params with
    | Some order => <["order" := order]> query
    | None => query
    end in
  let query :=
    match ListRunsParams.After params with
    | Some after => <["after" := after]> query
    | None => query
    end in
  match ListRunsParams.Before params with
  | Some before => <["before" := before]> query
  | None => query
  end.

Section Listing.

(** The order in which a [range] over a Go map visits its entries: Go
    leaves it unspecified, so it is a parameter; each entry is visited
    once. *)
Variable rangeMap : gmap string string -> list (string * string).

(** The URL that [List] builds; [params] is a pointer, [None] for nil.
    The last step cuts the final byte, [url[:len(url)-1]]. *)
Definition List_url (base : string) (params : option ListRunsParams.t) : string :=
  match params with
  | None => base
  | Some params =>
      let query := List_query params in
      if (0 <? size query)%nat
      then
        let url := base +:+ "?" in
        let url :=
          fold_left (fun url kv => url +:+ (fst kv +:+ "=" +:+ snd kv +:+ "&"))
            (rangeMap query) url in
        String.substring 0 (String.length url - 1) url
      else base
  end.

(** [List]; [unmarshal] is [json.Unmarshal] into a [*ListRunsResponse]. *)
Definition List (lib : Library) (c : Client.t)
    (unmarshal : string -> result ListRunsResponse.t)
    (threadID : string) (params : option ListRunsParams.t) (w : World)
  : result ListRunsResponse.t * World :=
  let url :=
    List_url (Client.BaseURL c +:+ "/threads/" +:+ threadID +:+ "/runs") params in
  match NewRequest lib "GET" url None with
  | Err err => (Err err, w)
  | Ok req =>
      let req := Request.HeaderSet "OpenAI-Beta" "assistants=v2" req in
      SendRequest lib c req unmarshal w
  end.

End Listing.
End runs.

(** The parameters that are set, by name, in the order of the fields. *)
Definition setParameters (params : ListRunsParams.t) : list (string * string) :=
  match ListRunsParams.Limit params with Some n => [("limit", pretty n)] | None => [] end
  ++ match ListRunsParams.Order params with Some v => [("order", v)] | None => [] end
  ++ match ListRunsParams.After params with Some v => [("after", v)] | None => [] end
  ++ match ListRunsParams.Before params with Some v => [("before", v)] | None => [] end.

(** ** Callers of the gateway: the example programs *)

(** The address of a newly allocated struct: one the heap does not
    hold yet. *)
Definition newLoc {A : Type} (h : gmap loc A) : loc := fresh (dom h).

(** [handleRequiresAction]; [action] is a pointer, [None] for nil, and
    what the function prints is left out. *)
Definition handleRequiresAction (lib : Library) (c : Client.t)
    (threadID runID : string) (action : option RequiredAction.t) (w : World)
  : outcome unit * World :=
  match action with
  | None => (Panics, w)
  | Some action =>
      match RequiredAction.SubmitToolOutputs action with
      | None =>
          (Returns (Err (errorString "no submit_tool_outputs found in required_action")),
           w)
      | Some s =>
          let toolOutputs :=
            map (fun toolCall =>
                   ToolOutput.mk (ToolCall.ID toolCall)
                     ("Dummy output for tool call " +:+ ToolCall.ID toolCall))
              (SubmitToolOutputs.ToolCalls s) in
          let req := newLoc (submitToolOutputsRequests w) in
          let w :=
            withSubmitToolOutputsRequests
              (<[req := SubmitToolOutputsRequest.mk toolOutputs false]>
                 (submitToolOutputsRequests w)) w in
          let '(r, w) := Service.SubmitToolOutputs lib c threadID runID req w in
          match r with
          | Err err => (Returns (Err (Errorf_w "failed to submit tool outputs: " err)), w)
          | Ok _ => (Returns (Ok tt), w)
          end
      end
  end.

Definition weatherOutput : string :=
  "The weather in San Francisco is currently 72°F and sunny.".

(** [submitToolOutputs] of the runs example: an output for each tool
    call that has a function record; the loop over the events only
    prints them. *)
Definition submitToolOutputs (lib : Library) (c : Client.t)
    (threadID runID : string) (toolCalls : list ToolCall.t) (w : World)
  : outcome unit * World :=
  let toolOutputs :=
    omap (fun call =>
            match ToolCall.Function call with
            | Some _ => Some (ToolOutput.mk (ToolCall.ID call) weatherOutput)
            | None => None
            end)
      toolCalls in
  let req := newLoc (submitToolOutputsRequests w) in
  let w :=
    withSubmitToolOutputsRequests
      (<[req := SubmitToolOutputsRequest.mk toolOutputs true]>
         (submitToolOutputsRequests w)) w in
  let '(r, w) := Service.SubmitToolOutputsStream lib c threadID runID req w in
  match r with
  | Panics => (Panics, w)
  | Returns (Err err) => (Returns (Err err), w)
  | Returns (Ok events) => (Returns (Ok tt), w)
  end.

(** The loop of [createStreamingRun] over the events of the run: the
    run of the last [thread.run.requires_action] event that carries
    data, or the error of its decoding. *)
Fixpoint createStreamingRun_events (lib : Library) (events : list RunEvent.t)
    (currentRun : option Run.t) : result (option Run.t) :=
  match events with
  | [] => Ok currentRun
  | event :: events' =>
      match RunEvent.Data event with
      | Some data =>
          if (0 <? String.length data)%nat
          then
            if String.eqb (RunEvent.Event event) "thread.run.requires_action"
            then
              match json_Unmarshal_Run lib data with
              | Err err => Err (Errorf_w "failed to parse run data: " err)
              | Ok run => createStreamingRun_events lib events' (Some run)
              end
            else createStreamingRun_events lib events' currentRun
          else createStreamingRun_events lib events' currentRun
      | None => createStreamingRun_events lib events' currentRun
      end
  end.

(** The second half of [createStreamingRun]: the tool outputs are
    submitted when the run found requires them.  Indexing the tool calls
    at 0 panics when there is none, and so does reading them through a
    nil [SubmitToolOutputs]. *)
Definition createStreamingRun_submit (lib : Library) (c : Client.t)
    (threadID : string) (currentRun : option Run.t) (w : World)
  : outcome unit * World :=
  match currentRun with
  | None => (Returns (Ok tt), w)
  | Some run =>
      match Run.RequiredAction run with
      | None => (Returns (Ok tt), w)
      | Some action =>
          if String.eqb (RequiredAction.Type_ action) "submit_tool_outputs"
          then
            match RequiredAction.SubmitToolOutputs action with
            | None => (Panics, w)
            | Some s =>
                match SubmitToolOutputs.ToolCalls s with
                | [] => (Panics, w)
                | call :: _ =>
                    let req := newLoc (submitToolOutputsRequests w) in
                    let w :=
                      withSubmitToolOutputsRequests
                        (<[req := SubmitToolOutputsRequest.mk
                                    [ToolOutput.mk (ToolCall.ID call) weatherOutput] true]>
                           (submitToolOutputsRequests w)) w in
                    let '(r, w) :=
                      Service.SubmitToolOutputsStream lib c threadID (Run.ID run) req w in
                    match r with
                    | Panics => (Panics, w)
                    | Returns (Err err) =>
                        (Returns (Err (Errorf_w "failed to submit tool outputs: " err)), w)
                    | Returns (Ok events) => (Returns (Ok tt), w)
                    end
                end
            end
          else (Returns (Ok tt), w)
      end
  end.

(** [createStreamingRun]. *)
Definition createStreamingRun (lib : Library) (c : Client.t)
    (threadID assistantID : string) (w : World) : outcome unit * World :=
  let req := newLoc (createRunRequests w) in
  let w :=
    withCreateRunRequests
      (<[req := CreateRunRequest.mk assistantID None None None [] None ∅ None None true
                  None None None Nil Nil None]>
         (createRunRequests w)) w in
  let '(r, w) := Service.CreateAndStream lib c threadID req w in
  match r with
  | Panics => (Panics, w)
  | Returns (Err err) => (Returns (Err err), w)
  | Returns (Ok events) =>
      match createStreamingRun_events lib events None with
      | Err err => (Returns (Err err), w)
      | Ok currentRun => createStreamingRun_submit lib c threadID currentRun w
      end
  end.

(** ** Further notions used in the statements *)

(** The second poll fails with an error of the service. *)
Definition failingPolls (i : nat) : result Run.t :=
  match i with
  | O => Ok (snapshot "run_123" "queued" None)
  | _ => Err (apiError (APIError.mk "Rate limit reached" "rate_limit_exceeded" "" ""))
  end.

(** A service that would answer [completed] from the sixty-first poll
    on, and one that never does. *)
Definition latePolls (i : nat) : result Run.t :=
  if (i <? 60)%nat then Ok (snapshot "run_123" "queued" None)
  else Ok (snapshot "run_123" "completed" None).

(** A request that carries the three headers of the API: the bearer
    token of the client, the JSON content type and the beta marker. *)
Definition carriesHeaders (c : Client.t) (r : Request.t) : Prop :=
  Request.Header r !! "Authorization" = Some ("Bearer " +:+ Client.APIKey c) /\
  Request.Header r !! "Content-Type" = Some "application/json" /\
  Request.Header r !! "OpenAI-Beta" = Some "assistants=v2".

(** A call sent at most one request, one that satisfies [P], and
    changed nothing else in the world. *)
Definition sentAtMostOne (P : Request.t -> Prop) (w w' : World) : Prop :=
  w' = w \/ exists r, P r /\ w' = afterSending r w.

(** The request that [createRunStream] sends for a marshalled body. *)
Definition streamRequest (c : Client.t) (url body : string) : Request.t :=
  Service.prepareRequest c (Request.mk "POST" url ∅ (Some body)).

(** [errors.Unwrap]: the error that [fmt.Errorf] wrapped with [%w]. *)
Definition Unwrap (e : error) : option error :=
  match e with
  | wrapError _ inner => Some inner
  | _ => None
  end.

(** The request that [Cancel] hands to [SendRequest]. *)
Definition cancelRequest (c : Client.t) (threadID runID : string) : Request.t :=
  Request.HeaderSet "OpenAI-Beta" "assistants=v2"
    (Request.mk "POST"
       (Client.BaseURL c +:+ "/threads/" +:+ threadID +:+ "/runs/" +:+ runID +:+
        "/cancel") ∅ None).

(** A stream whose [thread.run.requires_action] event carries a run
    with a required action and no tool call. *)
Definition bareActionStream : Reader :=
  mkReader
    (bytesOf [line "event: thread.run.requires_action";
              line ("data: " +:+ runJSON "run_123" "completed" actionBareJSON);
              line ""; line "data: [DONE]"])
    io_EOF.

(** An event that the loop of [createStreamingRun] decodes: a
    [thread.run.requires_action] event with data. *)
Definition decodedEvent (e : RunEvent.t) : bool :=
  match RunEvent.Data e with
  | Some data =>
      (0 <? String.length data)%nat
      && String.eqb (RunEvent.Event e) "thread.run.requires_action"
  | None => false
  end.

(** The request that [List] hands to [SendRequest]. *)
Definition listRequest (url : string) : Request.t :=
  Request.HeaderSet "OpenAI-Beta" "assistants=v2" (Request.mk "GET" url ∅ None).

(** Two request structs that agree on every field but [Stream]. *)
Definition sameButStream_CreateRunRequest (a b : CreateRunRequest.t) : Prop :=
  CreateRunRequest.AssistantID a = CreateRunRequest.AssistantID b
  /\ CreateRunRequest.Model a = CreateRunRequest.Model b
  /\ CreateRunRequest.Instructions a = CreateRunRequest.Instructions b
  /\ CreateRunRequest.AdditionalInstructions a = CreateRunRequest.AdditionalInstructions b
  /\ CreateRunRequest.Tools a = CreateRunRequest.Tools b
  /\ CreateRunRequest.ToolResources a = CreateRunRequest.ToolResources b
  /\ CreateRunRequest.Metadata a = CreateRunRequest.Metadata b
  /\ CreateRunRequest.Temperature a = CreateRunRequest.Temperature b
  /\ CreateRunRequest.TopP a = CreateRunRequest.TopP b
  /\ CreateRunRequest.MaxPromptTokens a = CreateRunRequest.MaxPromptTokens b
  /\ CreateRunRequest.MaxCompletionTokens a = CreateRunRequest.MaxCompletionTokens b
  /\ CreateRunRequest.TruncationStrategy a = CreateRunRequest.TruncationStrategy b
  /\ CreateRunRequest.ResponseFormat a = CreateRunRequest.ResponseFormat b
  /\ CreateRunRequest.ToolChoice a = CreateRunRequest.ToolChoice b
  /\ CreateRunRequest.ParallelToolCalls a = CreateRunRequest.ParallelToolCalls b.

Definition sameButStream_CreateThreadAndRunRequest
    (a b : CreateThreadAndRunRequest.t) : Prop :=
  CreateThreadAndRunRequest.AssistantID a = CreateThreadAndRunRequest.AssistantID b
  /\ CreateThreadAndRunRequest.Thread a = CreateThreadAndRunRequest.Thread b
  /\ sameButStream_CreateRunRequest
       (CreateThreadAndRunRequest.CreateRunRequest a)
       (CreateThreadAndRunRequest.CreateRunRequest b).

Definition sameButStream_SubmitToolOutputsRequest
    (a b : SubmitToolOutputsRequest.t) : Prop :=
  SubmitToolOutputsRequest.ToolOutputs a = SubmitToolOutputsRequest.ToolOutputs b.

(** The body that a call hands to [http.NewRequest] when it marshals
    [v] first: the error of [json.Marshal] ends the call. *)
Definition marshalledBody (lib : Library) (v : marshalled) : result (option string) :=
  match json_Marshal lib v with
  | Ok body => Ok (Some body)
  | Err err => Err err
  end.

(** What becomes of a request that the gateway marks with the beta
    header and hands to [SendRequest]. *)
Definition viaSendRequest (c : Client.t) (req : Request.t) : Request.t :=
  authorized c (Request.HeaderSet "OpenAI-Beta" "assistants=v2" req).

(** A call that obtains a body, builds a request for [method] and [url]
    around it and hands it on: when the body was obtained and
    [http.NewRequest] accepted the URL, exactly one request went to the
    transport, the one built with [headers] set on it; when either
    failed, none did.  Nothing else in the world changed. *)
Definition sentExactly (lib : Library) (method url : string)
    (body : result (option string)) (headers : Request.t -> Request.t)
    (w w' : World) : Prop :=
  match body with
  | Err _ => w' = w
  | Ok b =>
      match http_NewRequest lib method url with
      | Some _ => w' = w
      | None => w' = afterSending (headers (Request.mk method url ∅ b)) w
      end
  end.

(** * Properties of the SSE decoder *)

Lemma append_cons (c : ascii) (a b : string) :
  String c a +:+ b = String c (a +:+ b).
Proof. reflexivity. Qed.

Lemma append_assoc (a b c : string) : (a +:+ b) +:+ c = a +:+ (b +:+ c).
Proof.
  induction a as [|x a IH]; [reflexivity|].
  rewrite !append_cons. now rewrite IH.
Qed.

Lemma append_nil_r (a : string) : a +:+ EmptyString = a.
Proof.
  induction a as [|x a IH]; [reflexivity|].
  rewrite append_cons. now rewrite IH.
Qed.

Lemma cutLine_line (l rest : string) :
  cutLine l = Some (l, EmptyString) -> cutLine (l +:+ rest) = Some (l, rest).
Proof.
  induction l as [|c l IH]; [discriminate|].
  rewrite append_cons. simpl.
  destruct (Ascii.eqb c newline).
  - intros [= H1 H2]. subst l. reflexivity.
  - destruct (cutLine l) as [[l1 r1]|]; [|discriminate].
    intros [= H1 H2]. subst l1 r1. now rewrite IH.
Qed.

Lemma ReadString_line (l rest : string) (f : error) :
  cutLine l = Some (l, EmptyString) ->
  ReadString (mkReader (l +:+ rest) f) = (l, None, mkReader rest f).
Proof.
  intros Hl. unfold ReadString. simpl. now rewrite (cutLine_line l rest Hl).
Qed.

Lemma ReadString_partial (p : string) (f : error) :
  cutLine p = None ->
  ReadString (mkReader p f) = (p, Some f, mkReader EmptyString f).
Proof. intros Hp. unfold ReadString. simpl. now rewrite Hp. Qed.

Section DecoderFacts.

Variable TrimSpace : string -> string.

(** One turn of the loop, as the source writes it. *)
Lemma sseLoop_step (reader : Reader) (currentEvent : string) :
  sseLoop TrimSpace reader currentEvent =
  match ReadString reader with
  | (_, Some err, _) =>
      match err with
      | io_EOF => []
      | _ => [errorEvent err]
      end
  | (line, None, reader') =>
      let trimmed := TrimSpace line in
      if String.eqb trimmed "" then sseLoop TrimSpace reader' currentEvent
      else if HasPrefix trimmed "event: "
      then sseLoop TrimSpace reader' (TrimPrefix trimmed "event: ")
      else if HasPrefix trimmed "data: "
      then
        let data := TrimPrefix trimmed "data: " in
        if String.eqb data "[DONE]" then [doneEvent]
        else RunEvent.mk currentEvent (Some data) :: sseLoop TrimSpace reader' currentEvent
      else sseLoop TrimSpace reader' currentEvent
  end.
Proof.
  rewrite sseLoop_equation_1.
  unfold sseLoop_unfold_clause_1, inspect.
  destruct (ReadString reader) as [[line [err|]] reader']; reflexivity.
Qed.

(** A complete line at the head of the stream is what the next
    [ReadString] returns. *)
Lemma sseLoop_line (l rest : string) (f : error) (cur : string) :
  isLine l ->
  sseLoop TrimSpace (mkReader (l +:+ rest) f) cur =
  match nameOf TrimSpace l, payloadOf TrimSpace l with
  | Some name, _ => sseLoop TrimSpace (mkReader rest f) name
  | None, Some data =>
      if String.eqb data "[DONE]" then [doneEvent]
      else RunEvent.mk cur (Some data) :: sseLoop TrimSpace (mkReader rest f) cur
  | None, None => sseLoop TrimSpace (mkReader rest f) cur
  end.
Proof.
  intros Hl. rewrite sseLoop_step, (ReadString_line l rest f Hl).
  unfold nameOf, payloadOf. cbv zeta.
  destruct (String.eqb (TrimSpace l) ""); [reflexivity|].
  destruct (HasPrefix (TrimSpace l) "event: "); [reflexivity|].
  destruct (HasPrefix (TrimSpace l) "data: "); reflexivity.
Qed.

(** The stream ends, cleanly or not, inside an unterminated line. *)
Lemma sseLoop_end (p : string) (f : error) (cur : string) :
  cutLine p = None ->
  sseLoop TrimSpace (mkReader p f) cur =
  match f with
  | io_EOF => []
  | _ => [errorEvent f]
  end.
Proof.
  intros Hp. now rewrite sseLoop_step, (ReadString_partial p f Hp).
Qed.

Lemma nameAfter_cons (cur l : string) (ls : list string) :
  nameAfter TrimSpace cur (l :: ls) =
  nameAfter TrimSpace (match nameOf TrimSpace l with Some n => n | None => cur end) ls.
Proof. reflexivity. Qed.

(** Complete lines free of the sentinel are consumed one by one: their
    data lines give their events, and the loop goes on with what follows
    them under the name in force after them. *)
Lemma sseLoop_lines (ls : list string) (rest : string) (f : error) (cur : string) :
  Forall isLine ls ->
  Forall (fun l => isDoneLine TrimSpace l = false) ls ->
  sseLoop TrimSpace (mkReader (bytesOf ls +:+ rest) f) cur =
  dataEvents TrimSpace cur ls ++ sseLoop TrimSpace (mkReader rest f) (nameAfter TrimSpace cur ls).
Proof.
  revert cur.
  induction ls as [|l ls IH]; intros cur Hlines Hnone; [reflexivity|].
  inversion Hlines as [|? ? Hl Hls]; subst.
  inversion Hnone as [|? ? Hd Hds]; subst.
  change (bytesOf (l :: ls)) with (l +:+ bytesOf ls).
  rewrite append_assoc, (sseLoop_line _ _ _ _ Hl), nameAfter_cons.
  unfold isDoneLine in Hd. simpl dataEvents.
  destruct (nameOf TrimSpace l) as [name|]; [now apply IH|].
  destruct (payloadOf TrimSpace l) as [data|]; [|now apply IH].
  rewrite Hd. simpl. f_equal. now apply IH.
Qed.

(** The name in force after some lines is the nearest explicit event
    name when one looks back from their end. *)
Lemma nameAfter_snoc (cur l : string) (ls : list string) :
  nameAfter TrimSpace cur (ls ++ [l]) =
  match nameOf TrimSpace l with Some n => n | None => nameAfter TrimSpace cur ls end.
Proof. unfold nameAfter. now rewrite fold_left_app. Qed.

Lemma nameAfter_nearest (ls : list string) :
  nameAfter TrimSpace "" ls = nearestEventName TrimSpace (rev ls).
Proof.
  induction ls as [|l ls IH] using rev_ind; [reflexivity|].
  rewrite nameAfter_snoc, rev_app_distr. simpl.
  now destruct (nameOf TrimSpace l).
Qed.

(** Every event of a data line carries data: none is the terminal event. *)
Lemma dataEvents_not_done (cur : string) (ls : list string) :
  ~ In doneEvent (dataEvents TrimSpace cur ls).
Proof.
  revert cur. induction ls as [|l ls IH]; intros cur; simpl; [tauto|].
  destruct (nameOf TrimSpace l); [apply IH|].
  destruct (payloadOf TrimSpace l); [|apply IH].
  simpl. intros [H|H]; [discriminate|]. now apply IH in H.
Qed.

End DecoderFacts.

Lemma cutLine_Some (s l rest : string) :
  cutLine s = Some (l, rest) -> s = l +:+ rest /\ cutLine l = Some (l, EmptyString).
Proof.
  revert l rest. induction s as [|c s IH]; intros l rest; simpl; [discriminate|].
  destruct (Ascii.eqb c newline) eqn:Ec.
  - intros [= <- <-]. split; [reflexivity|]. simpl. now rewrite Ec.
  - destruct (cutLine s) as [[l1 r1]|]; [|discriminate].
    intros [= <- <-]. destruct (IH _ _ eq_refl) as [-> Hl].
    split; [reflexivity|]. simpl. now rewrite Ec, Hl.
Qed.

(** Every byte stream is a sequence of complete lines followed by an
    unterminated rest (empty when the stream ends on a newline). *)
Lemma stream_decompose (s : string) :
  exists (ls : list string) (p : string),
    s = bytesOf ls +:+ p /\ Forall isLine ls /\ cutLine p = None.
Proof.
  remember (String.length s) as n eqn:Hn.
  revert s Hn. induction n as [n IH] using lt_wf_ind. intros s Hn.
  destruct (cutLine s) as [[l rest]|] eqn:E.
  - destruct (cutLine_Some _ _ _ E) as [-> Hl].
    pose proof (cutLine_shorter _ _ _ E) as Hlt.
    destruct (IH (String.length rest)) with (s := rest) as (ls & p & -> & Hls & Hp);
      [lia | reflexivity |].
    exists (l :: ls), p. split; [|split; [now constructor | exact Hp]].
    change (bytesOf (l :: ls)) with (l +:+ bytesOf ls).
    now rewrite append_assoc.
  - exists [], s. repeat split; [constructor | exact E].
Qed.

Lemma payloadOf_not_name (TrimSpace : string -> string) (l data : string) :
  payloadOf TrimSpace l = Some data -> nameOf TrimSpace l = None.
Proof.
  unfold payloadOf, nameOf. cbv zeta.
  destruct (String.eqb (TrimSpace l) ""); [reflexivity|].
  now destruct (HasPrefix (TrimSpace l) "event: ").
Qed.

Lemma sseLoop_done_line (TrimSpace : string -> string)
    (l rest : string) (f : error) (cur : string) :
  isLine l -> isDoneLine TrimSpace l = true ->
  sseLoop TrimSpace (mkReader (l +:+ rest) f) cur = [doneEvent].
Proof.
  intros Hl Hd. rewrite (sseLoop_line _ _ _ _ _ Hl).
  unfold isDoneLine in Hd.
  destruct (payloadOf TrimSpace l) as [data|] eqn:Ep; [|discriminate].
  now rewrite (payloadOf_not_name _ _ _ Ep), Hd.
Qed.

Lemma sseLoop_data_line (TrimSpace : string -> string)
    (l data rest : string) (f : error) (cur : string) :
  isLine l -> payloadOf TrimSpace l = Some data ->
  String.eqb data "[DONE]" = false ->
  sseLoop TrimSpace (mkReader (l +:+ rest) f) cur =
  RunEvent.mk cur (Some data) :: sseLoop TrimSpace (mkReader rest f) cur.
Proof.
  intros Hl Ep Hd. rewrite (sseLoop_line _ _ _ _ _ Hl).
  now rewrite (payloadOf_not_name _ _ _ Ep), Ep, Hd.
Qed.

(** What follows the last newline has no part in the events. *)
Lemma sseLoop_rest_irrelevant (TrimSpace : string -> string)
    (ls : list string) (p p' : string) (f : error) (cur : string) :
  Forall isLine ls -> cutLine p = None -> cutLine p' = None ->
  sseLoop TrimSpace (mkReader (bytesOf ls +:+ p) f) cur =
  sseLoop TrimSpace (mkReader (bytesOf ls +:+ p') f) cur.
Proof.
  intros Hls Hp Hp'. revert cur.
  induction Hls as [|l ls Hl Hls IH]; intros cur.
  - change (bytesOf []) with EmptyString. simpl String.append.
    now rewrite !sseLoop_end.
  - change (bytesOf (l :: ls)) with (l +:+ bytesOf ls).
    rewrite !append_assoc, !(sseLoop_line _ _ _ _ _ Hl).
    destruct (nameOf TrimSpace l); [apply IH|].
    destruct (payloadOf TrimSpace l) as [data|]; [|apply IH].
    destruct (String.eqb data "[DONE]"); [reflexivity|].
    f_equal. apply IH.
Qed.

(** C1. When a data line read by the decoder carries the payload [DONE],
    the decoder sends one terminal event named "done" and nothing after
    it: the events of a stream are those of the data lines before its
    first sentinel line, then the terminal event, whatever bytes follow
    and however the stream ends afterwards; no earlier event is the
    terminal one.  The terminal event has the name "done" and no data.
    This holds for the goroutine of the run-creation stream and for that
    of the tool-output-submission stream. *)
Theorem done_sentinel_ends_stream (TrimSpace : string -> string)
    (ls : list string) (l rest : string) (f : error) :
  Forall isLine ls ->
  Forall (fun x => isDoneLine TrimSpace x = false) ls ->
  isLine l ->
  isDoneLine TrimSpace l = true ->
  createRunStream_goroutine TrimSpace (mkReader (bytesOf ls +:+ l +:+ rest) f)
    = dataEvents TrimSpace "" ls ++ [doneEvent]
  /\ SubmitToolOutputsStream_goroutine TrimSpace (mkReader (bytesOf ls +:+ l +:+ rest) f)
    = dataEvents TrimSpace "" ls ++ [doneEvent]
  /\ ~ In doneEvent (dataEvents TrimSpace "" ls)
  /\ RunEvent.Event doneEvent = "done"
  /\ RunEvent.Data doneEvent = None.
Proof.
  intros Hls Hnone Hl Hd.
  assert (H : sseLoop TrimSpace (mkReader (bytesOf ls +:+ l +:+ rest) f) ""
              = dataEvents TrimSpace "" ls ++ [doneEvent]).
  { rewrite (sseLoop_lines TrimSpace ls _ f "" Hls Hnone).
    now rewrite (sseLoop_done_line TrimSpace l rest f _ Hl Hd). }
  split; [exact H|]. split; [exact H|]. split; [apply dataEvents_not_done|].
  split; reflexivity.
Qed.

Lemma done_sentinel_ends_stream_witness :
  createRunStream_goroutine TrimSpace_ascii
    (mkReader (bytesOf completedFrame +:+ line "data: [DONE]" +:+ line "") io_EOF)
    = dataEvents TrimSpace_ascii "" completedFrame ++ [doneEvent]
  /\ SubmitToolOutputsStream_goroutine TrimSpace_ascii
    (mkReader (bytesOf completedFrame +:+ line "data: [DONE]" +:+ line "") io_EOF)
    = dataEvents TrimSpace_ascii "" completedFrame ++ [doneEvent]
  /\ ~ In doneEvent (dataEvents TrimSpace_ascii "" completedFrame)
  /\ RunEvent.Event doneEvent = "done"
  /\ RunEvent.Data doneEvent = None.
Proof.
  apply (done_sentinel_ends_stream TrimSpace_ascii completedFrame
           (line "data: [DONE]") (line "") io_EOF).
  - repeat constructor.
  - repeat constructor.
  - reflexivity.
  - reflexivity.
Defined.

(** The scenario of the contract, evaluated: the completed run's event,
    then the terminal event. *)
Example decoder_scenario :
  createRunStream_goroutine TrimSpace_ascii
    (mkReader (bytesOf completedFrame +:+ line "data: [DONE]" +:+ line "") io_EOF)
  = [RunEvent.mk "thread.run.completed" (Some completedPayload); doneEvent].
Proof. vm_compute. reflexivity. Qed.

(** C6. The event of a data line carries the nearest preceding explicit
    event name of the stream (the empty name when there is none): the
    name set by an event-name line stays in force, over blank lines and
    any other line that is not an event-name line, for this event and
    for the lines after it, until an event-name line sets another. *)
Theorem event_name_is_nearest_preceding (TrimSpace : string -> string)
    (ls : list string) (l data rest : string) (f : error) :
  Forall isLine ls ->
  Forall (fun x => isDoneLine TrimSpace x = false) ls ->
  isLine l ->
  payloadOf TrimSpace l = Some data ->
  String.eqb data "[DONE]" = false ->
  createRunStream_goroutine TrimSpace (mkReader (bytesOf ls +:+ l +:+ rest) f)
    = dataEvents TrimSpace "" ls ++
      RunEvent.mk (nearestEventName TrimSpace (rev ls)) (Some data) ::
      sseLoop TrimSpace (mkReader rest f) (nearestEventName TrimSpace (rev ls))
  /\ (forall b : string,
        nameOf TrimSpace b = None ->
        nearestEventName TrimSpace (rev (ls ++ [b])) = nearestEventName TrimSpace (rev ls)).
Proof.
  intros Hls Hnone Hl Ep Hd. split.
  - unfold createRunStream_goroutine.
    rewrite (sseLoop_lines TrimSpace ls _ f "" Hls Hnone).
    rewrite (sseLoop_data_line TrimSpace l data rest f _ Hl Ep Hd).
    now rewrite nameAfter_nearest.
  - intros b Hb. rewrite rev_app_distr. simpl. now rewrite Hb.
Qed.

(** A second frame without an event-name line: its event takes the name
    of the frame before it. *)
Lemma event_name_is_nearest_preceding_witness :
  createRunStream_goroutine TrimSpace_ascii
    (mkReader (bytesOf completedFrame +:+ line "data: {}" +:+ line "") io_EOF)
    = dataEvents TrimSpace_ascii "" completedFrame ++
      RunEvent.mk (nearestEventName TrimSpace_ascii (rev completedFrame)) (Some "{}") ::
      sseLoop TrimSpace_ascii (mkReader (line "") io_EOF)
        (nearestEventName TrimSpace_ascii (rev completedFrame))
  /\ (forall b : string,
        nameOf TrimSpace_ascii b = None ->
        nearestEventName TrimSpace_ascii (rev (completedFrame ++ [b]))
        = nearestEventName TrimSpace_ascii (rev completedFrame)).
Proof.
  apply (event_name_is_nearest_preceding TrimSpace_ascii completedFrame
           (line "data: {}") "{}" (line "") io_EOF).
  - repeat constructor.
  - repeat constructor.
  - reflexivity.
  - reflexivity.
  - reflexivity.
Defined.

Example sticky_name_scenario :
  createRunStream_goroutine TrimSpace_ascii
    (mkReader (bytesOf completedFrame +:+ line "data: {}" +:+ line "") io_EOF)
  = [RunEvent.mk "thread.run.completed" (Some completedPayload);
     RunEvent.mk "thread.run.completed" (Some "{}")].
Proof. vm_compute. reflexivity. Qed.

(** C7. The decode loop has no error result of its own: it yields a
    sequence of events.  When the stream fails with a read error other
    than the clean end of stream, the sequence is the one a clean end at
    the same place gives, followed by one last event named "error" whose
    data carries the description of the failure; when the stream ends
    cleanly, the sequence is that of the data lines read, with no such
    event. *)
Theorem read_error_is_last_event (TrimSpace : string -> string)
    (ls : list string) (p : string) (f : error) :
  Forall isLine ls ->
  Forall (fun x => isDoneLine TrimSpace x = false) ls ->
  cutLine p = None ->
  f <> io_EOF ->
  createRunStream_goroutine TrimSpace (mkReader (bytesOf ls +:+ p) f)
    = createRunStream_goroutine TrimSpace (mkReader (bytesOf ls +:+ p) io_EOF)
      ++ [errorEvent f]
  /\ SubmitToolOutputsStream_goroutine TrimSpace (mkReader (bytesOf ls +:+ p) f)
    = SubmitToolOutputsStream_goroutine TrimSpace (mkReader (bytesOf ls +:+ p) io_EOF)
      ++ [errorEvent f]
  /\ RunEvent.Event (errorEvent f) = "error"
  /\ RunEvent.Data (errorEvent f)
     = Some ("{" +:+ jsonMember "error" (jsonString (Error f)) +:+ "}")
  /\ createRunStream_goroutine TrimSpace (mkReader (bytesOf ls +:+ p) io_EOF)
    = dataEvents TrimSpace "" ls
  /\ SubmitToolOutputsStream_goroutine TrimSpace (mkReader (bytesOf ls +:+ p) io_EOF)
    = dataEvents TrimSpace "" ls.
Proof.
  intros Hls Hnone Hp Hf.
  assert (H : forall g, sseLoop TrimSpace (mkReader (bytesOf ls +:+ p) g) ""
              = dataEvents TrimSpace "" ls ++
                match g with io_EOF => [] | _ => [errorEvent g] end).
  { intros g. rewrite (sseLoop_lines TrimSpace ls p g "" Hls Hnone).
    now rewrite (sseLoop_end TrimSpace p g _ Hp). }
  assert (Hfail : sseLoop TrimSpace (mkReader (bytesOf ls +:+ p) f) ""
                  = dataEvents TrimSpace "" ls ++ [errorEvent f]).
  { rewrite H. destruct f; congruence. }
  assert (Hclean : sseLoop TrimSpace (mkReader (bytesOf ls +:+ p) io_EOF) ""
                   = dataEvents TrimSpace "" ls).
  { rewrite H. apply app_nil_r. }
  unfold createRunStream_goroutine, SubmitToolOutputsStream_goroutine.
  rewrite Hclean, Hfail.
  repeat split.
  unfold errorEvent, jsonMember, jsonString. simpl. now rewrite !append_assoc.
Qed.

(** A connection reset in the middle of a line. *)
Lemma read_error_is_last_event_witness :
  createRunStream_goroutine TrimSpace_ascii
    (mkReader (bytesOf completedFrame +:+ "data: {") (Foreign "connection reset"))
    = createRunStream_goroutine TrimSpace_ascii
        (mkReader (bytesOf completedFrame +:+ "data: {") io_EOF)
      ++ [errorEvent (Foreign "connection reset")]
  /\ SubmitToolOutputsStream_goroutine TrimSpace_ascii
    (mkReader (bytesOf completedFrame +:+ "data: {") (Foreign "connection reset"))
    = SubmitToolOutputsStream_goroutine TrimSpace_ascii
        (mkReader (bytesOf completedFrame +:+ "data: {") io_EOF)
      ++ [errorEvent (Foreign "connection reset")]
  /\ RunEvent.Event (errorEvent (Foreign "connection reset")) = "error"
  /\ RunEvent.Data (errorEvent (Foreign "connection reset"))
     = Some ("{" +:+ jsonMember "error" (jsonString (Error (Foreign "connection reset"))) +:+ "}")
  /\ createRunStream_goroutine TrimSpace_ascii
       (mkReader (bytesOf completedFrame +:+ "data: {") io_EOF)
    = dataEvents TrimSpace_ascii "" completedFrame
  /\ SubmitToolOutputsStream_goroutine TrimSpace_ascii
       (mkReader (bytesOf completedFrame +:+ "data: {") io_EOF)
    = dataEvents TrimSpace_ascii "" completedFrame.
Proof.
  apply (read_error_is_last_event TrimSpace_ascii completedFrame "data: {"
           (Foreign "connection reset")).
  - repeat constructor.
  - repeat constructor.
  - reflexivity.
  - discriminate.
Defined.

Example read_error_scenario :
  createRunStream_goroutine TrimSpace_ascii
    (mkReader (bytesOf completedFrame +:+ "data: {") (Foreign "connection reset"))
  = [RunEvent.mk "thread.run.completed" (Some completedPayload);
     RunEvent.mk "error"
       (Some ("{" +:+ jsonMember "error" (jsonString "connection reset") +:+ "}"))].
Proof. vm_compute. reflexivity. Qed.

(** C10. What a stream holds after its last newline when it ends cleanly
    is dropped: the events are those of the stream cut at its last
    newline, whatever the unterminated rest is, a data line or the
    sentinel included; when no complete line is a sentinel line these are
    the events of the data lines alone, with no terminal event and
    nothing for the end of the stream. *)
Theorem unterminated_final_line_dropped (TrimSpace : string -> string)
    (ls : list string) (p : string) :
  Forall isLine ls ->
  cutLine p = None ->
  createRunStream_goroutine TrimSpace (mkReader (bytesOf ls +:+ p) io_EOF)
    = createRunStream_goroutine TrimSpace (mkReader (bytesOf ls) io_EOF)
  /\ SubmitToolOutputsStream_goroutine TrimSpace (mkReader (bytesOf ls +:+ p) io_EOF)
    = SubmitToolOutputsStream_goroutine TrimSpace (mkReader (bytesOf ls) io_EOF)
  /\ (Forall (fun x => isDoneLine TrimSpace x = false) ls ->
      createRunStream_goroutine TrimSpace (mkReader (bytesOf ls +:+ p) io_EOF)
        = dataEvents TrimSpace "" ls
      /\ SubmitToolOutputsStream_goroutine TrimSpace (mkReader (bytesOf ls +:+ p) io_EOF)
        = dataEvents TrimSpace "" ls
      /\ ~ In doneEvent (dataEvents TrimSpace "" ls)).
Proof.
  intros Hls Hp.
  assert (H : sseLoop TrimSpace (mkReader (bytesOf ls +:+ p) io_EOF) ""
              = sseLoop TrimSpace (mkReader (bytesOf ls) io_EOF) "").
  { rewrite <- (append_nil_r (bytesOf ls)) at 2.
    now apply sseLoop_rest_irrelevant. }
  split; [exact H|]. split; [exact H|].
  intros Hnone.
  assert (H' : sseLoop TrimSpace (mkReader (bytesOf ls +:+ p) io_EOF) ""
               = dataEvents TrimSpace "" ls).
  { rewrite (sseLoop_lines TrimSpace ls p io_EOF "" Hls Hnone).
    rewrite (sseLoop_end TrimSpace p io_EOF _ Hp). apply app_nil_r. }
  split; [exact H'|]. split; [exact H'|]. apply dataEvents_not_done.
Qed.

(** The sentinel itself, left without its newline. *)
Lemma unterminated_final_line_dropped_witness :
  createRunStream_goroutine TrimSpace_ascii
    (mkReader (bytesOf completedFrame +:+ "data: [DONE]") io_EOF)
    = createRunStream_goroutine TrimSpace_ascii (mkReader (bytesOf completedFrame) io_EOF)
  /\ SubmitToolOutputsStream_goroutine TrimSpace_ascii
    (mkReader (bytesOf completedFrame +:+ "data: [DONE]") io_EOF)
    = SubmitToolOutputsStream_goroutine TrimSpace_ascii
        (mkReader (bytesOf completedFrame) io_EOF)
  /\ createRunStream_goroutine TrimSpace_ascii
        (mkReader (bytesOf completedFrame +:+ "data: [DONE]") io_EOF)
      = dataEvents TrimSpace_ascii "" completedFrame
  /\ SubmitToolOutputsStream_goroutine TrimSpace_ascii
        (mkReader (bytesOf completedFrame +:+ "data: [DONE]") io_EOF)
      = dataEvents TrimSpace_ascii "" completedFrame
  /\ ~ In doneEvent (dataEvents TrimSpace_ascii "" completedFrame).
Proof.
  destruct (unterminated_final_line_dropped TrimSpace_ascii completedFrame "data: [DONE]")
    as (H1 & H2 & H3).
  - repeat constructor.
  - reflexivity.
  - split; [exact H1|]. split; [exact H2|]. apply H3. repeat constructor.
Defined.

Example unterminated_sentinel_scenario :
  createRunStream_goroutine TrimSpace_ascii
    (mkReader (bytesOf completedFrame +:+ "data: [DONE]") io_EOF)
  = [RunEvent.mk "thread.run.completed" (Some completedPayload)].
Proof. vm_compute. reflexivity. Qed.

(** * Properties of the settle-wait loops *)

Lemma pending_not_stop (status : string) :
  pendingStatus status = true -> stopStatus status = false.
Proof.
  unfold pendingStatus, stopStatus, statusIn. simpl.
  rewrite !orb_false_r, orb_true_iff, !String.eqb_eq.
  intros [-> | ->]; reflexivity.
Qed.

Section SettleWaitFacts.

Variable Get : nat -> result Run.t.

(** One attempt of [waitForRun], by the status polled. *)
Lemma waitForRun_loop_step (remaining i : nat) :
  waitForRun_loop Get (S remaining) i =
  match Get i with
  | Err err => Err err
  | Ok run =>
      if stopStatus (Run.Status run) then Ok run
      else if pendingStatus (Run.Status run)
      then waitForRun_loop Get remaining (S i)
      else Err (errUnexpectedStatus (Run.Status run))
  end.
Proof.
  simpl. destruct (Get i) as [run|err]; [|reflexivity].
  unfold stopStatus, pendingStatus, statusIn. simpl.
  rewrite !orb_false_r.
  destruct (String.eqb (Run.Status run) "completed"); [reflexivity|].
  destruct (String.eqb (Run.Status run) "failed"); [reflexivity|].
  destruct (String.eqb (Run.Status run) "cancelled"); [reflexivity|].
  reflexivity.
Qed.

Lemma waitForRunCompletion_loop_step (ticks i : nat) :
  waitForRunCompletion_loop Get (S ticks) i =
  match Get i with
  | Err err => Err err
  | Ok run =>
      if stopStatus (Run.Status run) then Ok run
      else waitForRunCompletion_loop Get ticks (S i)
  end.
Proof.
  simpl. destruct (Get i) as [run|err]; [|reflexivity].
  unfold stopStatus, statusIn. simpl. now rewrite !orb_false_r, !orb_assoc.
Qed.

(** Polls that find the run queued or in progress use up attempts and
    nothing else. *)
Lemma waitForRun_loop_skip (k remaining i : nat) :
  (forall j, (j < k)%nat -> pendingAt Get (i + j)) ->
  waitForRun_loop Get (k + remaining) i = waitForRun_loop Get remaining (i + k).
Proof.
  revert i. induction k as [|k IH]; intros i Hp.
  - now rewrite Nat.add_0_r.
  - change (S k + remaining)%nat with (S (k + remaining)).
    rewrite waitForRun_loop_step.
    destruct (Hp 0%nat) as (r & Hr & Hs); [lia|].
    rewrite Nat.add_0_r in Hr. rewrite Hr, (pending_not_stop _ Hs), Hs.
    rewrite IH.
    + f_equal. lia.
    + intros j Hj. replace (S i + j)%nat with (i + S j)%nat by lia.
      apply Hp. lia.
Qed.

Lemma waitForRunCompletion_loop_skip (k ticks i : nat) :
  (forall j, (j < k)%nat -> unsettledAt Get (i + j)) ->
  waitForRunCompletion_loop Get (k + ticks) i
  = waitForRunCompletion_loop Get ticks (i + k).
Proof.
  revert i. induction k as [|k IH]; intros i Hp.
  - now rewrite Nat.add_0_r.
  - change (S k + ticks)%nat with (S (k + ticks)).
    rewrite waitForRunCompletion_loop_step.
    destruct (Hp 0%nat) as (r & Hr & Hs); [lia|].
    rewrite Nat.add_0_r in Hr. rewrite Hr, Hs.
    rewrite IH.
    + f_equal. lia.
    + intros j Hj. replace (S i + j)%nat with (i + S j)%nat by lia.
      apply Hp. lia.
Qed.

(** A snapshot returned by [waitForRun] is that of the first poll that
    is not pending, and it is at a stopping point. *)
Lemma waitForRun_loop_Ok (remaining i : nat) (run : Run.t) :
  waitForRun_loop Get remaining i = Ok run ->
  exists k, (k < remaining)%nat /\ Get (i + k) = Ok run /\
            stopStatus (Run.Status run) = true /\
            forall j, (j < k)%nat -> pendingAt Get (i + j).
Proof.
  revert i. induction remaining as [|n IH]; intros i; [discriminate|].
  rewrite waitForRun_loop_step.
  destruct (Get i) as [r|err] eqn:Hr; [|discriminate].
  destruct (stopStatus (Run.Status r)) eqn:Hs.
  - intros [= ->]. exists 0%nat. rewrite Nat.add_0_r.
    repeat split; [lia | assumption | assumption | intros j Hj; lia].
  - destruct (pendingStatus (Run.Status r)) eqn:Hp; [|discriminate].
    intros H. destruct (IH _ H) as (k & Hk & Hg & Hstop & Hbefore).
    exists (S k). replace (i + S k)%nat with (S i + k)%nat by lia.
    repeat split; [lia | assumption | assumption |].
    intros [|j] Hj.
    + rewrite Nat.add_0_r. now exists r.
    + replace (i + S j)%nat with (S i + j)%nat by lia. apply Hbefore. lia.
Qed.

Lemma waitForRunCompletion_loop_Ok (ticks i : nat) (run : Run.t) :
  waitForRunCompletion_loop Get ticks i = Ok run ->
  exists k, (k < ticks)%nat /\ Get (i + k) = Ok run /\
            stopStatus (Run.Status run) = true /\
            forall j, (j < k)%nat -> unsettledAt Get (i + j).
Proof.
  revert i. induction ticks as [|n IH]; intros i; [discriminate|].
  rewrite waitForRunCompletion_loop_step.
  destruct (Get i) as [r|err] eqn:Hr; [|discriminate].
  destruct (stopStatus (Run.Status r)) eqn:Hs.
  - intros [= ->]. exists 0%nat. rewrite Nat.add_0_r.
    repeat split; [lia | assumption | assumption | intros j Hj; lia].
  - intros H. destruct (IH _ H) as (k & Hk & Hg & Hstop & Hbefore).
    exists (S k). replace (i + S k)%nat with (S i + k)%nat by lia.
    repeat split; [lia | assumption | assumption |].
    intros [|j] Hj.
    + rewrite Nat.add_0_r. now exists r.
    + replace (i + S j)%nat with (S i + j)%nat by lia. apply Hbefore. lia.
Qed.

(** The errors of [waitForRunCompletion] are the timeout and the errors
    of its polls. *)
Lemma waitForRunCompletion_loop_Err (ticks i : nat) (e : error) :
  waitForRunCompletion_loop Get ticks i = Err e ->
  e = errTimeout \/ exists k, Get k = Err e.
Proof.
  revert i. induction ticks as [|n IH]; intros i.
  - intros [= <-]. now left.
  - rewrite waitForRunCompletion_loop_step.
    destruct (Get i) as [r|err] eqn:Hr.
    + destruct (stopStatus (Run.Status r)); [discriminate | apply IH].
    + intros [= <-]. right. now exists i.
Qed.

End SettleWaitFacts.

(** C2, as the code has it.  Both settle-wait loops return a snapshot
    with no error exactly when, within the attempts (for
    [waitForRunCompletion], the ticks) they are given, a poll answers
    with a run whose status is completed, failed, cancelled or
    requires_action, every poll before it having answered with a run
    the loop polls again on (queued or in_progress for [waitForRun], any
    status but those four for [waitForRunCompletion]); the snapshot
    returned is the one of that poll.  The status expired is not among
    the stopping points. *)
Theorem settle_wait_returns_at_stop_status
    (Get : nat -> result Run.t) (ticks : nat) (run : Run.t) :
  (waitForRun Get = Ok run <->
   exists k, (k < maxAttempts)%nat /\ Get k = Ok run /\
             stopStatus (Run.Status run) = true /\
             forall j, (j < k)%nat -> pendingAt Get j)
  /\ (waitForRunCompletion Get ticks = Ok run <->
      exists k, (k < ticks)%nat /\ Get k = Ok run /\
                stopStatus (Run.Status run) = true /\
                forall j, (j < k)%nat -> unsettledAt Get j)
  /\ stopStatus "expired" = false.
Proof.
  split; [|split; [|reflexivity]]; split.
  - intros H. apply waitForRun_loop_Ok in H. exact H.
  - intros (k & Hk & Hg & Hs & Hb). unfold waitForRun.
    replace maxAttempts with (k + S (maxAttempts - S k))%nat by lia.
    rewrite (waitForRun_loop_skip Get k _ 0%nat Hb), waitForRun_loop_step.
    simpl. now rewrite Hg, Hs.
  - intros H. apply waitForRunCompletion_loop_Ok in H. exact H.
  - intros (k & Hk & Hg & Hs & Hb). unfold waitForRunCompletion.
    replace ticks with (k + S (ticks - S k))%nat by lia.
    rewrite (waitForRunCompletion_loop_skip Get k _ 0%nat Hb),
      waitForRunCompletion_loop_step.
    simpl. now rewrite Hg, Hs.
Qed.

(** The run settles at the fourth poll: both loops return its snapshot
    when their budget reaches that poll, and [waitForRunCompletion]
    times out on a budget of two ticks. *)
Example settle_wait_scenario :
  waitForRun settlingPolls = Ok (snapshot "run_123" "completed" None)
  /\ waitForRunCompletion settlingPolls 4 = Ok (snapshot "run_123" "completed" None)
  /\ waitForRunCompletion settlingPolls 2 = Err errTimeout.
Proof. vm_compute. repeat split. Qed.

(** A run that has expired: [waitForRun] gives up with an error, and
    [waitForRunCompletion] polls until its timeout. *)
Lemma expired_is_not_a_stopping_point :
  knownStatus "expired" = true
  /\ waitForRun (fun _ => Ok (snapshot "run_123" "expired" None))
     = Err (errUnexpectedStatus "expired")
  /\ waitForRunCompletion (fun _ => Ok (snapshot "run_123" "expired" None)) 30
     = Err errTimeout.
Proof. vm_compute. repeat split. Qed.

(** C4, as the code has it.  [waitForRun] fails with its
    unexpected-status error exactly when the first poll that is neither
    queued nor in_progress reports a status other than completed,
    failed, cancelled and requires_action, so for cancelling and expired
    as for a status outside the enumeration.  [waitForRunCompletion] has
    no such error: it fails with the error of a poll or with the
    timeout, and on every status other than completed, failed, cancelled
    and requires_action it goes on to the next poll. *)
Theorem unexpected_status_only_in_waitForRun (Get : nat -> result Run.t) :
  (forall (k : nat) (run : Run.t),
     (k < maxAttempts)%nat ->
     (forall j, (j < k)%nat -> pendingAt Get j) ->
     Get k = Ok run ->
     pendingStatus (Run.Status run) = false ->
     (waitForRun Get = Err (errUnexpectedStatus (Run.Status run)) <->
      stopStatus (Run.Status run) = false))
  /\ (forall (ticks : nat) (e : error),
        waitForRunCompletion Get ticks = Err e ->
        e = errTimeout \/ exists j, Get j = Err e)
  /\ (forall (ticks k : nat) (run : Run.t),
        (k < ticks)%nat ->
        (forall j, (j < k)%nat -> unsettledAt Get j) ->
        Get k = Ok run ->
        stopStatus (Run.Status run) = false ->
        waitForRunCompletion Get ticks
        = waitForRunCompletion_loop Get (ticks - S k) (S k)).
Proof.
  split; [|split].
  - intros k run Hk Hb Hg Hp. unfold waitForRun.
    replace maxAttempts with (k + S (maxAttempts - S k))%nat by lia.
    rewrite (waitForRun_loop_skip Get k _ 0%nat Hb), waitForRun_loop_step.
    simpl. rewrite Hg, Hp.
    destruct (stopStatus (Run.Status run)); split; congruence.
  - intros ticks e. apply waitForRunCompletion_loop_Err.
  - intros ticks k run Hk Hb Hg Hs. unfold waitForRunCompletion.
    replace ticks with (k + S (ticks - S k))%nat at 1 by lia.
    rewrite (waitForRunCompletion_loop_skip Get k _ 0%nat Hb),
      waitForRunCompletion_loop_step.
    simpl. now rewrite Hg, Hs.
Qed.

Lemma unexpected_status_only_in_waitForRun_witness :
  (waitForRun cancellingPolls = Err (errUnexpectedStatus "cancelling") <->
   stopStatus "cancelling" = false)
  /\ (waitForRunCompletion cancellingPolls 5 = Err errTimeout ->
      errTimeout = errTimeout \/ exists j, cancellingPolls j = Err errTimeout)
  /\ waitForRunCompletion cancellingPolls 5
     = waitForRunCompletion_loop cancellingPolls 3 2.
Proof.
  destruct (unexpected_status_only_in_waitForRun cancellingPolls) as (H1 & H2 & H3).
  split; [|split].
  - apply (H1 1%nat (snapshot "run_123" "cancelling" None)).
    + unfold maxAttempts. lia.
    + intros j Hj. assert (j = 0%nat) as -> by lia.
      exists (snapshot "run_123" "queued" None). split; reflexivity.
    + reflexivity.
    + reflexivity.
  - apply (H2 5%nat errTimeout).
  - apply (H3 5%nat 1%nat (snapshot "run_123" "cancelling" None)).
    + lia.
    + intros j Hj. assert (j = 0%nat) as -> by lia.
      exists (snapshot "run_123" "queued" None). split; reflexivity.
    + reflexivity.
    + reflexivity.
Defined.

(** A status of the enumeration that makes [waitForRun] fail, and a
    status outside it on which [waitForRunCompletion] keeps polling. *)
Lemma unexpected_status_counterexample :
  knownStatus "cancelling" = true
  /\ waitForRun (fun _ => Ok (snapshot "run_123" "cancelling" None))
     = Err (errUnexpectedStatus "cancelling")
  /\ knownStatus "archived" = false
  /\ waitForRunCompletion (fun _ => Ok (snapshot "run_123" "archived" None)) 30
     = Err errTimeout.
Proof. vm_compute. repeat split. Qed.

(** * Properties of the transport and of the gateway *)

Section TransportFacts.

Variable lib : Library.
Variable c : Client.t.

Lemma SendRequest_world {V : Type} (req : Request.t)
    (unmarshal : string -> result V) (w : World) :
  snd (SendRequest lib c req unmarshal w) = afterSending (authorized c req) w.
Proof.
  unfold SendRequest, Do, authorized, afterSending. cbv zeta.
  destruct (Client.HTTPClient c (sent w) _) as [resp|err]; [|reflexivity].
  destruct (ReadAll (Response.Body resp)) as [body [err|]]; [reflexivity|].
  destruct (negb (Response.StatusCode resp =? StatusOK)).
  - now destruct (json_Unmarshal_APIError lib body).
  - now destruct (unmarshal body).
Qed.

(** The result of [SendRequest], by the answer of the transport. *)
Lemma SendRequest_result {V : Type} (req : Request.t)
    (unmarshal : string -> result V) (w : World) :
  fst (SendRequest lib c req unmarshal w) =
  match Client.HTTPClient c (sent w) (authorized c req) with
  | Err err => Err (Errorf_w "failed to send request: " err)
  | Ok resp =>
      match ReadAll (Response.Body resp) with
      | (_, Some err) => Err (Errorf_w "failed to read response body: " err)
      | (body, None) =>
          if Response.StatusCode resp =? StatusOK
          then match unmarshal body with
               | Err err => Err (Errorf_w "failed to decode response: " err)
               | Ok v => Ok v
               end
          else match json_Unmarshal_APIError lib body with
               | Err _ =>
                   Err (errorString
                          ("API request failed with status " +:+
                           pretty (Response.StatusCode resp) +:+ ": " +:+ body))
               | Ok apiErr => Err (apiError apiErr)
               end
      end
  end.
Proof.
  unfold SendRequest, Do, authorized. cbv zeta.
  destruct (Client.HTTPClient c (sent w) _) as [resp|err]; [|reflexivity].
  destruct (ReadAll (Response.Body resp)) as [body [err|]]; [reflexivity|].
  destruct (Response.StatusCode resp =? StatusOK); simpl.
  - now destruct (unmarshal body).
  - now destruct (json_Unmarshal_APIError lib body).
Qed.

(** [SendRequest] returns a value exactly when the round trip and the
    read succeed, the status code is 200 and the body decodes. *)
Lemma SendRequest_Ok {V : Type} (req : Request.t)
    (unmarshal : string -> result V) (w : World) (v : V) :
  fst (SendRequest lib c req unmarshal w) = Ok v <->
  exists resp body,
    Client.HTTPClient c (sent w) (authorized c req) = Ok resp /\
    ReadAll (Response.Body resp) = (body, None) /\
    Response.StatusCode resp = StatusOK /\
    unmarshal body = Ok v.
Proof.
  rewrite SendRequest_result. split.
  - destruct (Client.HTTPClient c (sent w) _) as [resp|err]; [|discriminate].
    destruct (ReadAll (Response.Body resp)) as [body [err|]] eqn:Hr; [discriminate|].
    destruct (Response.StatusCode resp =? StatusOK) eqn:Hs.
    + destruct (unmarshal body) as [v'|err] eqn:Hu; [|discriminate].
      intros [= ->]. exists resp, body. apply Z.eqb_eq in Hs. now repeat split.
    + now destruct (json_Unmarshal_APIError lib body).
  - intros (resp & body & -> & -> & Hs & ->).
    apply Z.eqb_eq in Hs. now rewrite Hs.
Qed.

End TransportFacts.

(** C5, as the code has it.  [SendRequest] decodes the body into the
    result and returns no error exactly when the round trip and the read
    of the body succeed, the status code is 200 and the body decodes.
    For any other status code, the other codes from 201 to 299 included,
    it returns the [APIError] that the body decodes to, as it is, and
    when the body does not decode, an error that quotes the status code
    and the body.  The request goes out once, with the two headers set. *)
Theorem SendRequest_succeeds_on_200_only {V : Type} (lib : Library) (c : Client.t)
    (req : Request.t) (unmarshal : string -> result V) (w : World) :
  (forall v : V,
     fst (SendRequest lib c req unmarshal w) = Ok v <->
     exists resp body,
       Client.HTTPClient c (sent w) (authorized c req) = Ok resp /\
       ReadAll (Response.Body resp) = (body, None) /\
       Response.StatusCode resp = StatusOK /\
       unmarshal body = Ok v)
  /\ (forall resp body,
        Client.HTTPClient c (sent w) (authorized c req) = Ok resp ->
        ReadAll (Response.Body resp) = (body, None) ->
        Response.StatusCode resp <> StatusOK ->
        fst (SendRequest lib c req unmarshal w) =
        match json_Unmarshal_APIError lib body with
        | Ok apiErr => Err (apiError apiErr)
        | Err _ =>
            Err (errorString
                   ("API request failed with status " +:+
                    pretty (Response.StatusCode resp) +:+ ": " +:+ body))
        end)
  /\ snd (SendRequest lib c req unmarshal w) = afterSending (authorized c req) w.
Proof.
  split; [|split].
  - intros v. apply SendRequest_Ok.
  - intros resp body Hd Hr Hs. rewrite SendRequest_result, Hd, Hr.
    apply Z.eqb_neq in Hs. rewrite Hs.
    now destruct (json_Unmarshal_APIError lib body).
  - apply SendRequest_world.
Qed.

(** The error case of the transport's test: status 400 with an error
    body. *)
Lemma SendRequest_succeeds_on_200_only_witness :
  fst (SendRequest exampleLibrary
         (clientAnswering (Ok (Response.mk 400 (mkReader apiErrorJSON io_EOF))))
         (Request.mk "GET" "/test" ∅ None) (json_Unmarshal_Run exampleLibrary)
         exampleWorld)
  = Err (apiError (APIError.mk "error message" "invalid_request_error" ""
                     "invalid_api_key")).
Proof.
  apply (proj1 (proj2 (SendRequest_succeeds_on_200_only exampleLibrary
           (clientAnswering (Ok (Response.mk 400 (mkReader apiErrorJSON io_EOF))))
           (Request.mk "GET" "/test" ∅ None) (json_Unmarshal_Run exampleLibrary)
           exampleWorld))
           (Response.mk 400 (mkReader apiErrorJSON io_EOF)) apiErrorJSON).
  - reflexivity.
  - reflexivity.
  - discriminate.
Defined.

(** A 201 answer with a run in its body is an error for [SendRequest],
    and the error is an [APIError] with nothing in it; a 500 answer
    whose body is no JSON document gives an error that is no
    [APIError]. *)
Lemma SendRequest_rejects_201 :
  is2xx 201 = true
  /\ fst (SendRequest exampleLibrary
            (clientAnswering
               (Ok (Response.mk 201 (mkReader (runJSON "run_123" "queued" "") io_EOF))))
            (Request.mk "POST" "/test" ∅ None) (json_Unmarshal_Run exampleLibrary)
            exampleWorld)
     = Err (apiError (APIError.mk "" "" "" ""))
  /\ is2xx 500 = false
  /\ fst (SendRequest exampleLibrary
            (clientAnswering
               (Ok (Response.mk 500 (mkReader "Internal Server Error" io_EOF))))
            (Request.mk "POST" "/test" ∅ None) (json_Unmarshal_Run exampleLibrary)
            exampleWorld)
     = Err (errorString "API request failed with status 500: Internal Server Error").
Proof. vm_compute. repeat split. Qed.

Section GatewayFacts.

Variable lib : Library.
Variable c : Client.t.

Lemma SendRequest_decoded (req : Request.t) (w : World) (run : Run.t) :
  fst (SendRequest lib c req (json_Unmarshal_Run lib) w) = Ok run ->
  decodedFromAnswer lib c w run.
Proof.
  intros H. apply SendRequest_Ok in H. destruct H as (resp & body & H1 & H2 & H3 & H4).
  now exists (authorized c req), resp, body.
Qed.

Lemma createRun_decoded (url : string) (req : requestRef) (w : World) (run : Run.t) :
  fst (Service.createRun lib c url req w) = Ok run -> decodedFromAnswer lib c w run.
Proof.
  unfold Service.createRun, NewRequest.
  destruct (json_Marshal lib (load w req)) as [body|err]; [|discriminate].
  destruct (http_NewRequest lib "POST" url) as [err|]; [discriminate|].
  apply SendRequest_decoded.
Qed.

Lemma createRunStream_world (url : string) (req : requestRef) (w : World) :
  sentOnlyBodyOf lib (load w req) w (snd (Service.createRunStream lib c url req w)).
Proof.
  unfold Service.createRunStream, NewRequest, Do.
  destruct (json_Marshal lib (load w req)) as [body|err] eqn:Hm; [|now left].
  destruct (http_NewRequest lib "POST" url) as [err|]; [now left|].
  right. eexists _, body. repeat split; [exact Hm | | |]; cycle 2.
  - cbv zeta. destruct (Client.HTTPClient c (sent w) _) as [resp|err]; [|reflexivity].
    destruct (negb (Response.StatusCode resp =? StatusOK)); reflexivity.
  - reflexivity.
  - reflexivity.
Qed.

End GatewayFacts.

(** *** What each call hands to the transport, exactly *)

Lemma sentExactly_heaps (lib : Library) (method url : string)
    (body : result (option string)) (headers : Request.t -> Request.t) (w w' : World) :
  sentExactly lib method url body headers w w' ->
  createRunRequests w' = createRunRequests w
  /\ createThreadAndRunRequests w' = createThreadAndRunRequests w
  /\ submitToolOutputsRequests w' = submitToolOutputsRequests w.
Proof.
  unfold sentExactly. destruct body as [b|err].
  - destruct (http_NewRequest lib method url); intros ->; repeat split.
  - intros ->. repeat split.
Qed.

Section GatewayExact.

Variable lib : Library.
Variable c : Client.t.

Lemma createRun_exact (url : string) (req : requestRef) (w : World) :
  sentExactly lib "POST" url (marshalledBody lib (load w req)) (viaSendRequest c)
    w (snd (Service.createRun lib c url req w)).
Proof.
  unfold sentExactly, marshalledBody, Service.createRun, NewRequest.
  destruct (json_Marshal lib (load w req)) as [body|err]; [|reflexivity].
  destruct (http_NewRequest lib "POST" url) as [err|]; [reflexivity|].
  apply SendRequest_world.
Qed.

Lemma createRunStream_exact (url : string) (req : requestRef) (w : World) :
  sentExactly lib "POST" url (marshalledBody lib (load w req)) (Service.prepareRequest c)
    w (snd (Service.createRunStream lib c url req w)).
Proof.
  unfold sentExactly, marshalledBody, Service.createRunStream, NewRequest, Do.
  destruct (json_Marshal lib (load w req)) as [body|err]; [|reflexivity].
  destruct (http_NewRequest lib "POST" url) as [err|]; [reflexivity|].
  cbv zeta. destruct (Client.HTTPClient c (sent w) _) as [resp|err]; [|reflexivity].
  destruct (negb (Response.StatusCode resp =? StatusOK)); reflexivity.
Qed.

Lemma Get_exact (threadID runID : string) (w : World) :
  sentExactly lib "GET"
    (Client.BaseURL c +:+ "/threads/" +:+ threadID +:+ "/runs/" +:+ runID)
    (Ok None) (viaSendRequest c) w (snd (Service.Get lib c threadID runID w)).
Proof.
  unfold sentExactly, Service.Get, NewRequest.
  destruct (http_NewRequest lib "GET" _) as [err|]; [reflexivity|].
  apply SendRequest_world.
Qed.

Lemma Modify_exact (threadID runID : string) (metadata : types.Metadata) (w : World) :
  sentExactly lib "POST"
    (Client.BaseURL c +:+ "/threads/" +:+ threadID +:+ "/runs/" +:+ runID)
    (marshalledBody lib (ofMetadata metadata)) (viaSendRequest c)
    w (snd (Service.Modify lib c threadID runID metadata w)).
Proof.
  unfold sentExactly, marshalledBody, Service.Modify, NewRequest.
  destruct (json_Marshal lib _) as [body|err]; [|reflexivity].
  destruct (http_NewRequest lib "POST" _) as [err|]; [reflexivity|].
  apply SendRequest_world.
Qed.

Lemma SubmitToolOutputs_exact (threadID runID : string) (p : loc) (w : World) :
  sentExactly lib "POST" (submitURL c threadID runID)
    (marshalledBody lib (ofSubmitToolOutputsRequest (submitToolOutputsRequests w !! p)))
    (viaSendRequest c) w (snd (Service.SubmitToolOutputs lib c threadID runID p w)).
Proof.
  unfold sentExactly, marshalledBody, Service.SubmitToolOutputs, NewRequest, submitURL.
  destruct (json_Marshal lib _) as [body|err]; [|reflexivity].
  destruct (http_NewRequest lib "POST" _) as [err|]; [reflexivity|].
  apply SendRequest_world.
Qed.

Lemma SubmitToolOutputsStream_exact (threadID runID : string) (p : loc)
    (req : SubmitToolOutputsRequest.t) (w : World) :
  submitToolOutputsRequests w !! p = Some req ->
  sentExactly lib "POST" (submitURL c threadID runID)
    (marshalledBody lib
       (ofSubmitToolOutputsRequest (Some (SubmitToolOutputsRequest.setStream true req))))
    (Service.prepareRequest c)
    (withSubmitToolOutputsRequests
       (<[p := SubmitToolOutputsRequest.setStream true req]>
          (submitToolOutputsRequests w)) w)
    (snd (Service.SubmitToolOutputsStream lib c threadID runID p w)).
Proof.
  intros Hp.
  unfold sentExactly, marshalledBody, Service.SubmitToolOutputsStream, NewRequest, Do,
    submitURL.
  rewrite Hp. cbv zeta. simpl submitToolOutputsRequests. rewrite lookup_insert_eq.
  destruct (json_Marshal lib _) as [body|err]; [|reflexivity].
  destruct (http_NewRequest lib "POST" _) as [err|]; [reflexivity|].
  destruct (Client.HTTPClient c _ _) as [resp|err]; [|reflexivity].
  destruct (negb (Response.StatusCode resp =? StatusOK)); reflexivity.
Qed.

Lemma Cancel_exact (threadID runID : string) (w : World) :
  sentExactly lib "POST"
    (Client.BaseURL c +:+ "/threads/" +:+ threadID +:+ "/runs/" +:+ runID +:+ "/cancel")
    (Ok None) (viaSendRequest c) w (snd (Service.Cancel lib c threadID runID w)).
Proof.
  unfold sentExactly, Service.Cancel, NewRequest.
  destruct (http_NewRequest lib "POST" _) as [err|]; [reflexivity|].
  match goal with
  | |- context [SendRequest lib c ?r ?u w] =>
      pose proof (SendRequest_world lib c r u w) as H;
      destruct (SendRequest lib c r u w) as [[v|err] w']
  end; exact H.
Qed.

End GatewayExact.

(** C9. Each streaming entry point stores [true] in the [Stream] field
    of the request struct that the caller passed by pointer, whatever
    the field held, before the struct is marshalled: after the call the
    struct at the caller's address has [Stream] equal to [true] and
    every other field as it was, and the request sent, if one is sent,
    carries the marshalling of that struct.  Exactly one request is
    sent when marshalling and request construction succeed, none
    otherwise.  The synchronous [SubmitToolOutputs] leaves the struct as
    it is and sends its marshalling, with [Stream] as the caller set
    it, under the same conditions. *)
Theorem streaming_sets_Stream_in_place (lib : Library) (c : Client.t) (w : World) :
  (forall (threadID : string) (p : loc) (req : CreateRunRequest.t),
     createRunRequests w !! p = Some req ->
     sentOnlyBodyOf lib
       (ofCreateRunRequest (Some (CreateRunRequest.setStream true req)))
       (withCreateRunRequests
          (<[p := CreateRunRequest.setStream true req]> (createRunRequests w)) w)
       (snd (Service.CreateAndStream lib c threadID p w))
     /\ (exists req',
           createRunRequests (snd (Service.CreateAndStream lib c threadID p w)) !! p
           = Some req'
           /\ CreateRunRequest.Stream req' = true
           /\ sameButStream_CreateRunRequest req req')
     /\ sentExactly lib "POST" (Client.BaseURL c +:+ "/threads/" +:+ threadID +:+ "/runs")
          (marshalledBody lib
             (ofCreateRunRequest
                (createRunRequests (snd (Service.CreateAndStream lib c threadID p w))
                 !! p)))
          (Service.prepareRequest c)
          (withCreateRunRequests
             (createRunRequests (snd (Service.CreateAndStream lib c threadID p w))) w)
          (snd (Service.CreateAndStream lib c threadID p w)))
  /\ (forall (p : loc) (req : CreateThreadAndRunRequest.t),
        createThreadAndRunRequests w !! p = Some req ->
        sentOnlyBodyOf lib
          (ofCreateThreadAndRunRequest
             (Some (CreateThreadAndRunRequest.setStream true req)))
          (withCreateThreadAndRunRequests
             (<[p := CreateThreadAndRunRequest.setStream true req]>
                (createThreadAndRunRequests w)) w)
          (snd (Service.CreateThreadAndRunStream lib c p w))
        /\ (exists req',
              createThreadAndRunRequests (snd (Service.CreateThreadAndRunStream lib c p w))
              !! p = Some req'
              /\ CreateThreadAndRunRequest.Stream req' = true
              /\ sameButStream_CreateThreadAndRunRequest req req')
        /\ sentExactly lib "POST" (Client.BaseURL c +:+ "/threads/runs")
             (marshalledBody lib
                (ofCreateThreadAndRunRequest
                   (createThreadAndRunRequests
                      (snd (Service.CreateThreadAndRunStream lib c p w)) !! p)))
             (Service.prepareRequest c)
             (withCreateThreadAndRunRequests
                (createThreadAndRunRequests
                   (snd (Service.CreateThreadAndRunStream lib c p w))) w)
             (snd (Service.CreateThreadAndRunStream lib c p w)))
  /\ (forall (threadID runID : string) (p : loc) (req : SubmitToolOutputsRequest.t),
        submitToolOutputsRequests w !! p = Some req ->
        sentOnlyBodyOf lib
          (ofSubmitToolOutputsRequest
             (Some (SubmitToolOutputsRequest.setStream true req)))
          (withSubmitToolOutputsRequests
             (<[p := SubmitToolOutputsRequest.setStream true req]>
                (submitToolOutputsRequests w)) w)
          (snd (Service.SubmitToolOutputsStream lib c threadID runID p w))
        /\ (exists req',
              submitToolOutputsRequests
                (snd (Service.SubmitToolOutputsStream lib c threadID runID p w)) !! p
              = Some req'
              /\ SubmitToolOutputsRequest.Stream req' = true
              /\ sameButStream_SubmitToolOutputsRequest req req')
        /\ sentExactly lib "POST" (submitURL c threadID runID)
             (marshalledBody lib
                (ofSubmitToolOutputsRequest
                   (submitToolOutputsRequests
                      (snd (Service.SubmitToolOutputsStream lib c threadID runID p w))
                    !! p)))
             (Service.prepareRequest c)
             (withSubmitToolOutputsRequests
                (submitToolOutputsRequests
                   (snd (Service.SubmitToolOutputsStream lib c threadID runID p w))) w)
             (snd (Service.SubmitToolOutputsStream lib c threadID runID p w)))
  /\ (forall (threadID runID : string) (p : loc) (req : SubmitToolOutputsRequest.t),
        submitToolOutputsRequests w !! p = Some req ->
        sentOnlyBodyOf lib (ofSubmitToolOutputsRequest (Some req)) w
          (snd (Service.SubmitToolOutputs lib c threadID runID p w))
        /\ submitToolOutputsRequests
             (snd (Service.SubmitToolOutputs lib c threadID runID p w)) !! p
           = Some req
        /\ sentExactly lib "POST" (submitURL c threadID runID)
             (marshalledBody lib (ofSubmitToolOutputsRequest (Some req)))
             (viaSendRequest c) w
             (snd (Service.SubmitToolOutputs lib c threadID runID p w))).
Proof.
  split; [|split; [|split]].
  - intros threadID p req Hp. unfold Service.CreateAndStream. rewrite Hp.
    match goal with
    | |- context [Service.createRunStream lib c ?u ?r ?w1] =>
        pose proof (createRunStream_world lib c u r w1) as H;
        pose proof (createRunStream_exact lib c u r w1) as He;
        destruct (Service.createRunStream lib c u r w1) as [res w2]
    end.
    simpl in H, He. rewrite lookup_insert_eq in H, He.
    destruct (sentExactly_heaps _ _ _ _ _ _ _ He) as (Hh & _ & _).
    simpl in Hh. simpl snd. rewrite Hh, lookup_insert_eq.
    split; [exact H|]. split; [|exact He].
    exists (CreateRunRequest.setStream true req).
    split; [reflexivity|]. split; [reflexivity|].
    unfold sameButStream_CreateRunRequest. simpl. repeat split.
  - intros p req Hp. unfold Service.CreateThreadAndRunStream. rewrite Hp.
    match goal with
    | |- context [Service.createRunStream lib c ?u ?r ?w1] =>
        pose proof (createRunStream_world lib c u r w1) as H;
        pose proof (createRunStream_exact lib c u r w1) as He;
        destruct (Service.createRunStream lib c u r w1) as [res w2]
    end.
    simpl in H, He. rewrite lookup_insert_eq in H, He.
    destruct (sentExactly_heaps _ _ _ _ _ _ _ He) as (_ & Hh & _).
    simpl in Hh. simpl snd. rewrite Hh, lookup_insert_eq.
    split; [exact H|]. split; [|exact He].
    exists (CreateThreadAndRunRequest.setStream true req).
    split; [reflexivity|]. split; [reflexivity|].
    unfold sameButStream_CreateThreadAndRunRequest, sameButStream_CreateRunRequest.
    simpl. repeat split.
  - intros threadID runID p req Hp.
    pose proof (SubmitToolOutputsStream_exact lib c threadID runID p req w Hp) as He.
    destruct (sentExactly_heaps _ _ _ _ _ _ _ He) as (_ & _ & Hh).
    simpl in Hh. rewrite Hh, lookup_insert_eq.
    split; [|split; [|exact He]].
    + unfold Service.SubmitToolOutputsStream, NewRequest, Do. rewrite Hp.
      cbv zeta. simpl submitToolOutputsRequests. rewrite lookup_insert_eq.
      destruct (json_Marshal lib _) as [body|err] eqn:Hm; [|now left].
      destruct (http_NewRequest lib "POST" _) as [err|]; [now left|].
      right. eexists _, body. repeat split; [exact Hm | | |]; cycle 2.
      * destruct (Client.HTTPClient c _ _) as [resp|err]; [|reflexivity].
        destruct (negb (Response.StatusCode resp =? StatusOK)); reflexivity.
      * reflexivity.
      * reflexivity.
    + exists (SubmitToolOutputsRequest.setStream true req).
      split; [reflexivity|]. split; reflexivity.
  - intros threadID runID p req Hp.
    pose proof (SubmitToolOutputs_exact lib c threadID runID p w) as He.
    rewrite Hp in He.
    destruct (sentExactly_heaps _ _ _ _ _ _ _ He) as (_ & _ & Hh).
    rewrite Hh. split; [|split; [exact Hp | exact He]].
    unfold Service.SubmitToolOutputs, NewRequest. rewrite Hp.
    destruct (json_Marshal lib _) as [body|err] eqn:Hm; [|now left].
    destruct (http_NewRequest lib "POST" _) as [err|]; [now left|].
    right. eexists _, body. repeat split; [exact Hm | | |]; cycle 2.
    + apply SendRequest_world.
    + reflexivity.
    + reflexivity.
Qed.

(** The three request structs of the example world, none of which asks
    for a stream. *)
Lemma streaming_sets_Stream_in_place_witness :
  (sentOnlyBodyOf exampleLibrary
       (ofCreateRunRequest (Some (CreateRunRequest.setStream true createRunPlain)))
       (withCreateRunRequests
          (<[2%positive := CreateRunRequest.setStream true createRunPlain]>
             (createRunRequests exampleWorld)) exampleWorld)
       (snd (Service.CreateAndStream exampleLibrary
             (clientAnswering (Ok (Response.mk 200 completedStream)))
             "thread_123" 2%positive exampleWorld))
     /\ (exists req',
           createRunRequests (snd (Service.CreateAndStream exampleLibrary
                 (clientAnswering (Ok (Response.mk 200 completedStream)))
                 "thread_123" 2%positive exampleWorld)) !! 2%positive
           = Some req'
           /\ CreateRunRequest.Stream req' = true
           /\ sameButStream_CreateRunRequest createRunPlain req')
     /\ sentExactly exampleLibrary "POST" (Client.BaseURL
           (clientAnswering (Ok (Response.mk 200 completedStream)))
           +:+ "/threads/" +:+ "thread_123" +:+ "/runs")
          (marshalledBody exampleLibrary
             (ofCreateRunRequest
                (createRunRequests (snd (Service.CreateAndStream exampleLibrary
                      (clientAnswering (Ok (Response.mk 200 completedStream)))
                      "thread_123" 2%positive exampleWorld))
                 !! 2%positive)))
          (Service.prepareRequest (clientAnswering (Ok (Response.mk 200 completedStream))))
          (withCreateRunRequests
             (createRunRequests (snd (Service.CreateAndStream exampleLibrary
                   (clientAnswering (Ok (Response.mk 200 completedStream)))
                   "thread_123" 2%positive exampleWorld))) exampleWorld)
          (snd (Service.CreateAndStream exampleLibrary
                (clientAnswering (Ok (Response.mk 200 completedStream)))
                "thread_123" 2%positive exampleWorld)))
  /\ (sentOnlyBodyOf exampleLibrary
          (ofCreateThreadAndRunRequest
             (Some (CreateThreadAndRunRequest.setStream true createThreadAndRunPlain)))
          (withCreateThreadAndRunRequests
             (<[3%positive := CreateThreadAndRunRequest.setStream true createThreadAndRunPlain]>
                (createThreadAndRunRequests exampleWorld)) exampleWorld)
          (snd (Service.CreateThreadAndRunStream exampleLibrary
                (clientAnswering (Ok (Response.mk 200 completedStream)))
                3%positive exampleWorld))
        /\ (exists req',
              createThreadAndRunRequests (snd (Service.CreateThreadAndRunStream exampleLibrary
                    (clientAnswering (Ok (Response.mk 200 completedStream)))
                    3%positive exampleWorld))
              !! 3%positive = Some req'
              /\ CreateThreadAndRunRequest.Stream req' = true
              /\ sameButStream_CreateThreadAndRunRequest createThreadAndRunPlain req')
        /\ sentExactly exampleLibrary "POST" (Client.BaseURL
              (clientAnswering (Ok (Response.mk 200 completedStream))) +:+ "/threads/runs")
             (marshalledBody exampleLibrary
                (ofCreateThreadAndRunRequest
                   (createThreadAndRunRequests
                      (snd (Service.CreateThreadAndRunStream exampleLibrary
                            (clientAnswering (Ok (Response.mk 200 completedStream)))
                            3%positive exampleWorld)) !! 3%positive)))
             (Service.prepareRequest (clientAnswering (Ok (Response.mk 200 completedStream))))
             (withCreateThreadAndRunRequests
                (createThreadAndRunRequests
                   (snd (Service.CreateThreadAndRunStream exampleLibrary
                         (clientAnswering (Ok (Response.mk 200 completedStream)))
                         3%positive exampleWorld))) exampleWorld)
             (snd (Service.CreateThreadAndRunStream exampleLibrary
                   (clientAnswering (Ok (Response.mk 200 completedStream)))
                   3%positive exampleWorld)))
  /\ (sentOnlyBodyOf exampleLibrary
          (ofSubmitToolOutputsRequest
             (Some (SubmitToolOutputsRequest.setStream true outputsForA)))
          (withSubmitToolOutputsRequests
             (<[1%positive := SubmitToolOutputsRequest.setStream true outputsForA]>
                (submitToolOutputsRequests exampleWorld)) exampleWorld)
          (snd (Service.SubmitToolOutputsStream exampleLibrary
                (clientAnswering (Ok (Response.mk 200 completedStream)))
                "thread_123" "run_123" 1%positive exampleWorld))
        /\ (exists req',
              submitToolOutputsRequests
                (snd (Service.SubmitToolOutputsStream exampleLibrary
                      (clientAnswering (Ok (Response.mk 200 completedStream)))
                      "thread_123" "run_123" 1%positive exampleWorld)) !! 1%positive
              = Some req'
              /\ SubmitToolOutputsRequest.Stream req' = true
              /\ sameButStream_SubmitToolOutputsRequest outputsForA req')
        /\ sentExactly exampleLibrary "POST" (submitURL
              (clientAnswering (Ok (Response.mk 200 completedStream))) "thread_123" "run_123")
             (marshalledBody exampleLibrary
                (ofSubmitToolOutputsRequest
                   (submitToolOutputsRequests
                      (snd (Service.SubmitToolOutputsStream exampleLibrary
                            (clientAnswering (Ok (Response.mk 200 completedStream)))
                            "thread_123" "run_123" 1%positive exampleWorld))
                    !! 1%positive)))
             (Service.prepareRequest (clientAnswering (Ok (Response.mk 200 completedStream))))
             (withSubmitToolOutputsRequests
                (submitToolOutputsRequests
                   (snd (Service.SubmitToolOutputsStream exampleLibrary
                         (clientAnswering (Ok (Response.mk 200 completedStream)))
                         "thread_123" "run_123" 1%positive exampleWorld))) exampleWorld)
             (snd (Service.SubmitToolOutputsStream exampleLibrary
                   (clientAnswering (Ok (Response.mk 200 completedStream)))
                   "thread_123" "run_123" 1%positive exampleWorld)))
  /\ (sentOnlyBodyOf exampleLibrary (ofSubmitToolOutputsRequest (Some outputsForA)) exampleWorld
          (snd (Service.SubmitToolOutputs exampleLibrary
                (clientAnswering (Ok (Response.mk 200 completedStream)))
                "thread_123" "run_123" 1%positive exampleWorld))
        /\ submitToolOutputsRequests
             (snd (Service.SubmitToolOutputs exampleLibrary
                   (clientAnswering (Ok (Response.mk 200 completedStream)))
                   "thread_123" "run_123" 1%positive exampleWorld)) !! 1%positive
           = Some outputsForA
        /\ sentExactly exampleLibrary "POST" (submitURL
              (clientAnswering (Ok (Response.mk 200 completedStream))) "thread_123" "run_123")
             (marshalledBody exampleLibrary (ofSubmitToolOutputsRequest (Some outputsForA)))
             (viaSendRequest
                   (clientAnswering (Ok (Response.mk 200 completedStream)))) exampleWorld
             (snd (Service.SubmitToolOutputs exampleLibrary
                   (clientAnswering (Ok (Response.mk 200 completedStream)))
                   "thread_123" "run_123" 1%positive exampleWorld))).
Proof.
  destruct (streaming_sets_Stream_in_place exampleLibrary
              (clientAnswering (Ok (Response.mk 200 completedStream))) exampleWorld)
    as (H1 & H2 & H3 & H4).
  split; [|split; [|split]].
  - apply H1. reflexivity.
  - apply H2. reflexivity.
  - apply H3. reflexivity.
  - apply H4. reflexivity.
Defined.

(** [CreateAndStream] on a request that did not ask for a stream: the
    body sent asks for one, and so does the caller's struct afterwards;
    the synchronous [SubmitToolOutputs] sends no [stream] member. *)
Example CreateAndStream_scenario :
  match Service.CreateAndStream exampleLibrary
          (clientAnswering (Ok (Response.mk 200 completedStream)))
          "thread_123" 2%positive exampleWorld with
  | (r, w') =>
      r = Returns (Ok [RunEvent.mk "thread.run.completed" (Some completedPayload);
                       doneEvent])
      /\ CreateRunRequest.Stream <$> (createRunRequests w' !! 2%positive) = Some true
      /\ Request.Body <$> sent w'
         = [Some ("{" +:+ jsonMember "assistant_id" (jsonString "asst_123") +:+ "," +:+
                  jsonMember "stream" "true" +:+ "}")]
  end.
Proof. vm_compute. repeat split. Qed.

(** C3, as the code has it.  The submission operations take the
    caller's outputs as they are: they have no access to the tool calls
    the run waits for and compare nothing.  [SubmitToolOutputs] returns
    a run exactly when the request marshals, the URL parses and the
    transport answers the one POST that carries the whole supplied set
    with status 200 and a body that decodes; [SubmitToolOutputsStream]
    returns its events exactly when the request, with [Stream] set,
    marshals, the URL parses and the transport answers with status
    200.  No condition bears on the ids of the outputs. *)
Theorem submission_forwards_outputs_unchecked (lib : Library) (c : Client.t)
    (threadID runID : string) (p : loc) (req : SubmitToolOutputsRequest.t) (w : World) :
  submitToolOutputsRequests w !! p = Some req ->
  (forall run : Run.t,
     fst (Service.SubmitToolOutputs lib c threadID runID p w) = Ok run <->
     exists body resp bytes,
       json_Marshal lib (ofSubmitToolOutputsRequest (Some req)) = Ok body /\
       http_NewRequest lib "POST" (submitURL c threadID runID) = None /\
       Client.HTTPClient c (sent w) (submitRequest c threadID runID body) = Ok resp /\
       ReadAll (Response.Body resp) = (bytes, None) /\
       Response.StatusCode resp = StatusOK /\
       json_Unmarshal_Run lib bytes = Ok run)
  /\ (forall evs : list RunEvent.t,
        fst (Service.SubmitToolOutputsStream lib c threadID runID p w) = Returns (Ok evs) <->
        exists body resp,
          json_Marshal lib
            (ofSubmitToolOutputsRequest
               (Some (SubmitToolOutputsRequest.setStream true req))) = Ok body /\
          http_NewRequest lib "POST" (submitURL c threadID runID) = None /\
          Client.HTTPClient c (sent w) (submitStreamRequest c threadID runID body)
            = Ok resp /\
          Response.StatusCode resp = StatusOK /\
          evs = SubmitToolOutputsStream_goroutine (strings_TrimSpace lib)
                  (Response.Body resp)).
Proof.
  intros Hp. split.
  - intros run. unfold Service.SubmitToolOutputs, NewRequest. rewrite Hp.
    fold (submitURL c threadID runID).
    destruct (json_Marshal lib _) as [body|err] eqn:Hm.
    + destruct (http_NewRequest lib "POST" _) as [err|] eqn:Hn.
      * split; [discriminate|]. intros (b & r & bs & _ & H & _). discriminate.
      * rewrite SendRequest_Ok. fold (submitRequest c threadID runID body). split.
        -- intros (resp & bytes & H1 & H2 & H3 & H4). now exists body, resp, bytes.
        -- intros (b & resp & bytes & [= <-] & _ & H1 & H2 & H3 & H4).
           now exists resp, bytes.
    + split; [discriminate|]. intros (b & r & bs & H & _). discriminate.
  - intros evs.
    unfold Service.SubmitToolOutputsStream, NewRequest, Do. rewrite Hp.
    cbv zeta. simpl submitToolOutputsRequests. rewrite lookup_insert_eq.
    fold (submitURL c threadID runID). simpl sent.
    destruct (json_Marshal lib _) as [body|err] eqn:Hm.
    + destruct (http_NewRequest lib "POST" _) as [err|] eqn:Hn.
      * split; [discriminate|]. intros (b & r & _ & H & _). discriminate.
      * fold (submitStreamRequest c threadID runID body).
        destruct (Client.HTTPClient c (sent w) _) as [resp|err] eqn:Hd.
        -- destruct (Response.StatusCode resp =? StatusOK) eqn:Hs; simpl.
           ++ apply Z.eqb_eq in Hs. split.
              ** intros [= <-]. now exists body, resp.
              ** intros (b & r & [= <-] & _ & Hd' & _ & ->).
                 rewrite Hd in Hd'. now injection Hd' as <-.
           ++ apply Z.eqb_neq in Hs. split; [discriminate|].
              intros (b & r & [= <-] & _ & Hd' & Hs' & _).
              rewrite Hd in Hd'. injection Hd' as <-. contradiction.
        -- split; [discriminate|].
           intros (b & r & [= <-] & _ & Hd' & _). rewrite Hd in Hd'. discriminate.
    + split; [discriminate|]. intros (b & r & H & _). discriminate.
Qed.

Lemma submission_forwards_outputs_unchecked_witness :
  fst (Service.SubmitToolOutputs exampleLibrary (clientAnswering (Ok completedAnswer))
         "thread_123" "run_123" 1%positive exampleWorld)
  = Ok (snapshot "run_123" "completed" None).
Proof.
  apply (proj1 (submission_forwards_outputs_unchecked exampleLibrary
                  (clientAnswering (Ok completedAnswer)) "thread_123" "run_123"
                  1%positive outputsForA exampleWorld eq_refl)).
  exists (submitJSON outputsForA), completedAnswer, (runJSON "run_123" "completed" "").
  repeat split.
Defined.

(** The run waits for the outputs of the tool calls [A] and [B]; the
    caller supplies an output for [A] alone.  Both operations send that
    one output and report success. *)
Lemma partial_submission_is_sent :
  outstandingIDs (snapshot "run_123" "requires_action" (Some actionAB)) = ["A"; "B"]
  /\ suppliedIDs outputsForA = ["A"]
  /\ Service.SubmitToolOutputs exampleLibrary (clientAnswering (Ok completedAnswer))
       "thread_123" "run_123" 1%positive exampleWorld
     = (Ok (snapshot "run_123" "completed" None),
        afterSending
          (submitRequest (clientAnswering (Ok completedAnswer)) "thread_123" "run_123"
             ("{" +:+ jsonMember "tool_outputs"
                ("[{" +:+ jsonMember "tool_call_id" (jsonString "A") +:+ "," +:+
                 jsonMember "output" (jsonString "sunny") +:+ "}]") +:+ "}"))
          exampleWorld)
  /\ fst (Service.SubmitToolOutputsStream exampleLibrary
            (clientAnswering (Ok (Response.mk 200 completedStream)))
            "thread_123" "run_123" 1%positive exampleWorld)
     = Returns (Ok [RunEvent.mk "thread.run.completed" (Some completedPayload);
                    doneEvent])
  /\ Request.Body <$>
       sent (snd (Service.SubmitToolOutputsStream exampleLibrary
                    (clientAnswering (Ok (Response.mk 200 completedStream)))
                    "thread_123" "run_123" 1%positive exampleWorld))
     = [Some ("{" +:+ jsonMember "tool_outputs"
                ("[{" +:+ jsonMember "tool_call_id" (jsonString "A") +:+ "," +:+
                 jsonMember "output" (jsonString "sunny") +:+ "}]") +:+ "," +:+
              jsonMember "stream" "true" +:+ "}")].
Proof. vm_compute. repeat split. Qed.

(** C8, as the code has it.  A [Run] returned by [Create],
    [CreateThreadAndRun], [Get], [Modify], [SubmitToolOutputs] or
    [Cancel] is the value that the body of a 200 answer decodes to, and
    a [Run] returned by a settle-wait is the one a poll returned: the
    client neither checks nor sets [RequiredAction] against [Status], so
    the two fields of a returned [Run] are related as they are in the
    document the service sent. *)
Theorem returned_run_is_decoded_answer (lib : Library) (c : Client.t) (w : World)
    (run : Run.t) :
  (forall threadID req,
     fst (Service.Create lib c threadID req w) = Ok run -> decodedFromAnswer lib c w run)
  /\ (forall req,
        fst (Service.CreateThreadAndRun lib c req w) = Ok run ->
        decodedFromAnswer lib c w run)
  /\ (forall threadID runID,
        fst (Service.Get lib c threadID runID w) = Ok run ->
        decodedFromAnswer lib c w run)
  /\ (forall threadID runID metadata,
        fst (Service.Modify lib c threadID runID metadata w) = Ok run ->
        decodedFromAnswer lib c w run)
  /\ (forall threadID runID req,
        fst (Service.SubmitToolOutputs lib c threadID runID req w) = Ok run ->
        decodedFromAnswer lib c w run)
  /\ (forall threadID runID,
        fst (Service.Cancel lib c threadID runID w) = Ok run ->
        decodedFromAnswer lib c w run)
  /\ (forall Get, waitForRun Get = Ok run -> exists k, Get k = Ok run)
  /\ (forall Get ticks, waitForRunCompletion Get ticks = Ok run -> exists k, Get k = Ok run).
Proof.
  repeat split.
  - intros threadID req. apply createRun_decoded.
  - intros req. apply createRun_decoded.
  - intros threadID runID. unfold Service.Get, NewRequest.
    destruct (http_NewRequest lib "GET" _) as [err|]; [discriminate|].
    apply SendRequest_decoded.
  - intros threadID runID metadata. unfold Service.Modify, NewRequest.
    destruct (json_Marshal lib _) as [body|err]; [|discriminate].
    destruct (http_NewRequest lib "POST" _) as [err|]; [discriminate|].
    apply SendRequest_decoded.
  - intros threadID runID req. unfold Service.SubmitToolOutputs, NewRequest.
    destruct (json_Marshal lib _) as [body|err]; [|discriminate].
    destruct (http_NewRequest lib "POST" _) as [err|]; [discriminate|].
    apply SendRequest_decoded.
  - intros threadID runID. unfold Service.Cancel, NewRequest.
    destruct (http_NewRequest lib "POST" _) as [err|]; [discriminate|].
    match goal with
    | |- context [SendRequest lib c ?r ?u w] =>
        pose proof (SendRequest_decoded lib c r w run) as H;
        destruct (SendRequest lib c r u w) as [[v|err] w']
    end; [|discriminate].
    intros [= ->]. now apply H.
  - intros Get H. apply waitForRun_loop_Ok in H.
    destruct H as (k & _ & Hk & _). now exists k.
  - intros Get ticks H. apply waitForRunCompletion_loop_Ok in H.
    destruct H as (k & _ & Hk & _). now exists k.
Qed.

Lemma returned_run_is_decoded_answer_witness :
  decodedFromAnswer exampleLibrary (clientAnswering (Ok staleActionAnswer)) exampleWorld
    (snapshot "run_123" "completed" (Some actionBare)).
Proof.
  apply (proj1 (proj2 (proj2 (returned_run_is_decoded_answer exampleLibrary
           (clientAnswering (Ok staleActionAnswer)) exampleWorld
           (snapshot "run_123" "completed" (Some actionBare)))))
           "thread_123" "run_123").
  reflexivity.
Defined.

(** [Get] returns a completed run with a required action, and a run
    that requires action with none. *)
Lemma required_action_not_tied_to_status :
  fst (Service.Get exampleLibrary (clientAnswering (Ok staleActionAnswer))
         "thread_123" "run_123" exampleWorld)
  = Ok (snapshot "run_123" "completed" (Some actionBare))
  /\ Run.Status (snapshot "run_123" "completed" (Some actionBare)) = "completed"
  /\ Run.RequiredAction (snapshot "run_123" "completed" (Some actionBare))
     = Some actionBare
  /\ fst (Service.Get exampleLibrary
            (clientAnswering
               (Ok (Response.mk 200
                      (mkReader (runJSON "run_123" "requires_action" "") io_EOF))))
            "thread_123" "run_123" exampleWorld)
     = Ok (snapshot "run_123" "requires_action" None)
  /\ Run.Status (snapshot "run_123" "requires_action" None) = "requires_action"
  /\ Run.RequiredAction (snapshot "run_123" "requires_action" None) = None.
Proof. vm_compute. repeat split. Qed.

(** * Further properties of the SSE decoder *)

Lemma bytesOf_app (xs ys : list string) :
  bytesOf (xs ++ ys) = bytesOf xs +:+ bytesOf ys.
Proof.
  induction xs as [|x xs IH]; [reflexivity|].
  change (x +:+ bytesOf (xs ++ ys) = (x +:+ bytesOf xs) +:+ bytesOf ys).
  rewrite IH. symmetry. apply append_assoc.
Qed.

Lemma nameOf_not_payload (TrimSpace : string -> string) (l name : string) :
  nameOf TrimSpace l = Some name -> payloadOf TrimSpace l = None.
Proof.
  unfold payloadOf, nameOf. cbv zeta.
  destruct (String.eqb (TrimSpace l) ""); [reflexivity|].
  now destruct (HasPrefix (TrimSpace l) "event: ").
Qed.

(** Two streams that go on alike after the same complete lines give
    the same events. *)
Lemma sseLoop_after_lines (TrimSpace : string -> string)
    (ls : list string) (r1 r2 : string) (f1 f2 : error) :
  Forall isLine ls ->
  (forall cur, sseLoop TrimSpace (mkReader r1 f1) cur
               = sseLoop TrimSpace (mkReader r2 f2) cur) ->
  forall cur, sseLoop TrimSpace (mkReader (bytesOf ls +:+ r1) f1) cur
              = sseLoop TrimSpace (mkReader (bytesOf ls +:+ r2) f2) cur.
Proof.
  intros Hls Hr. induction Hls as [|l ls Hl Hls IH]; intros cur; [apply Hr|].
  change (bytesOf (l :: ls)) with (l +:+ bytesOf ls).
  rewrite !append_assoc, !(sseLoop_line _ _ _ _ _ Hl).
  destruct (nameOf TrimSpace l); [apply IH|].
  destruct (payloadOf TrimSpace l) as [data|]; [|apply IH].
  destruct (String.eqb data "[DONE]"); [reflexivity|].
  f_equal. apply IH.
Qed.

(** X1. A complete line that is neither an event-name line nor a data
    line (a blank line, a comment, another SSE field) has no effect: the
    events of a stream are those of the stream without that line,
    wherever the line stands and whatever surrounds it. *)
Theorem ignored_line_changes_nothing (TrimSpace : string -> string)
    (before : list string) (l after : string) (f : error) :
  Forall isLine before ->
  isLine l ->
  nameOf TrimSpace l = None ->
  payloadOf TrimSpace l = None ->
  createRunStream_goroutine TrimSpace (mkReader (bytesOf before +:+ l +:+ after) f)
    = createRunStream_goroutine TrimSpace (mkReader (bytesOf before +:+ after) f)
  /\ SubmitToolOutputsStream_goroutine TrimSpace
       (mkReader (bytesOf before +:+ l +:+ after) f)
    = SubmitToolOutputsStream_goroutine TrimSpace (mkReader (bytesOf before +:+ after) f).
Proof.
  intros Hb Hl Hn Hp.
  assert (H : forall cur,
             sseLoop TrimSpace (mkReader (bytesOf before +:+ l +:+ after) f) cur
             = sseLoop TrimSpace (mkReader (bytesOf before +:+ after) f) cur).
  { apply sseLoop_after_lines; [exact Hb|].
    intros cur. now rewrite (sseLoop_line _ _ _ _ _ Hl), Hn, Hp. }
  split; apply H.
Qed.

Lemma ignored_line_changes_nothing_witness :
  createRunStream_goroutine TrimSpace_ascii
    (mkReader (bytesOf [line "event: thread.run.completed"] +:+ line "id: 7" +:+
               line ("data: " +:+ completedPayload)) io_EOF)
    = createRunStream_goroutine TrimSpace_ascii
        (mkReader (bytesOf [line "event: thread.run.completed"] +:+
                   line ("data: " +:+ completedPayload)) io_EOF)
  /\ SubmitToolOutputsStream_goroutine TrimSpace_ascii
       (mkReader (bytesOf [line "event: thread.run.completed"] +:+ line "id: 7" +:+
                  line ("data: " +:+ completedPayload)) io_EOF)
    = SubmitToolOutputsStream_goroutine TrimSpace_ascii
        (mkReader (bytesOf [line "event: thread.run.completed"] +:+
                   line ("data: " +:+ completedPayload)) io_EOF).
Proof.
  apply (ignored_line_changes_nothing TrimSpace_ascii
           [line "event: thread.run.completed"] (line "id: 7")
           (line ("data: " +:+ completedPayload)) io_EOF).
  - repeat constructor.
  - reflexivity.
  - reflexivity.
  - reflexivity.
Defined.

Lemma dataEvents_payloads (TrimSpace : string -> string)
    (cur : string) (ls : list string) :
  map RunEvent.Data (dataEvents TrimSpace cur ls)
  = map Some (omap (payloadOf TrimSpace) ls).
Proof.
  revert cur. induction ls as [|l ls IH]; intros cur; [reflexivity|].
  simpl. destruct (nameOf TrimSpace l) as [name|] eqn:Hn.
  - rewrite (nameOf_not_payload _ _ _ Hn). apply IH.
  - destruct (payloadOf TrimSpace l) as [data|]; simpl; [f_equal|]; apply IH.
Qed.

(** X2. On a stream without sentinel that ends cleanly, the events are
    one per data line, in wire order, each carrying the payload of its
    line unchanged: consecutive data lines are never merged, and nothing
    else produces an event. *)
Theorem payloads_in_wire_order (TrimSpace : string -> string)
    (ls : list string) (p : string) :
  Forall isLine ls ->
  Forall (fun x => isDoneLine TrimSpace x = false) ls ->
  cutLine p = None ->
  map RunEvent.Data
    (createRunStream_goroutine TrimSpace (mkReader (bytesOf ls +:+ p) io_EOF))
    = map Some (omap (payloadOf TrimSpace) ls)
  /\ map RunEvent.Data
       (SubmitToolOutputsStream_goroutine TrimSpace (mkReader (bytesOf ls +:+ p) io_EOF))
    = map Some (omap (payloadOf TrimSpace) ls).
Proof.
  intros Hls Hnone Hp.
  unfold createRunStream_goroutine, SubmitToolOutputsStream_goroutine.
  rewrite (sseLoop_lines TrimSpace ls p io_EOF "" Hls Hnone).
  rewrite (sseLoop_end TrimSpace p io_EOF _ Hp), app_nil_r.
  split; apply dataEvents_payloads.
Qed.

(** Two data lines in one frame: two events. *)
Lemma payloads_in_wire_order_witness :
  map RunEvent.Data
    (createRunStream_goroutine TrimSpace_ascii
       (mkReader (bytesOf [line "event: delta"; line "data: one"; line "data: two";
                           line ""] +:+ "") io_EOF))
    = map Some (omap (payloadOf TrimSpace_ascii)
                  [line "event: delta"; line "data: one"; line "data: two"; line ""])
  /\ map RunEvent.Data
       (SubmitToolOutputsStream_goroutine TrimSpace_ascii
          (mkReader (bytesOf [line "event: delta"; line "data: one"; line "data: two";
                              line ""] +:+ "") io_EOF))
    = map Some (omap (payloadOf TrimSpace_ascii)
                  [line "event: delta"; line "data: one"; line "data: two"; line ""]).
Proof.
  apply (payloads_in_wire_order TrimSpace_ascii
           [line "event: delta"; line "data: one"; line "data: two"; line ""] "").
  - repeat constructor.
  - repeat constructor.
  - reflexivity.
Defined.

Example two_data_lines_scenario :
  createRunStream_goroutine TrimSpace_ascii
    (mkReader (bytesOf [line "event: delta"; line "data: one"; line "data: two";
                        line ""]) io_EOF)
  = [RunEvent.mk "delta" (Some "one"); RunEvent.mk "delta" (Some "two")].
Proof. vm_compute. reflexivity. Qed.

Lemma sseLoop_prefix (TrimSpace : string -> string)
    (ls : list string) (rest : string) (f : error) (cur : string) :
  Forall isLine ls ->
  exists more,
    sseLoop TrimSpace (mkReader (bytesOf ls +:+ rest) f) cur
    = sseLoop TrimSpace (mkReader (bytesOf ls) io_EOF) cur ++ more.
Proof.
  intros Hls. revert cur. induction Hls as [|l ls Hl Hls IH]; intros cur.
  - exists (sseLoop TrimSpace (mkReader rest f) cur).
    change (bytesOf []) with EmptyString.
    now rewrite (sseLoop_end TrimSpace EmptyString io_EOF cur eq_refl).
  - change (bytesOf (l :: ls)) with (l +:+ bytesOf ls).
    rewrite append_assoc, !(sseLoop_line _ _ _ _ _ Hl).
    destruct (nameOf TrimSpace l); [apply IH|].
    destruct (payloadOf TrimSpace l) as [data|]; [|apply IH].
    destruct (String.eqb data "[DONE]").
    + now exists [].
    + destruct (IH cur) as [more Hm]. exists more. simpl. now rewrite Hm.
Qed.

(** X3. Events are delivered as their lines arrive and are never taken
    back: the events of the complete lines received so far are a prefix
    of the events of the whole stream, whatever bytes follow and however
    the stream ends. *)
Theorem delivered_events_are_a_prefix (TrimSpace : string -> string)
    (ls : list string) (rest : string) (f : error) :
  Forall isLine ls ->
  exists more,
    createRunStream_goroutine TrimSpace (mkReader (bytesOf ls +:+ rest) f)
    = createRunStream_goroutine TrimSpace (mkReader (bytesOf ls) io_EOF) ++ more
    /\ SubmitToolOutputsStream_goroutine TrimSpace (mkReader (bytesOf ls +:+ rest) f)
       = SubmitToolOutputsStream_goroutine TrimSpace (mkReader (bytesOf ls) io_EOF)
         ++ more.
Proof.
  intros Hls. destruct (sseLoop_prefix TrimSpace ls rest f "" Hls) as [more Hm].
  exists more. split; exact Hm.
Qed.

Lemma delivered_events_are_a_prefix_witness :
  exists more,
    createRunStream_goroutine TrimSpace_ascii
      (mkReader (bytesOf completedFrame +:+ "data: {") (Foreign "connection reset"))
    = createRunStream_goroutine TrimSpace_ascii (mkReader (bytesOf completedFrame) io_EOF)
      ++ more
    /\ SubmitToolOutputsStream_goroutine TrimSpace_ascii
         (mkReader (bytesOf completedFrame +:+ "data: {") (Foreign "connection reset"))
       = SubmitToolOutputsStream_goroutine TrimSpace_ascii
           (mkReader (bytesOf completedFrame) io_EOF) ++ more.
Proof.
  apply (delivered_events_are_a_prefix TrimSpace_ascii completedFrame "data: {"
           (Foreign "connection reset")).
  repeat constructor.
Defined.

Lemma sseLoop_length (TrimSpace : string -> string)
    (ls : list string) (p : string) (f : error) (cur : string) :
  Forall isLine ls -> cutLine p = None ->
  (length (sseLoop TrimSpace (mkReader (bytesOf ls +:+ p) f) cur)
   <= length ls + match f with io_EOF => 0 | _ => 1 end)%nat.
Proof.
  intros Hls Hp. revert cur. induction Hls as [|l ls Hl Hls IH]; intros cur.
  - change (bytesOf [] +:+ p) with p.
    rewrite (sseLoop_end TrimSpace p f cur Hp). destruct f; simpl; lia.
  - change (bytesOf (l :: ls)) with (l +:+ bytesOf ls).
    rewrite append_assoc, (sseLoop_line _ _ _ _ _ Hl).
    destruct (nameOf TrimSpace l); [specialize (IH s); simpl; lia|].
    destruct (payloadOf TrimSpace l) as [data|]; [|specialize (IH cur); simpl; lia].
    destruct (String.eqb data "[DONE]"); [simpl; lia|].
    specialize (IH cur). simpl. lia.
Qed.

(** X4. The decoder sends at most one event per complete line of the
    stream, and at most one more when the stream ends with a read
    failure; a stream that ends cleanly never gives more events than it
    has newlines. *)
Theorem events_bounded_by_lines (TrimSpace : string -> string)
    (ls : list string) (p : string) (f : error) :
  Forall isLine ls ->
  cutLine p = None ->
  (length (createRunStream_goroutine TrimSpace (mkReader (bytesOf ls +:+ p) f))
   <= length ls + 1)%nat
  /\ (length (SubmitToolOutputsStream_goroutine TrimSpace (mkReader (bytesOf ls +:+ p) f))
      <= length ls + 1)%nat
  /\ (length (createRunStream_goroutine TrimSpace (mkReader (bytesOf ls +:+ p) io_EOF))
      <= length ls)%nat
  /\ (length (SubmitToolOutputsStream_goroutine TrimSpace
                (mkReader (bytesOf ls +:+ p) io_EOF))
      <= length ls)%nat.
Proof.
  intros Hls Hp.
  pose proof (sseLoop_length TrimSpace ls p f "" Hls Hp) as H1.
  pose proof (sseLoop_length TrimSpace ls p io_EOF "" Hls Hp) as H2.
  unfold createRunStream_goroutine, SubmitToolOutputsStream_goroutine.
  simpl in H2. destruct f; simpl in H1; repeat split; lia.
Qed.

Lemma events_bounded_by_lines_witness :
  (length (createRunStream_goroutine TrimSpace_ascii
             (mkReader (bytesOf completedFrame +:+ "data: {") (Foreign "reset")))
   <= length completedFrame + 1)%nat
  /\ (length (SubmitToolOutputsStream_goroutine TrimSpace_ascii
                (mkReader (bytesOf completedFrame +:+ "data: {") (Foreign "reset")))
      <= length completedFrame + 1)%nat
  /\ (length (createRunStream_goroutine TrimSpace_ascii
                (mkReader (bytesOf completedFrame +:+ "data: {") io_EOF))
      <= length completedFrame)%nat
  /\ (length (SubmitToolOutputsStream_goroutine TrimSpace_ascii
                (mkReader (bytesOf completedFrame +:+ "data: {") io_EOF))
      <= length completedFrame)%nat.
Proof.
  apply (events_bounded_by_lines TrimSpace_ascii completedFrame "data: {" (Foreign "reset")).
  - repeat constructor.
  - reflexivity.
Defined.

(** * Further properties of the settle-wait loops *)

(** X5. A run that stays queued or in progress through all sixty
    attempts makes [waitForRun] fail with the timeout error, and a run
    that reaches no stopping point in any of the ticks before the
    timeout makes [waitForRunCompletion] fail with it: neither returns a
    snapshot. *)
Theorem settle_wait_times_out (Get : nat -> result Run.t) (ticks : nat) :
  ((forall j, (j < maxAttempts)%nat -> pendingAt Get j) ->
   waitForRun Get = Err errTimeout)
  /\ ((forall j, (j < ticks)%nat -> unsettledAt Get j) ->
      waitForRunCompletion Get ticks = Err errTimeout).
Proof.
  split; intros H.
  - unfold waitForRun.
    replace maxAttempts with (maxAttempts + 0)%nat at 1 by lia.
    now rewrite (waitForRun_loop_skip Get maxAttempts 0%nat 0%nat H).
  - unfold waitForRunCompletion.
    replace ticks with (ticks + 0)%nat at 1 by lia.
    now rewrite (waitForRunCompletion_loop_skip Get ticks 0%nat 0%nat H).
Qed.

Lemma settle_wait_times_out_witness :
  waitForRun (fun _ => Ok (snapshot "run_123" "in_progress" None)) = Err errTimeout
  /\ waitForRunCompletion (fun _ => Ok (snapshot "run_123" "in_progress" None)) 30
     = Err errTimeout.
Proof.
  destruct (settle_wait_times_out (fun _ => Ok (snapshot "run_123" "in_progress" None))
              30%nat) as [H1 H2].
  split.
  - apply H1. intros j _. exists (snapshot "run_123" "in_progress" None).
    split; reflexivity.
  - apply H2. intros j _. exists (snapshot "run_123" "in_progress" None).
    split; reflexivity.
Defined.

(** X6. The error of a failed poll ends the wait and is returned as it
    is, unwrapped: for [waitForRun] when the polls before it found the
    run queued or in progress, for [waitForRunCompletion] when they
    found it at no stopping point. *)
Theorem poll_error_is_returned (Get : nat -> result Run.t) (ticks k : nat) (e : error) :
  Get k = Err e ->
  ((k < maxAttempts)%nat ->
   (forall j, (j < k)%nat -> pendingAt Get j) ->
   waitForRun Get = Err e)
  /\ ((k < ticks)%nat ->
      (forall j, (j < k)%nat -> unsettledAt Get j) ->
      waitForRunCompletion Get ticks = Err e).
Proof.
  intros Hg. split; intros Hk Hb.
  - unfold waitForRun.
    replace maxAttempts with (k + S (maxAttempts - S k))%nat by lia.
    rewrite (waitForRun_loop_skip Get k _ 0%nat Hb), waitForRun_loop_step.
    simpl. now rewrite Hg.
  - unfold waitForRunCompletion.
    replace ticks with (k + S (ticks - S k))%nat by lia.
    rewrite (waitForRunCompletion_loop_skip Get k _ 0%nat Hb),
      waitForRunCompletion_loop_step.
    simpl. now rewrite Hg.
Qed.

Lemma poll_error_is_returned_witness :
  waitForRun failingPolls
    = Err (apiError (APIError.mk "Rate limit reached" "rate_limit_exceeded" "" ""))
  /\ waitForRunCompletion failingPolls 30
    = Err (apiError (APIError.mk "Rate limit reached" "rate_limit_exceeded" "" "")).
Proof.
  destruct (poll_error_is_returned failingPolls 30%nat 1%nat
              (apiError (APIError.mk "Rate limit reached" "rate_limit_exceeded" "" ""))
              eq_refl) as [H1 H2].
  split.
  - apply H1; [unfold maxAttempts; lia|].
    intros j Hj. assert (j = 0%nat) as -> by lia.
    exists (snapshot "run_123" "queued" None). split; reflexivity.
  - apply H2; [lia|].
    intros j Hj. assert (j = 0%nat) as -> by lia.
    exists (snapshot "run_123" "queued" None). split; reflexivity.
Defined.

(** X7. A longer timeout never changes a snapshot that
    [waitForRunCompletion] returns: what it returns within some number
    of ticks it returns within any larger number. *)
Theorem longer_timeout_keeps_result (Get : nat -> result Run.t)
    (ticks ticks' : nat) (run : Run.t) :
  waitForRunCompletion Get ticks = Ok run ->
  (ticks <= ticks')%nat ->
  waitForRunCompletion Get ticks' = Ok run.
Proof.
  intros H Hle. apply waitForRunCompletion_loop_Ok in H.
  destruct H as (k & Hk & Hg & Hs & Hb). unfold waitForRunCompletion.
  replace ticks' with (k + S (ticks' - S k))%nat by lia.
  rewrite (waitForRunCompletion_loop_skip Get k _ 0%nat Hb),
    waitForRunCompletion_loop_step.
  simpl in *. now rewrite Hg, Hs.
Qed.

Lemma longer_timeout_keeps_result_witness :
  waitForRunCompletion settlingPolls 30 = Ok (snapshot "run_123" "completed" None).
Proof.
  apply (longer_timeout_keeps_result settlingPolls 4%nat 30%nat).
  - reflexivity.
  - lia.
Defined.

Lemma settle_loops_agree (Get : nat -> result Run.t) (n i : nat) :
  (forall j r, Get j = Ok r ->
               stopStatus (Run.Status r) || pendingStatus (Run.Status r) = true) ->
  waitForRun_loop Get n i = waitForRunCompletion_loop Get n i.
Proof.
  intros H. revert i. induction n as [|n IH]; intros i; [reflexivity|].
  rewrite waitForRun_loop_step, waitForRunCompletion_loop_step.
  destruct (Get i) as [r|e] eqn:Hg; [|reflexivity].
  specialize (H i r Hg).
  destruct (stopStatus (Run.Status r)); [reflexivity|].
  simpl in H. rewrite H. apply IH.
Qed.

(** X8. As long as the service reports only the six statuses that
    [waitForRun] handles (completed, failed, cancelled, requires_action,
    queued, in_progress), the two settle-wait loops are interchangeable:
    [waitForRun] gives what [waitForRunCompletion] gives when the ticker
    fires sixty times before the timeout. *)
Theorem settle_loops_interchangeable (Get : nat -> result Run.t) :
  (forall j r, Get j = Ok r ->
               stopStatus (Run.Status r) || pendingStatus (Run.Status r) = true) ->
  waitForRun Get = waitForRunCompletion Get maxAttempts.
Proof. intros H. now apply settle_loops_agree. Qed.

Lemma settle_loops_interchangeable_witness :
  waitForRun settlingPolls = waitForRunCompletion settlingPolls maxAttempts.
Proof.
  apply (settle_loops_interchangeable settlingPolls).
  intros [|[|[|j]]] r [= <-]; reflexivity.
Defined.

Lemma waitForRun_loop_ext (Get Get' : nat -> result Run.t) (n i : nat) :
  (forall j, (i <= j < i + n)%nat -> Get j = Get' j) ->
  waitForRun_loop Get n i = waitForRun_loop Get' n i.
Proof.
  revert i. induction n as [|n IH]; intros i H; [reflexivity|].
  rewrite !waitForRun_loop_step, <- (H i) by lia.
  destruct (Get i) as [r|e]; [|reflexivity].
  destruct (stopStatus (Run.Status r)); [reflexivity|].
  destruct (pendingStatus (Run.Status r)); [|reflexivity].
  apply IH. intros j Hj. apply H. lia.
Qed.

Lemma waitForRunCompletion_loop_ext (Get Get' : nat -> result Run.t) (n i : nat) :
  (forall j, (i <= j < i + n)%nat -> Get j = Get' j) ->
  waitForRunCompletion_loop Get n i = waitForRunCompletion_loop Get' n i.
Proof.
  revert i. induction n as [|n IH]; intros i H; [reflexivity|].
  rewrite !waitForRunCompletion_loop_step, <- (H i) by lia.
  destruct (Get i) as [r|e]; [|reflexivity].
  destruct (stopStatus (Run.Status r)); [reflexivity|].
  apply IH. intros j Hj. apply H. lia.
Qed.

(** X9. [waitForRun] polls at most sixty times and
    [waitForRunCompletion] at most once per tick: their results depend
    on no answer beyond those, so two services that answer the first
    sixty polls (the first [ticks] polls) alike get the same result. *)
Theorem settle_wait_polls_are_bounded (Get Get' : nat -> result Run.t) (ticks : nat) :
  ((forall j, (j < maxAttempts)%nat -> Get j = Get' j) ->
   waitForRun Get = waitForRun Get')
  /\ ((forall j, (j < ticks)%nat -> Get j = Get' j) ->
      waitForRunCompletion Get ticks = waitForRunCompletion Get' ticks).
Proof.
  split; intros H.
  - apply waitForRun_loop_ext. intros j Hj. apply H. lia.
  - apply waitForRunCompletion_loop_ext. intros j Hj. apply H. lia.
Qed.

Lemma settle_wait_polls_are_bounded_witness :
  waitForRun latePolls = waitForRun (fun _ => Ok (snapshot "run_123" "queued" None))
  /\ waitForRunCompletion latePolls 60
     = waitForRunCompletion (fun _ => Ok (snapshot "run_123" "queued" None)) 60.
Proof.
  destruct (settle_wait_polls_are_bounded latePolls
              (fun _ => Ok (snapshot "run_123" "queued" None)) 60%nat) as [H1 H2].
  split.
  - apply H1. intros j Hj. unfold latePolls, maxAttempts in *.
    destruct (Nat.ltb_spec j 60); [reflexivity | lia].
  - apply H2. intros j Hj. unfold latePolls.
    destruct (Nat.ltb_spec j 60); [reflexivity | lia].
Defined.

(** * Further properties of the transport and of the gateway *)

(** X10. Whatever request [SendRequest] is given, the request that goes
    out has the caller's method, URL and body, [Authorization] set to
    the client's bearer token and [Content-Type] to JSON, replacing what
    the caller may have put there, and every other header as the caller
    set it. *)
Theorem SendRequest_sets_two_headers {V : Type} (lib : Library) (c : Client.t)
    (req : Request.t) (unmarshal : string -> result V) (w : World) :
  exists r,
    sent (snd (SendRequest lib c req unmarshal w)) = sent w ++ [r]
    /\ Request.Method r = Request.Method req
    /\ Request.URL r = Request.URL req
    /\ Request.Body r = Request.Body req
    /\ Request.Header r !! "Authorization" = Some ("Bearer " +:+ Client.APIKey c)
    /\ Request.Header r !! "Content-Type" = Some "application/json"
    /\ forall k, k <> "Authorization" -> k <> "Content-Type" ->
                 Request.Header r !! k = Request.Header req !! k.
Proof.
  exists (authorized c req). rewrite SendRequest_world.
  unfold authorized, Request.HeaderSet. simpl.
  repeat split.
  - rewrite lookup_insert_ne by discriminate. apply lookup_insert_eq.
  - apply lookup_insert_eq.
  - intros k H1 H2. now rewrite !lookup_insert_ne by congruence.
Qed.

Lemma carriesHeaders_authorized (c : Client.t) (req : Request.t) :
  Request.Header req !! "OpenAI-Beta" = Some "assistants=v2" ->
  carriesHeaders c (authorized c req).
Proof.
  intros H. unfold carriesHeaders, authorized, Request.HeaderSet. simpl.
  repeat split.
  - rewrite lookup_insert_ne by discriminate. apply lookup_insert_eq.
  - apply lookup_insert_eq.
  - now rewrite !lookup_insert_ne by discriminate.
Qed.

Lemma carriesHeaders_beta (c : Client.t) (req : Request.t) :
  carriesHeaders c (authorized c (Request.HeaderSet "OpenAI-Beta" "assistants=v2" req)).
Proof. apply carriesHeaders_authorized. simpl. apply lookup_insert_eq. Qed.

Lemma carriesHeaders_prepareRequest (c : Client.t) (req : Request.t) :
  carriesHeaders c (Service.prepareRequest c req).
Proof.
  unfold carriesHeaders, Service.prepareRequest, Request.HeaderSet. simpl.
  repeat split.
  - rewrite !lookup_insert_ne by discriminate. apply lookup_insert_eq.
  - apply lookup_insert_eq.
  - rewrite lookup_insert_ne by discriminate. apply lookup_insert_eq.
Qed.

Section GatewayFrame.

Variable lib : Library.
Variable c : Client.t.

Lemma SendRequest_beta_frame {V : Type} (req : Request.t)
    (unmarshal : string -> result V) (w : World) :
  sentAtMostOne (carriesHeaders c) w
    (snd (SendRequest lib c (Request.HeaderSet "OpenAI-Beta" "assistants=v2" req)
            unmarshal w)).
Proof.
  right. eexists. split; [apply carriesHeaders_beta | apply SendRequest_world].
Qed.

Lemma createRun_frame (url : string) (req : requestRef) (w : World) :
  sentAtMostOne (carriesHeaders c) w (snd (Service.createRun lib c url req w)).
Proof.
  unfold Service.createRun, NewRequest.
  destruct (json_Marshal lib (load w req)) as [body|err]; [|now left].
  destruct (http_NewRequest lib "POST" url) as [err|]; [now left|].
  apply SendRequest_beta_frame.
Qed.

Lemma createRunStream_frame (url : string) (req : requestRef) (w : World) :
  sentAtMostOne (carriesHeaders c) w (snd (Service.createRunStream lib c url req w)).
Proof.
  unfold Service.createRunStream, NewRequest, Do.
  destruct (json_Marshal lib (load w req)) as [body|err]; [|now left].
  destruct (http_NewRequest lib "POST" url) as [err|]; [now left|].
  right. eexists. split; [apply carriesHeaders_prepareRequest|].
  cbv zeta. destruct (Client.HTTPClient c (sent w) _) as [resp|err]; [|reflexivity].
  destruct (negb (Response.StatusCode resp =? StatusOK)); reflexivity.
Qed.

End GatewayFrame.

(** X11. The calls that return a run ([Create], [CreateThreadAndRun],
    [Get], [Modify], [SubmitToolOutputs], [Cancel]) leave the caller's
    request structs as they are and hand at most one request to the
    transport; that request carries the bearer token, the JSON content
    type and the header [OpenAI-Beta: assistants=v2].  They hand over
    exactly one, with the method, URL and body of the call, when
    marshalling (where there is a body) and request construction
    succeed, and none when either fails. *)
Theorem run_calls_send_one_request_with_headers (lib : Library) (c : Client.t)
    (w : World) :
  (forall threadID req,
     sentAtMostOne (carriesHeaders c) w (snd (Service.Create lib c threadID req w))
     /\ sentExactly lib "POST" (Client.BaseURL c +:+ "/threads/" +:+ threadID +:+ "/runs")
          (marshalledBody lib (ofCreateRunRequest (createRunRequests w !! req)))
          (viaSendRequest c) w (snd (Service.Create lib c threadID req w)))
  /\ (forall req,
        sentAtMostOne (carriesHeaders c) w (snd (Service.CreateThreadAndRun lib c req w))
        /\ sentExactly lib "POST" (Client.BaseURL c +:+ "/threads/runs")
             (marshalledBody lib
                (ofCreateThreadAndRunRequest (createThreadAndRunRequests w !! req)))
             (viaSendRequest c) w (snd (Service.CreateThreadAndRun lib c req w)))
  /\ (forall threadID runID,
        sentAtMostOne (carriesHeaders c) w (snd (Service.Get lib c threadID runID w))
        /\ sentExactly lib "GET"
             (Client.BaseURL c +:+ "/threads/" +:+ threadID +:+ "/runs/" +:+ runID)
             (Ok None) (viaSendRequest c) w (snd (Service.Get lib c threadID runID w)))
  /\ (forall threadID runID metadata,
        sentAtMostOne (carriesHeaders c) w
          (snd (Service.Modify lib c threadID runID metadata w))
        /\ sentExactly lib "POST"
             (Client.BaseURL c +:+ "/threads/" +:+ threadID +:+ "/runs/" +:+ runID)
             (marshalledBody lib (ofMetadata metadata))
             (viaSendRequest c) w (snd (Service.Modify lib c threadID runID metadata w)))
  /\ (forall threadID runID req,
        sentAtMostOne (carriesHeaders c) w
          (snd (Service.SubmitToolOutputs lib c threadID runID req w))
        /\ sentExactly lib "POST"
             (Client.BaseURL c +:+ "/threads/" +:+ threadID +:+ "/runs/" +:+ runID +:+
              "/submit_tool_outputs")
             (marshalledBody lib
                (ofSubmitToolOutputsRequest (submitToolOutputsRequests w !! req)))
             (viaSendRequest c) w
             (snd (Service.SubmitToolOutputs lib c threadID runID req w)))
  /\ (forall threadID runID,
        sentAtMostOne (carriesHeaders c) w (snd (Service.Cancel lib c threadID runID w))
        /\ sentExactly lib "POST"
             (Client.BaseURL c +:+ "/threads/" +:+ threadID +:+ "/runs/" +:+ runID +:+
              "/cancel")
             (Ok None) (viaSendRequest c) w (snd (Service.Cancel lib c threadID runID w))).
Proof.
  split; [|split; [|split; [|split; [|split]]]].
  - intros threadID req. split; [apply createRun_frame|].
    exact (createRun_exact lib c _ (refCreateRunRequest req) w).
  - intros req. split; [apply createRun_frame|].
    exact (createRun_exact lib c _ (refCreateThreadAndRunRequest req) w).
  - intros. split; [|apply Get_exact]. unfold Service.Get, NewRequest.
    destruct (http_NewRequest lib "GET" _) as [err|]; [now left|].
    apply SendRequest_beta_frame.
  - intros. split; [|apply Modify_exact]. unfold Service.Modify, NewRequest.
    destruct (json_Marshal lib _) as [body|err]; [|now left].
    destruct (http_NewRequest lib "POST" _) as [err|]; [now left|].
    apply SendRequest_beta_frame.
  - intros. split; [|apply SubmitToolOutputs_exact].
    unfold Service.SubmitToolOutputs, NewRequest.
    destruct (json_Marshal lib _) as [body|err]; [|now left].
    destruct (http_NewRequest lib "POST" _) as [err|]; [now left|].
    apply SendRequest_beta_frame.
  - intros. split; [|apply Cancel_exact]. unfold Service.Cancel, NewRequest.
    destruct (http_NewRequest lib "POST" _) as [err|]; [now left|].
    match goal with
    | |- context [SendRequest lib c ?r ?u w] =>
        pose proof (SendRequest_beta_frame lib c
                      (Request.mk "POST"
                         (Client.BaseURL c +:+ "/threads/" +:+ threadID +:+ "/runs/" +:+
                          runID +:+ "/cancel") ∅ None) u w) as H;
        destruct (SendRequest lib c r u w) as [[v|err] w']
    end; exact H.
Qed.

(** X12. The streaming entry points too hand at most one request to
    the transport, with the same three headers; apart from the [Stream]
    field that they set in the caller's struct, they change nothing. *)
Theorem streaming_calls_send_one_request_with_headers (lib : Library) (c : Client.t)
    (w : World) :
  (forall threadID p req,
     createRunRequests w !! p = Some req ->
     sentAtMostOne (carriesHeaders c)
       (withCreateRunRequests
          (<[p := CreateRunRequest.setStream true req]> (createRunRequests w)) w)
       (snd (Service.CreateAndStream lib c threadID p w)))
  /\ (forall p req,
        createThreadAndRunRequests w !! p = Some req ->
        sentAtMostOne (carriesHeaders c)
          (withCreateThreadAndRunRequests
             (<[p := CreateThreadAndRunRequest.setStream true req]>
                (createThreadAndRunRequests w)) w)
          (snd (Service.CreateThreadAndRunStream lib c p w)))
  /\ (forall threadID runID p req,
        submitToolOutputsRequests w !! p = Some req ->
        sentAtMostOne (carriesHeaders c)
          (withSubmitToolOutputsRequests
             (<[p := SubmitToolOutputsRequest.setStream true req]>
                (submitToolOutputsRequests w)) w)
          (snd (Service.SubmitToolOutputsStream lib c threadID runID p w))).
Proof.
  split; [|split].
  - intros threadID p req Hp. unfold Service.CreateAndStream. rewrite Hp.
    match goal with
    | |- context [Service.createRunStream lib c ?u ?r ?w1] =>
        pose proof (createRunStream_frame lib c u r w1) as H;
        destruct (Service.createRunStream lib c u r w1) as [res w2]
    end.
    exact H.
  - intros p req Hp. unfold Service.CreateThreadAndRunStream. rewrite Hp.
    match goal with
    | |- context [Service.createRunStream lib c ?u ?r ?w1] =>
        pose proof (createRunStream_frame lib c u r w1) as H;
        destruct (Service.createRunStream lib c u r w1) as [res w2]
    end.
    exact H.
  - intros threadID runID p req Hp.
    unfold Service.SubmitToolOutputsStream, NewRequest, Do. rewrite Hp. cbv zeta.
    destruct (json_Marshal lib _) as [body|err]; [|now left].
    destruct (http_NewRequest lib "POST" _) as [err|]; [now left|].
    right. eexists. split; [apply carriesHeaders_prepareRequest|].
    destruct (Client.HTTPClient c _ _) as [resp|err]; [|reflexivity].
    destruct (negb (Response.StatusCode resp =? StatusOK)); reflexivity.
Qed.

Lemma streaming_calls_send_one_request_with_headers_witness :
  sentAtMostOne (carriesHeaders (clientAnswering (Ok (Response.mk 200 completedStream))))
    (withCreateRunRequests
       (<[2%positive := CreateRunRequest.setStream true createRunPlain]>
          (createRunRequests exampleWorld)) exampleWorld)
    (snd (Service.CreateAndStream exampleLibrary
            (clientAnswering (Ok (Response.mk 200 completedStream)))
            "thread_123" 2%positive exampleWorld)).
Proof.
  apply (proj1 (streaming_calls_send_one_request_with_headers exampleLibrary
                  (clientAnswering (Ok (Response.mk 200 completedStream)))
                  exampleWorld) "thread_123" 2%positive createRunPlain).
  reflexivity.
Defined.

(** X13. A streaming call answered with a status other than 200 fails
    with an error that names the status code and nothing else: the body
    of the answer is not read, so an error document of the service is
    not turned into an [APIError] as [SendRequest] does, and no event is
    delivered. *)
Theorem stream_rejects_non_200 (lib : Library) (c : Client.t)
    (url : string) (req : requestRef) (w : World) (body : string) (resp : Response.t) :
  json_Marshal lib (load w req) = Ok body ->
  http_NewRequest lib "POST" url = None ->
  Client.HTTPClient c (sent w) (streamRequest c url body) = Ok resp ->
  Response.StatusCode resp <> StatusOK ->
  Service.createRunStream lib c url req w
  = (Err (errorString ("unexpected status code: " +:+ pretty (Response.StatusCode resp))),
     afterSending (streamRequest c url body) w).
Proof.
  intros Hm Hn Hd Hs. unfold Service.createRunStream, NewRequest, Do.
  rewrite Hm, Hn. cbv zeta. fold (streamRequest c url body). rewrite Hd.
  apply Z.eqb_neq in Hs. now rewrite Hs.
Qed.

(** The service answers 400 with an error document. *)
Lemma stream_rejects_non_200_witness :
  Service.createRunStream exampleLibrary
    (clientAnswering (Ok (Response.mk 400 (mkReader apiErrorJSON io_EOF))))
    "https://api.openai.com/v1/threads/thread_123/runs" (refCreateRunRequest 2%positive)
    exampleWorld
  = (Err (errorString ("unexpected status code: " +:+ pretty 400)),
     afterSending
       (streamRequest (clientAnswering (Ok (Response.mk 400 (mkReader apiErrorJSON io_EOF))))
          "https://api.openai.com/v1/threads/thread_123/runs"
          (createRunJSON createRunPlain))
       exampleWorld).
Proof.
  apply (stream_rejects_non_200 exampleLibrary
           (clientAnswering (Ok (Response.mk 400 (mkReader apiErrorJSON io_EOF))))
           "https://api.openai.com/v1/threads/thread_123/runs"
           (refCreateRunRequest 2%positive) exampleWorld
           (createRunJSON createRunPlain)
           (Response.mk 400 (mkReader apiErrorJSON io_EOF))).
  - reflexivity.
  - reflexivity.
  - reflexivity.
  - discriminate.
Defined.

Example stream_rejects_400_scenario :
  fst (Service.CreateAndStream exampleLibrary
         (clientAnswering (Ok (Response.mk 400 (mkReader apiErrorJSON io_EOF))))
         "thread_123" 2%positive exampleWorld)
  = Returns (Err (errorString "unexpected status code: 400")).
Proof. vm_compute. reflexivity. Qed.

(** X14. A nil request pointer makes each streaming entry point panic
    at the assignment of [Stream], before anything is marshalled or
    sent.  The calls that only read the request ([Create],
    [CreateThreadAndRun], [SubmitToolOutputs]) hand the nil pointer to
    [json.Marshal] instead: they send exactly one POST with the body it
    gives when marshalling and request construction succeed, and
    nothing when either fails. *)
Theorem nil_request_pointer (lib : Library) (c : Client.t) (w : World) :
  (forall threadID p,
     createRunRequests w !! p = None ->
     Service.CreateAndStream lib c threadID p w = (Panics, w)
     /\ sentExactly lib "POST" (Client.BaseURL c +:+ "/threads/" +:+ threadID +:+ "/runs")
          (marshalledBody lib (ofCreateRunRequest None)) (viaSendRequest c)
          w (snd (Service.Create lib c threadID p w)))
  /\ (forall p,
        createThreadAndRunRequests w !! p = None ->
        Service.CreateThreadAndRunStream lib c p w = (Panics, w)
        /\ sentExactly lib "POST" (Client.BaseURL c +:+ "/threads/runs")
             (marshalledBody lib (ofCreateThreadAndRunRequest None)) (viaSendRequest c)
             w (snd (Service.CreateThreadAndRun lib c p w)))
  /\ (forall threadID runID p,
        submitToolOutputsRequests w !! p = None ->
        Service.SubmitToolOutputsStream lib c threadID runID p w = (Panics, w)
        /\ sentExactly lib "POST" (submitURL c threadID runID)
             (marshalledBody lib (ofSubmitToolOutputsRequest None)) (viaSendRequest c)
             w (snd (Service.SubmitToolOutputs lib c threadID runID p w))).
Proof.
  split; [|split].
  - intros threadID p Hp. split.
    + unfold Service.CreateAndStream. now rewrite Hp.
    + pose proof (createRun_exact lib c
                    (Client.BaseURL c +:+ "/threads/" +:+ threadID +:+ "/runs")
                    (refCreateRunRequest p) w) as H.
      simpl load in H. rewrite Hp in H. exact H.
  - intros p Hp. split.
    + unfold Service.CreateThreadAndRunStream. now rewrite Hp.
    + pose proof (createRun_exact lib c (Client.BaseURL c +:+ "/threads/runs")
                    (refCreateThreadAndRunRequest p) w) as H.
      simpl load in H. rewrite Hp in H. exact H.
  - intros threadID runID p Hp. split.
    + unfold Service.SubmitToolOutputsStream. now rewrite Hp.
    + pose proof (SubmitToolOutputs_exact lib c threadID runID p w) as H.
      rewrite Hp in H. exact H.
Qed.

(** Address 9 holds no request. *)
Lemma nil_request_pointer_witness :
  Service.SubmitToolOutputsStream exampleLibrary (clientAnswering (Ok completedAnswer))
    "thread_123" "run_123" 9%positive exampleWorld
  = (Panics, exampleWorld)
  /\ sentExactly exampleLibrary "POST"
       (submitURL (clientAnswering (Ok completedAnswer)) "thread_123" "run_123")
       (marshalledBody exampleLibrary (ofSubmitToolOutputsRequest None))
       (viaSendRequest (clientAnswering (Ok completedAnswer)))
       exampleWorld
       (snd (Service.SubmitToolOutputs exampleLibrary
               (clientAnswering (Ok completedAnswer))
               "thread_123" "run_123" 9%positive exampleWorld)).
Proof.
  apply (proj2 (proj2 (nil_request_pointer exampleLibrary
                         (clientAnswering (Ok completedAnswer)) exampleWorld))
           "thread_123" "run_123" 9%positive).
  reflexivity.
Defined.

Example nil_submission_scenario :
  Request.Body <$>
    sent (snd (Service.SubmitToolOutputs exampleLibrary
                 (clientAnswering (Ok completedAnswer))
                 "thread_123" "run_123" 9%positive exampleWorld))
  = [Some "null"].
Proof. vm_compute. reflexivity. Qed.

(** X15. [Cancel] never returns the error of the transport as it is: an
    error of [Cancel] wraps the error of [http.NewRequest] or of
    [SendRequest], prefixes its message, and gives it back through
    [Unwrap].  In particular an [APIError] of the service, which [Get]
    returns as such, comes out of [Cancel] wrapped. *)
Theorem Cancel_wraps_errors (lib : Library) (c : Client.t)
    (threadID runID : string) (w : World) (e : error) :
  fst (Service.Cancel lib c threadID runID w) = Err e ->
  (exists inner,
     Unwrap e = Some inner /\
     ((http_NewRequest lib "POST" (Request.URL (cancelRequest c threadID runID))
       = Some inner /\
       Error e = "failed to create request: " +:+ Error inner) \/
      (fst (SendRequest lib c (cancelRequest c threadID runID)
              (json_Unmarshal_Run lib) w) = Err inner /\
       Error e = "SendRequest failed: " +:+ Error inner)))
  /\ (forall a, e <> apiError a).
Proof.
  unfold Service.Cancel, NewRequest, cancelRequest. simpl Request.URL.
  destruct (http_NewRequest lib "POST" _) as [err|] eqn:Hn.
  - intros [= <-]. split; [|discriminate].
    exists err. split; [reflexivity|]. left. now split.
  - match goal with
    | |- context [SendRequest lib c ?r ?u w] =>
        destruct (SendRequest lib c r u w) as [[v|err] w'] eqn:Hs
    end; [discriminate|].
    intros [= <-]. split; [|discriminate].
    exists err. split; [reflexivity|]. right. now split.
Qed.

(** The service answers 400 with an error document: [Cancel] wraps the
    [APIError]. *)
Lemma Cancel_wraps_errors_witness :
  (exists inner,
     Unwrap (Errorf_w "SendRequest failed: "
               (apiError (APIError.mk "error message" "invalid_request_error" ""
                            "invalid_api_key"))) = Some inner /\
     ((http_NewRequest exampleLibrary "POST"
         (Request.URL
            (cancelRequest
               (clientAnswering (Ok (Response.mk 400 (mkReader apiErrorJSON io_EOF))))
               "thread_123" "run_123")) = Some inner /\
       Error (Errorf_w "SendRequest failed: "
                (apiError (APIError.mk "error message" "invalid_request_error" ""
                             "invalid_api_key")))
       = "failed to create request: " +:+ Error inner) \/
      (fst (SendRequest exampleLibrary
              (clientAnswering (Ok (Response.mk 400 (mkReader apiErrorJSON io_EOF))))
              (cancelRequest
                 (clientAnswering (Ok (Response.mk 400 (mkReader apiErrorJSON io_EOF))))
                 "thread_123" "run_123")
              (json_Unmarshal_Run exampleLibrary) exampleWorld) = Err inner /\
       Error (Errorf_w "SendRequest failed: "
                (apiError (APIError.mk "error message" "invalid_request_error" ""
                             "invalid_api_key")))
       = "SendRequest failed: " +:+ Error inner)))
  /\ (forall a,
        Errorf_w "SendRequest failed: "
          (apiError (APIError.mk "error message" "invalid_request_error" ""
                       "invalid_api_key")) <> apiError a).
Proof.
  apply (Cancel_wraps_errors exampleLibrary
           (clientAnswering (Ok (Response.mk 400 (mkReader apiErrorJSON io_EOF))))
           "thread_123" "run_123" exampleWorld).
  reflexivity.
Defined.

Example Get_and_Cancel_on_400_scenario :
  fst (Service.Get exampleLibrary
         (clientAnswering (Ok (Response.mk 400 (mkReader apiErrorJSON io_EOF))))
         "thread_123" "run_123" exampleWorld)
  = Err (apiError (APIError.mk "error message" "invalid_request_error" ""
                     "invalid_api_key"))
  /\ Error <$> (match fst (Service.Cancel exampleLibrary
                        (clientAnswering
                           (Ok (Response.mk 400 (mkReader apiErrorJSON io_EOF))))
                        "thread_123" "run_123" exampleWorld) with
                | Err e => Some e
                | Ok _ => None
                end)
     = Some ("SendRequest failed: OpenAI API error: error message " +:+
             "(type: invalid_request_error, code: invalid_api_key)").
Proof. vm_compute. repeat split. Qed.

(** X16. When [SendRequest] returns an [APIError], the transport did
    answer, with a status other than 200 and a body, read to its end,
    that decodes to this very [APIError]: the client never makes one
    up for a failure of the network, of the read or of the decoding of a
    200 answer. *)
Theorem APIError_comes_from_the_service {V : Type} (lib : Library) (c : Client.t)
    (req : Request.t) (unmarshal : string -> result V) (w : World) (a : APIError.t) :
  fst (SendRequest lib c req unmarshal w) = Err (apiError a) ->
  exists resp body,
    Client.HTTPClient c (sent w) (authorized c req) = Ok resp /\
    ReadAll (Response.Body resp) = (body, None) /\
    Response.StatusCode resp <> StatusOK /\
    json_Unmarshal_APIError lib body = Ok a.
Proof.
  rewrite SendRequest_result.
  destruct (Client.HTTPClient c (sent w) _) as [resp|err]; [|discriminate].
  destruct (ReadAll (Response.Body resp)) as [body [err|]] eqn:Hr; [discriminate|].
  destruct (Response.StatusCode resp =? StatusOK) eqn:Hs.
  - now destruct (unmarshal body).
  - destruct (json_Unmarshal_APIError lib body) as [a'|err] eqn:Hu; [|discriminate].
    intros [= ->]. exists resp, body. apply Z.eqb_neq in Hs. now repeat split.
Qed.

Lemma APIError_comes_from_the_service_witness :
  exists resp body,
    Client.HTTPClient
      (clientAnswering (Ok (Response.mk 400 (mkReader apiErrorJSON io_EOF))))
      (sent exampleWorld)
      (authorized (clientAnswering (Ok (Response.mk 400 (mkReader apiErrorJSON io_EOF))))
         (Request.mk "GET" "/test" ∅ None)) = Ok resp /\
    ReadAll (Response.Body resp) = (body, None) /\
    Response.StatusCode resp <> StatusOK /\
    json_Unmarshal_APIError exampleLibrary body
    = Ok (APIError.mk "error message" "invalid_request_error" "" "invalid_api_key").
Proof.
  apply (APIError_comes_from_the_service exampleLibrary
           (clientAnswering (Ok (Response.mk 400 (mkReader apiErrorJSON io_EOF))))
           (Request.mk "GET" "/test" ∅ None) (json_Unmarshal_Run exampleLibrary)
           exampleWorld).
  reflexivity.
Defined.

(** * Properties of the example callers *)

Lemma newLoc_fresh {A : Type} (h : gmap loc A) : h !! newLoc h = None.
Proof. apply not_elem_of_dom. unfold newLoc. apply is_fresh. Qed.

Section CallerFacts.

Variable lib : Library.
Variable c : Client.t.

Lemma SubmitToolOutputs_world (threadID runID : string) (p : loc) (w : World) :
  sentOnlyBodyOf lib (ofSubmitToolOutputsRequest (submitToolOutputsRequests w !! p)) w
    (snd (Service.SubmitToolOutputs lib c threadID runID p w)).
Proof.
  unfold Service.SubmitToolOutputs, NewRequest.
  destruct (json_Marshal lib _) as [body|err] eqn:Hm; [|now left].
  destruct (http_NewRequest lib "POST" _) as [err|]; [now left|].
  right. eexists _, body. repeat split; [exact Hm | | |]; cycle 2.
  - apply SendRequest_world.
  - reflexivity.
  - reflexivity.
Qed.

Lemma SubmitToolOutputsStream_world (threadID runID : string) (p : loc)
    (req : SubmitToolOutputsRequest.t) (w : World) :
  submitToolOutputsRequests w !! p = Some req ->
  sentOnlyBodyOf lib
    (ofSubmitToolOutputsRequest (Some (SubmitToolOutputsRequest.setStream true req)))
    (withSubmitToolOutputsRequests
       (<[p := SubmitToolOutputsRequest.setStream true req]>
          (submitToolOutputsRequests w)) w)
    (snd (Service.SubmitToolOutputsStream lib c threadID runID p w)).
Proof.
  intros Hp. unfold Service.SubmitToolOutputsStream, NewRequest, Do. rewrite Hp.
  cbv zeta. simpl submitToolOutputsRequests. rewrite lookup_insert_eq.
  destruct (json_Marshal lib _) as [body|err] eqn:Hm; [|now left].
  destruct (http_NewRequest lib "POST" _) as [err|]; [now left|].
  right. eexists _, body. repeat split; [exact Hm | | |]; cycle 2.
  - destruct (Client.HTTPClient c _ _) as [resp|err]; [|reflexivity].
    destruct (negb (Response.StatusCode resp =? StatusOK)); reflexivity.
  - reflexivity.
  - reflexivity.
Qed.

Lemma SubmitToolOutputsStream_no_panic (threadID runID : string) (p : loc)
    (req : SubmitToolOutputsRequest.t) (w : World) :
  submitToolOutputsRequests w !! p = Some req ->
  fst (Service.SubmitToolOutputsStream lib c threadID runID p w) <> Panics.
Proof.
  intros Hp. unfold Service.SubmitToolOutputsStream, NewRequest, Do. rewrite Hp.
  cbv zeta.
  destruct (json_Marshal lib _) as [body|err]; [|discriminate].
  destruct (http_NewRequest lib "POST" _) as [err|]; [discriminate|].
  destruct (Client.HTTPClient c _ _) as [resp|err]; [|discriminate].
  destruct (negb (Response.StatusCode resp =? StatusOK)); discriminate.
Qed.

End CallerFacts.

(** X17. [handleRequiresAction] answers every tool call the required
    action lists, once each and in their order, with [Stream] unset: the
    request it allocates supplies exactly the outstanding ids, and the
    POST it causes carries the marshalling of that request: exactly one
    POST is sent when marshalling and request construction succeed,
    none when either fails.  When the required action has no
    [submit_tool_outputs] member it fails before allocating or sending
    anything.  The caller's other request structs are not touched. *)
Theorem handleRequiresAction_answers_every_call (lib : Library) (c : Client.t)
    (threadID runID : string) (action : RequiredAction.t) (w : World) :
  (forall s,
     RequiredAction.SubmitToolOutputs action = Some s ->
     exists p req,
       submitToolOutputsRequests w !! p = None
       /\ suppliedIDs req = map ToolCall.ID (SubmitToolOutputs.ToolCalls s)
       /\ SubmitToolOutputsRequest.Stream req = false
       /\ sentOnlyBodyOf lib (ofSubmitToolOutputsRequest (Some req))
            (withSubmitToolOutputsRequests (<[p := req]> (submitToolOutputsRequests w)) w)
            (snd (handleRequiresAction lib c threadID runID (Some action) w))
       /\ sentExactly lib "POST" (submitURL c threadID runID)
            (marshalledBody lib (ofSubmitToolOutputsRequest (Some req)))
            (viaSendRequest c)
            (withSubmitToolOutputsRequests (<[p := req]> (submitToolOutputsRequests w)) w)
            (snd (handleRequiresAction lib c threadID runID (Some action) w))
       /\ fst (handleRequiresAction lib c threadID runID (Some action) w) <> Panics)
  /\ (RequiredAction.SubmitToolOutputs action = None ->
      handleRequiresAction lib c threadID runID (Some action) w
      = (Returns (Err (errorString "no submit_tool_outputs found in required_action")), w)).
Proof.
  split.
  - intros s Hs. unfold handleRequiresAction. rewrite Hs. cbv zeta.
    exists (newLoc (submitToolOutputsRequests w)),
      (SubmitToolOutputsRequest.mk
         (map (fun toolCall =>
                 ToolOutput.mk (ToolCall.ID toolCall)
                   ("Dummy output for tool call " +:+ ToolCall.ID toolCall))
            (SubmitToolOutputs.ToolCalls s)) false).
    split; [apply newLoc_fresh|].
    split; [|split; [reflexivity|]].
    + unfold suppliedIDs. simpl. rewrite map_map. reflexivity.
    + match goal with
      | |- context [Service.SubmitToolOutputs lib c ?t ?r ?p ?w1] =>
          pose proof (SubmitToolOutputs_world lib c t r p w1) as H;
          pose proof (SubmitToolOutputs_exact lib c t r p w1) as He;
          destruct (Service.SubmitToolOutputs lib c t r p w1) as [[run|err] w2]
      end; simpl in H, He; rewrite lookup_insert_eq in H, He;
        (split; [exact H|]); (split; [exact He|]); discriminate.
  - intros Hs. unfold handleRequiresAction. now rewrite Hs.
Qed.

Lemma handleRequiresAction_answers_every_call_witness :
  exists p req,
    submitToolOutputsRequests exampleWorld !! p = None
    /\ suppliedIDs req = ["A"; "B"]
    /\ SubmitToolOutputsRequest.Stream req = false
    /\ sentOnlyBodyOf exampleLibrary (ofSubmitToolOutputsRequest (Some req))
         (withSubmitToolOutputsRequests
            (<[p := req]> (submitToolOutputsRequests exampleWorld)) exampleWorld)
         (snd (handleRequiresAction exampleLibrary (clientAnswering (Ok completedAnswer))
                 "thread_123" "run_123" (Some actionAB) exampleWorld))
    /\ sentExactly exampleLibrary "POST"
         (submitURL (clientAnswering (Ok completedAnswer)) "thread_123" "run_123")
         (marshalledBody exampleLibrary (ofSubmitToolOutputsRequest (Some req)))
         (viaSendRequest (clientAnswering (Ok completedAnswer)))
         (withSubmitToolOutputsRequests
            (<[p := req]> (submitToolOutputsRequests exampleWorld)) exampleWorld)
         (snd (handleRequiresAction exampleLibrary (clientAnswering (Ok completedAnswer))
                 "thread_123" "run_123" (Some actionAB) exampleWorld))
    /\ fst (handleRequiresAction exampleLibrary (clientAnswering (Ok completedAnswer))
              "thread_123" "run_123" (Some actionAB) exampleWorld) <> Panics.
Proof.
  apply (proj1 (handleRequiresAction_answers_every_call exampleLibrary
                  (clientAnswering (Ok completedAnswer)) "thread_123" "run_123"
                  actionAB exampleWorld)
           (SubmitToolOutputs.mk
              [ToolCall.mk "A" "function" None; ToolCall.mk "B" "function" None])).
  reflexivity.
Defined.

Example handleRequiresAction_scenario :
  match handleRequiresAction exampleLibrary (clientAnswering (Ok completedAnswer))
          "thread_123" "run_123" (Some actionAB) exampleWorld with
  | (r, w') =>
      r = Returns (Ok tt)
      /\ Request.Body <$> sent w'
         = [Some (submitJSON
                    (SubmitToolOutputsRequest.mk
                       [ToolOutput.mk "A" "Dummy output for tool call A";
                        ToolOutput.mk "B" "Dummy output for tool call B"] false))]
  end.
Proof. vm_compute. repeat split. Qed.

Lemma omap_function_ids (toolCalls : list ToolCall.t) :
  map ToolOutput.ToolCallID
    (omap (fun call =>
             match ToolCall.Function call with
             | Some _ => Some (ToolOutput.mk (ToolCall.ID call) weatherOutput)
             | None => None
             end) toolCalls)
  = map ToolCall.ID
      (List.filter (fun call => match ToolCall.Function call with
                                | Some _ => true
                                | None => false
                                end) toolCalls).
Proof.
  induction toolCalls as [|call calls IH]; [reflexivity|].
  simpl. destruct (ToolCall.Function call); simpl; [f_equal|]; exact IH.
Qed.

(** X18. [submitToolOutputs] of the runs example supplies an output for
    the tool calls that have a function record and for no other: a tool
    call without one is left unanswered, and the request, which asks
    for a stream, goes out all the same: exactly one POST is sent when
    marshalling and request construction succeed, none when either
    fails, whatever the number of tool calls answered.  The function
    never panics, and it reports success whenever the stream was opened,
    whatever events the stream delivered, an error event included. *)
Theorem submitToolOutputs_skips_calls_without_function (lib : Library) (c : Client.t)
    (threadID runID : string) (toolCalls : list ToolCall.t) (w : World) :
  exists p req,
    submitToolOutputsRequests w !! p = None
    /\ suppliedIDs req
       = map ToolCall.ID
           (List.filter (fun call => match ToolCall.Function call with
                                     | Some _ => true
                                     | None => false
                                     end) toolCalls)
    /\ SubmitToolOutputsRequest.Stream req = true
    /\ sentOnlyBodyOf lib (ofSubmitToolOutputsRequest (Some req))
         (withSubmitToolOutputsRequests (<[p := req]> (submitToolOutputsRequests w)) w)
         (snd (submitToolOutputs lib c threadID runID toolCalls w))
    /\ sentExactly lib "POST" (submitURL c threadID runID)
         (marshalledBody lib (ofSubmitToolOutputsRequest (Some req)))
         (Service.prepareRequest c)
         (withSubmitToolOutputsRequests (<[p := req]> (submitToolOutputsRequests w)) w)
         (snd (submitToolOutputs lib c threadID runID toolCalls w))
    /\ fst (submitToolOutputs lib c threadID runID toolCalls w) <> Panics
    /\ (forall events,
          fst (Service.SubmitToolOutputsStream lib c threadID runID p
                 (withSubmitToolOutputsRequests
                    (<[p := req]> (submitToolOutputsRequests w)) w))
          = Returns (Ok events) ->
          fst (submitToolOutputs lib c threadID runID toolCalls w) = Returns (Ok tt)).
Proof.
  unfold submitToolOutputs. cbv zeta.
  exists (newLoc (submitToolOutputsRequests w)),
    (SubmitToolOutputsRequest.mk
       (omap (fun call =>
                match ToolCall.Function call with
                | Some _ => Some (ToolOutput.mk (ToolCall.ID call) weatherOutput)
                | None => None
                end) toolCalls) true).
  split; [apply newLoc_fresh|].
  split; [unfold suppliedIDs; simpl; apply omap_function_ids|].
  split; [reflexivity|].
  match goal with
  | |- context [Service.SubmitToolOutputsStream lib c ?t ?r ?p ?w1] =>
      pose proof (SubmitToolOutputsStream_world lib c t r p _ w1
                    (lookup_insert_eq _ _ _)) as H;
      pose proof (SubmitToolOutputsStream_exact lib c t r p _ w1
                    (lookup_insert_eq _ _ _)) as He;
      pose proof (SubmitToolOutputsStream_no_panic lib c t r p _ w1
                    (lookup_insert_eq _ _ _)) as Hn;
      destruct (Service.SubmitToolOutputsStream lib c t r p w1) as [[[evs|err]|] w2]
  end; simpl in H, He, Hn; try contradiction;
    unfold SubmitToolOutputsRequest.setStream in H, He; simpl in H, He;
    rewrite insert_insert_eq in H, He.
  - split; [exact H|]. split; [exact He|]. split; [discriminate|]. reflexivity.
  - split; [exact H|]. split; [exact He|]. split; [discriminate|]. discriminate.
Qed.

(** The second tool call has no function record; the stream fails in
    the middle. *)
Example submitToolOutputs_scenario :
  match submitToolOutputs exampleLibrary
          (clientAnswering
             (Ok (Response.mk 200
                    (mkReader (bytesOf completedFrame +:+ "data: {")
                       (Foreign "connection reset")))))
          "thread_123" "run_123"
          [ToolCall.mk "A" "function" (Some (FunctionCall.mk "get_current_weather" "{}" ""));
           ToolCall.mk "B" "function" None]
          exampleWorld with
  | (r, w') =>
      r = Returns (Ok tt)
      /\ Request.Body <$> sent w'
         = [Some (submitJSON
                    (SubmitToolOutputsRequest.mk [ToolOutput.mk "A" weatherOutput] true))]
  end.
Proof. vm_compute. repeat split. Qed.

(** X19. When the run found by [createStreamingRun] requires tool
    outputs, the function answers the first tool call alone: the
    request it allocates supplies the id of that call and no other,
    however many calls are outstanding, and the one POST it causes
    carries the marshalling of that request. *)
Theorem createStreamingRun_answers_first_call_only (lib : Library) (c : Client.t)
    (threadID : string) (run : Run.t) (action : RequiredAction.t)
    (s : SubmitToolOutputs.t) (call : ToolCall.t) (more : list ToolCall.t) (w : World) :
  Run.RequiredAction run = Some action ->
  String.eqb (RequiredAction.Type_ action) "submit_tool_outputs" = true ->
  RequiredAction.SubmitToolOutputs action = Some s ->
  SubmitToolOutputs.ToolCalls s = call :: more ->
  exists p req,
    submitToolOutputsRequests w !! p = None
    /\ outstandingIDs run = ToolCall.ID call :: map ToolCall.ID more
    /\ suppliedIDs req = [ToolCall.ID call]
    /\ sentOnlyBodyOf lib (ofSubmitToolOutputsRequest (Some req))
         (withSubmitToolOutputsRequests (<[p := req]> (submitToolOutputsRequests w)) w)
         (snd (createStreamingRun_submit lib c threadID (Some run) w)).
Proof.
  intros Ha Ht Hs Hc. unfold createStreamingRun_submit.
  rewrite Ha, Ht, Hs, Hc. cbv zeta.
  exists (newLoc (submitToolOutputsRequests w)),
    (SubmitToolOutputsRequest.mk [ToolOutput.mk (ToolCall.ID call) weatherOutput] true).
  split; [apply newLoc_fresh|].
  split; [unfold outstandingIDs; now rewrite Ha, Hs, Hc|].
  split; [reflexivity|].
  match goal with
  | |- context [Service.SubmitToolOutputsStream lib c ?t ?r ?p ?w1] =>
      pose proof (SubmitToolOutputsStream_world lib c t r p _ w1
                    (lookup_insert_eq _ _ _)) as H;
      destruct (Service.SubmitToolOutputsStream lib c t r p w1) as [[[evs|err]|] w2]
  end; simpl in H;
    unfold SubmitToolOutputsRequest.setStream in H; simpl in H;
    rewrite insert_insert_eq in H; exact H.
Qed.

(** A run that waits for the outputs of [A] and [B]. *)
Lemma createStreamingRun_answers_first_call_only_witness :
  exists p req,
    submitToolOutputsRequests exampleWorld !! p = None
    /\ outstandingIDs (snapshot "run_123" "requires_action" (Some actionAB))
       = "A" :: map ToolCall.ID [ToolCall.mk "B" "function" None]
    /\ suppliedIDs req = ["A"]
    /\ sentOnlyBodyOf exampleLibrary (ofSubmitToolOutputsRequest (Some req))
         (withSubmitToolOutputsRequests
            (<[p := req]> (submitToolOutputsRequests exampleWorld)) exampleWorld)
         (snd (createStreamingRun_submit exampleLibrary
                 (clientAnswering (Ok (Response.mk 200 completedStream))) "thread_123"
                 (Some (snapshot "run_123" "requires_action" (Some actionAB)))
                 exampleWorld)).
Proof.
  apply (createStreamingRun_answers_first_call_only exampleLibrary
           (clientAnswering (Ok (Response.mk 200 completedStream))) "thread_123"
           (snapshot "run_123" "requires_action" (Some actionAB)) actionAB
           (SubmitToolOutputs.mk
              [ToolCall.mk "A" "function" None; ToolCall.mk "B" "function" None])
           (ToolCall.mk "A" "function" None) [ToolCall.mk "B" "function" None]
           exampleWorld).
  - reflexivity.
  - reflexivity.
  - reflexivity.
  - reflexivity.
Defined.

(** X20. [createStreamingRun] panics, after the run was created and
    its events consumed, when the run found requires tool outputs but
    lists no tool call: it indexes the first tool call without looking
    at their number, and reads them without checking that the
    [submit_tool_outputs] member is there. *)
Theorem createStreamingRun_panics_without_tool_calls (lib : Library) (c : Client.t)
    (threadID assistantID : string) (w w' : World) (events : list RunEvent.t)
    (run : Run.t) (action : RequiredAction.t) :
  Service.CreateAndStream lib c threadID (newLoc (createRunRequests w))
    (withCreateRunRequests
       (<[newLoc (createRunRequests w) :=
            CreateRunRequest.mk assistantID None None None [] None ∅ None None true
              None None None Nil Nil None]> (createRunRequests w)) w)
  = (Returns (Ok events), w') ->
  createStreamingRun_events lib events None = Ok (Some run) ->
  Run.RequiredAction run = Some action ->
  String.eqb (RequiredAction.Type_ action) "submit_tool_outputs" = true ->
  outstandingIDs run = [] ->
  createStreamingRun lib c threadID assistantID w = (Panics, w').
Proof.
  intros Hc He Ha Ht Ho. unfold createStreamingRun. cbv zeta.
  rewrite Hc, He. unfold createStreamingRun_submit. rewrite Ha, Ht.
  unfold outstandingIDs in Ho. rewrite Ha in Ho.
  destruct (RequiredAction.SubmitToolOutputs action) as [s|]; [|reflexivity].
  destruct (SubmitToolOutputs.ToolCalls s); [reflexivity | discriminate].
Qed.

Lemma createStreamingRun_panics_without_tool_calls_witness :
  fst (createStreamingRun exampleLibrary
         (clientAnswering (Ok (Response.mk 200 bareActionStream)))
         "thread_123" "asst_123" exampleWorld)
  = Panics.
Proof.
  rewrite (createStreamingRun_panics_without_tool_calls exampleLibrary
             (clientAnswering (Ok (Response.mk 200 bareActionStream)))
             "thread_123" "asst_123" exampleWorld
             (snd (Service.CreateAndStream exampleLibrary
                     (clientAnswering (Ok (Response.mk 200 bareActionStream)))
                     "thread_123" (newLoc (createRunRequests exampleWorld))
                     (withCreateRunRequests
                        (<[newLoc (createRunRequests exampleWorld) :=
                             CreateRunRequest.mk "asst_123" None None None [] None ∅ None
                               None true None None None Nil Nil None]>
                           (createRunRequests exampleWorld)) exampleWorld)))
             [RunEvent.mk "thread.run.requires_action"
                (Some (runJSON "run_123" "completed" actionBareJSON));
              doneEvent]
             (snapshot "run_123" "completed" (Some actionBare)) actionBare).
  - reflexivity.
  - vm_compute. reflexivity.
  - vm_compute. reflexivity.
  - reflexivity.
  - reflexivity.
  - reflexivity.
Defined.

Lemma createStreamingRun_events_app (lib : Library) (pre post : list RunEvent.t)
    (cur : option Run.t) :
  createStreamingRun_events lib (pre ++ post) cur =
  match createStreamingRun_events lib pre cur with
  | Err err => Err err
  | Ok cur' => createStreamingRun_events lib post cur'
  end.
Proof.
  revert cur. induction pre as [|e pre IH]; intros cur; [reflexivity|].
  simpl. destruct (RunEvent.Data e) as [data|]; [|apply IH].
  destruct (0 <? String.length data)%nat; [|apply IH].
  destruct (String.eqb (RunEvent.Event e) "thread.run.requires_action"); [|apply IH].
  destruct (json_Unmarshal_Run lib data); [apply IH | reflexivity].
Qed.

Lemma createStreamingRun_events_skip (lib : Library) (events : list RunEvent.t)
    (cur : option Run.t) :
  Forall (fun e => decodedEvent e = false) events ->
  createStreamingRun_events lib events cur = Ok cur.
Proof.
  intros H. induction H as [|e events He _ IH]; [reflexivity|].
  simpl. unfold decodedEvent in He.
  destruct (RunEvent.Data e) as [data|]; [|exact IH].
  destruct (0 <? String.length data)%nat; [|exact IH].
  simpl in He. now rewrite He.
Qed.

(** X21. The run that [createStreamingRun] acts on is the one decoded
    from the last [thread.run.requires_action] event that carries data:
    earlier ones are overwritten, and events of other names or without
    data are passed over, the error event of a failed stream included. *)
Theorem createStreamingRun_keeps_last_required_action (lib : Library)
    (pre post : list RunEvent.t) (e : RunEvent.t) (data : string)
    (earlier : option Run.t) (run : Run.t) :
  createStreamingRun_events lib pre None = Ok earlier ->
  RunEvent.Event e = "thread.run.requires_action" ->
  RunEvent.Data e = Some data ->
  (0 < String.length data)%nat ->
  json_Unmarshal_Run lib data = Ok run ->
  Forall (fun e' => decodedEvent e' = false) post ->
  createStreamingRun_events lib (pre ++ e :: post) None = Ok (Some run).
Proof.
  intros Hpre He Hd Hl Hu Hpost.
  rewrite createStreamingRun_events_app, Hpre. simpl. rewrite Hd, He, Hu.
  apply Nat.ltb_lt in Hl. rewrite Hl. simpl.
  now apply createStreamingRun_events_skip.
Qed.

(** Two [requires_action] events, then a read failure. *)
Lemma createStreamingRun_keeps_last_required_action_witness :
  createStreamingRun_events exampleLibrary
    ([RunEvent.mk "thread.run.requires_action"
        (Some (runJSON "run_123" "requires_action" ""))] ++
     RunEvent.mk "thread.run.requires_action"
       (Some (runJSON "run_123" "requires_action" actionABJSON)) ::
     [errorEvent (Foreign "connection reset")]) None
  = Ok (Some (snapshot "run_123" "requires_action" (Some actionAB))).
Proof.
  apply (createStreamingRun_keeps_last_required_action exampleLibrary
           [RunEvent.mk "thread.run.requires_action"
              (Some (runJSON "run_123" "requires_action" ""))]
           [errorEvent (Foreign "connection reset")]
           (RunEvent.mk "thread.run.requires_action"
              (Some (runJSON "run_123" "requires_action" actionABJSON)))
           (runJSON "run_123" "requires_action" actionABJSON)
           (Some (snapshot "run_123" "requires_action" None))
           (snapshot "run_123" "requires_action" (Some actionAB))).
  - reflexivity.
  - reflexivity.
  - reflexivity.
  - vm_compute. lia.
  - reflexivity.
  - repeat constructor.
Defined.

(** * Properties of the listing of runs *)

Lemma length_append (a b : string) :
  String.length (a +:+ b) = (String.length a + String.length b)%nat.
Proof.
  induction a as [|x a IH]; [reflexivity|].
  rewrite append_cons. simpl. now rewrite IH.
Qed.

(** Cutting the last byte of a string that ends in [c]. *)
Lemma substring_cut_last (s : string) (c : ascii) :
  String.substring 0 (String.length (s +:+ String c EmptyString) - 1)
    (s +:+ String c EmptyString) = s.
Proof.
  induction s as [|x s IH]; [reflexivity|].
  rewrite append_cons.
  replace (String.length (String x (s +:+ String c EmptyString)) - 1)%nat
    with (S (String.length (s +:+ String c EmptyString) - 1)).
  - simpl. now rewrite IH.
  - simpl. rewrite length_append. simpl. lia.
Qed.

Lemma fold_left_query (pairs : list (string * string)) (url : string) :
  fold_left (fun url kv => url +:+ (fst kv +:+ "=" +:+ snd kv +:+ "&")) pairs url
  = url +:+ bytesOf (map (fun kv => fst kv +:+ "=" +:+ snd kv +:+ "&") pairs).
Proof.
  revert url. induction pairs as [|kv pairs IH]; intros url; simpl.
  - now rewrite append_nil_r.
  - rewrite IH. now rewrite append_assoc.
Qed.

Lemma bytesOf_query_Join (pairs : list (string * string)) :
  pairs <> [] ->
  bytesOf (map (fun kv => fst kv +:+ "=" +:+ snd kv +:+ "&") pairs)
  = Join (map (fun kv => fst kv +:+ "=" +:+ snd kv) pairs) "&" +:+ "&".
Proof.
  induction pairs as [|kv pairs IH]; [congruence|]. intros _.
  destruct pairs as [|kv' pairs].
  - simpl. now rewrite append_nil_r, !append_assoc.
  - change (bytesOf (map _ (kv :: kv' :: pairs)))
      with ((fst kv +:+ "=" +:+ snd kv +:+ "&") +:+
            bytesOf (map (fun kv => fst kv +:+ "=" +:+ snd kv +:+ "&") (kv' :: pairs))).
    rewrite IH by discriminate.
    change (Join (map _ (kv :: kv' :: pairs)) "&")
      with ((fst kv +:+ "=" +:+ snd kv) +:+ "&" +:+
            Join (map (fun kv => fst kv +:+ "=" +:+ snd kv) (kv' :: pairs)) "&").
    now rewrite !append_assoc.
Qed.

Lemma List_query_entries (params : ListRunsParams.t) :
  map_to_list (runs.List_query params) ≡ₚ setParameters params.
Proof.
  destruct params as [[limit|] [order|] [after|] [before|]];
    unfold runs.List_query, setParameters; simpl;
    repeat (rewrite map_to_list_insert by (by simplify_map_eq));
    rewrite map_to_list_empty; simpl;
    (reflexivity || (symmetry; apply Permutation_rev) || idtac).
  all: try (apply Permutation_rev').
  all: try (etrans; [|symmetry; apply Permutation_rev]; reflexivity).
Qed.

(** X22. The URL that [List] requests is the runs URL of the thread
    when [params] is nil or sets no parameter; otherwise it is that URL
    followed by [?] and one [name=value] for each parameter set, in the
    order in which the map happens to be visited, joined by [&], with no
    [&] at the end.  The values go in as they are.  The request is a GET
    without body, sent once when the URL parses. *)
Theorem List_url_has_one_entry_per_parameter
    (rangeMap : gmap string string -> list (string * string))
    (lib : Library) (c : Client.t) (unmarshal : string -> result ListRunsResponse.t)
    (threadID : string) (w : World) :
  (forall m, rangeMap m ≡ₚ map_to_list m) ->
  (forall base, runs.List_url rangeMap base None = base)
  /\ (forall base params,
        exists pairs,
          pairs ≡ₚ setParameters params /\
          runs.List_url rangeMap base (Some params)
          = match pairs with
            | [] => base
            | _ => base +:+ "?" +:+
                   Join (map (fun kv => fst kv +:+ "=" +:+ snd kv) pairs) "&"
            end)
  /\ (forall params,
        http_NewRequest lib "GET"
          (runs.List_url rangeMap
             (Client.BaseURL c +:+ "/threads/" +:+ threadID +:+ "/runs") params) = None ->
        snd (runs.List rangeMap lib c unmarshal threadID params w)
        = afterSending
            (authorized c
               (listRequest
                  (runs.List_url rangeMap
                     (Client.BaseURL c +:+ "/threads/" +:+ threadID +:+ "/runs") params)))
            w).
Proof.
  intros Hperm. split; [reflexivity|]. split.
  - intros base params. exists (rangeMap (runs.List_query params)).
    split; [now rewrite Hperm, List_query_entries|].
    unfold runs.List_url. cbv zeta.
    pose proof (Hperm (runs.List_query params)) as Hp.
    rewrite <- (length_map_to_list (runs.List_query params)).
    destruct (map_to_list (runs.List_query params)) as [|kv0 l0] eqn:Hl.
    + apply Permutation_nil_r in Hp. now rewrite Hp.
    + destruct (rangeMap (runs.List_query params)) as [|kv pairs] eqn:Hr.
      { symmetry in Hp. apply Permutation_nil_r in Hp. discriminate. }
      change (0 <? length (kv0 :: l0))%nat with true. cbv iota.
      rewrite fold_left_query, bytesOf_query_Join by discriminate.
      rewrite <- !append_assoc.
      rewrite (substring_cut_last _ "&"%char).
      now rewrite !append_assoc.
  - intros params Hn. unfold runs.List, NewRequest. cbv zeta. rewrite Hn.
    apply SendRequest_world.
Qed.

Lemma List_url_has_one_entry_per_parameter_witness :
  exists pairs,
    pairs ≡ₚ setParameters (ListRunsParams.mk (Some 10) (Some "desc") None None) /\
    runs.List_url map_to_list "https://api.openai.com/v1/threads/thread_123/runs"
      (Some (ListRunsParams.mk (Some 10) (Some "desc") None None))
    = match pairs with
      | [] => "https://api.openai.com/v1/threads/thread_123/runs"
      | _ => "https://api.openai.com/v1/threads/thread_123/runs" +:+ "?" +:+
             Join (map (fun kv => fst kv +:+ "=" +:+ snd kv) pairs) "&"
      end.
Proof.
  apply (proj1 (proj2 (List_url_has_one_entry_per_parameter map_to_list exampleLibrary
                         (clientAnswering (Ok completedAnswer))
                         (fun _ => Err syntaxError) "thread_123" exampleWorld
                         (fun m => Permutation_refl (map_to_list m))))).
Defined.

Example List_url_scenario :
  runs.List_url map_to_list "/threads/thread_123/runs"
    (Some (ListRunsParams.mk (Some 10) (Some "desc") None None))
  = "/threads/thread_123/runs?order=desc&limit=10"
  /\ runs.List_url map_to_list "/threads/thread_123/runs"
       (Some (ListRunsParams.mk None None None None))
     = "/threads/thread_123/runs".
Proof. vm_compute. repeat split. Qed.
